(** * AttendEase: attendance records, status buckets, summaries and routes

    A shallow embedding of the parts of the AttendEase repository that
    classify attendance percentages, summarise per-subject records, map
    scraping failures to HTTP responses and tear the headless browser down.

    Numbers.  JavaScript numbers are IEEE binary64 values.  Where the
    code only compares, counts and labels them they are read as exact
    rationals ([Q]) and integers ([Z]); [toFixed2] is
    [Number.prototype.toFixed(2)] followed by [parseFloat], on the exact
    value.  The functions that multiply and divide ([calculateClassesNeeded],
    [calculateClassesCanMiss], [calculateProjectedAttendance], the card's
    [calculateClassesToAttend]) are also read in binary64 itself, with
    every operation rounded ([Double], [UtilsDouble]), and the two
    readings are compared.

    Strings.  A JavaScript string is modelled as a [string] whose
    characters are the code units U+0000..U+00FF. *)

From Stdlib Require Import ZArith QArith Qround Qabs Qpower Qreduction.
From Stdlib Require Import List String Ascii Bool Lia Lqa.
From Stdlib Require DecimalString Qcanon.
From Stdlib Require Import Permutation Sorted.
Import ListNotations.

Set Warnings "-register-all".
Set Implicit Arguments.

Local Open Scope string_scope.
Local Open Scope Z_scope.

(* ================================================================== *)
(** * Numbers *)
(* ================================================================== *)

Module Num.

(** [a >= b] on numbers, as a boolean. *)
Definition geb (a b : Q) : bool := Qle_bool b a.

(** [a < b] on numbers, as a boolean. *)
Definition ltb (a b : Q) : bool := negb (Qle_bool b a).

(** [parseFloat(x.toFixed(2))]: the multiple of 1/100 nearest to [x],
    the larger one on a tie; a negative [x] is rounded as [-x] and
    negated. *)
Definition toFixed2 (x : Q) : Q :=
  if Qle_bool 0 x
  then (inject_Z (Qfloor (x * 100 + (1 # 2))) / 100)%Q
  else (- (inject_Z (Qfloor ((- x) * 100 + (1 # 2))) / 100))%Q.

End Num.

(* ================================================================== *)
(** * Attendance utilities (frontend [attendanceUtils]) *)
(* ================================================================== *)

Module Utils.

(** [calculateClassesNeeded(currentAttended, currentTotal,
    targetPercentage)], over exact numbers and for a target other than
    100; [UtilsDouble.calculateClassesNeeded] is the same function in
    binary64. *)
Definition calculateClassesNeeded
    (currentAttended currentTotal : Z) (targetPercentage : Q) : Z :=
  if currentTotal =? 0 then 0
  else
    let currentPercentage :=
      (inject_Z currentAttended / inject_Z currentTotal * 100)%Q in
    if Num.geb currentPercentage targetPercentage then 0
    else
      let classesNeeded :=
        Qceiling ((targetPercentage * inject_Z currentTotal
                   - inject_Z currentAttended * 100)
                  / (100 - targetPercentage))%Q in
      Z.max 0 classesNeeded.

(** [getAttendanceStatus(percentage).status]. *)
Definition getAttendanceStatus (percentage : Q) : string :=
  if Num.geb percentage 75 then "Safe"%string
  else if Num.geb percentage 65 then "Warning"%string
  else "Critical"%string.

End Utils.

(* ================================================================== *)
(** * Strings *)
(* ================================================================== *)

Module Str.

(** [s.includes(sub)]: [sub] occurs somewhere in [s]. *)
Fixpoint includes (s sub : string) : bool :=
  match s with
  | EmptyString => String.prefix sub EmptyString
  | String _ rest => String.prefix sub s || includes rest sub
  end.

Definition code (c : ascii) : N := N_of_ascii c.

(** White space as [String.prototype.trim] and the regex class [\s]
    see it, among the code units below 256. *)
Definition isWhiteSpace (c : ascii) : bool :=
  let n := code c in
  ((9 <=? n) && (n <=? 13) || (n =? 32) || (n =? 160))%N.

Fixpoint trimStart (s : string) : string :=
  match s with
  | EmptyString => EmptyString
  | String c rest => if isWhiteSpace c then trimStart rest else s
  end.

Fixpoint trimEnd (s : string) : string :=
  match s with
  | EmptyString => EmptyString
  | String c rest =>
      match trimEnd rest with
      | EmptyString => if isWhiteSpace c then EmptyString
                       else String c EmptyString
      | r => String c r
      end
  end.

(** [s.trim()]. *)
Definition trim (s : string) : string := trimEnd (trimStart s).

Definition lowerChar (c : ascii) : ascii :=
  let n := code c in
  if ((65 <=? n) && (n <=? 90)
      || (192 <=? n) && (n <=? 214)
      || (216 <=? n) && (n <=? 222))%N
  then ascii_of_N (n + 32) else c.

(** The capital of a letter, where it is again a single code unit below
    256. *)
Definition upperChar (c : ascii) : ascii :=
  let n := code c in
  if ((97 <=? n) && (n <=? 122)
      || (224 <=? n) && (n <=? 246)
      || (248 <=? n) && (n <=? 254))%N
  then ascii_of_N (n - 32) else c.

Fixpoint mapChars (f : ascii -> ascii) (s : string) : string :=
  match s with
  | EmptyString => EmptyString
  | String c rest => String (f c) (mapChars f rest)
  end.

(** [s.toLowerCase()]. *)
Definition toLowerCase : string -> string := mapChars lowerChar.

Fixpoint allChars (p : ascii -> bool) (s : string) : bool :=
  match s with
  | EmptyString => true
  | String c rest => p c && allChars p rest
  end.

Fixpoint filterChars (p : ascii -> bool) (s : string) : string :=
  match s with
  | EmptyString => EmptyString
  | String c rest =>
      if p c then String c (filterChars p rest) else filterChars p rest
  end.

Definition isDigit (c : ascii) : bool :=
  ((48 <=? code c) && (code c <=? 57))%N.

(** [s.split(sep)[0]] for a one-character separator. *)
Fixpoint beforeFirst (sep : ascii) (s : string) : string :=
  match s with
  | EmptyString => EmptyString
  | String c rest =>
      if Ascii.eqb c sep then EmptyString
      else String c (beforeFirst sep rest)
  end.

(** [s.charAt(0).toUpperCase() + s.slice(1).replace(/[0-9]/g, '')]. *)
Definition capitalizeDropDigits (s : string) : string :=
  match s with
  | EmptyString => EmptyString
  | String c rest =>
      String (upperChar c) (filterChars (fun d => negb (isDigit d)) rest)
  end.

(** A non-negative integer in decimal, as a template literal prints it. *)
Definition ofZ (z : Z) : string :=
  DecimalString.NilZero.string_of_int (Z.to_int z).

(** JavaScript truthiness of a string. *)
Definition truthy (s : string) : bool :=
  negb (String.eqb s EmptyString).

End Str.

(* ================================================================== *)
(** * JSON values, as [res.json] sends them *)
(* ================================================================== *)

Inductive json : Type :=
| JNull
| JBool (b : bool)
| JNum (q : Q)
| JStr (s : string)
| JArr (items : list json)
| JObj (fields : list (string * json)).

Module Json.

Fixpoint assoc (k : string) (fields : list (string * json)) : option json :=
  match fields with
  | [] => None
  | (k', v) :: rest => if String.eqb k k' then Some v else assoc k rest
  end.

(** [o[k]], [None] standing for [undefined]. *)
Definition get (k : string) (o : json) : option json :=
  match o with
  | JObj fields => assoc k fields
  | _ => None
  end.

Fixpoint setField (k : string) (v : json) (fields : list (string * json))
  : list (string * json) :=
  match fields with
  | [] => [(k, v)]
  | (k', v') :: rest =>
      if String.eqb k k' then (k, v) :: rest
      else (k', v') :: setField k v rest
  end.

(** [o[k] = v]. *)
Definition set (k : string) (v : json) (o : json) : json :=
  match o with
  | JObj fields => JObj (setField k v fields)
  | other => other
  end.

Definition ofOptZ (z : option Z) : json :=
  match z with Some n => JNum (inject_Z n) | None => JNull end.

Definition ofOptStr (s : option string) : json :=
  match s with Some t => JStr t | None => JNull end.

Definition ofZ (z : Z) : json := JNum (inject_Z z).

End Json.

(* ================================================================== *)
(** * Exceptions and state *)
(* ================================================================== *)

(** The outcome of a call: a value, or a thrown [Error] with its message. *)
Inductive result (A : Type) : Type :=
| Ok (a : A)
| Throw (message : string).

Arguments Ok {A} a.
Arguments Throw {A} message.

Module Eff.

Section WithState.
Variable St : Type.

(** A computation over the state [St] that returns or throws. *)
Definition M (A : Type) : Type := St -> result A * St.

Definition ret {A} (a : A) : M A := fun s => (Ok a, s).

Definition throw {A} (msg : string) : M A := fun s => (Throw msg, s).

Definition bind {A B} (m : M A) (k : A -> M B) : M B :=
  fun s =>
    match m s with
    | (Ok a, s') => k a s'
    | (Throw msg, s') => (Throw msg, s')
    end.

Definition get : M St := fun s => (Ok s, s).

Definition modify (f : St -> St) : M unit := fun s => (Ok tt, f s).

(** [await x] for an operation whose outcome the environment fixed. *)
Definition await {A} (r : result A) : M A := fun s => (r, s).

(** [try { body } catch (error) { handler(error.message) }]. *)
Definition tryCatch {A} (body : M A) (handler : string -> M A) : M A :=
  fun s =>
    match body s with
    | (Ok a, s') => (Ok a, s')
    | (Throw msg, s') => handler msg s'
    end.

(** [try { body } finally { final }]: [final] always runs; when it
    throws, its error replaces the outcome of [body]. *)
Definition tryFinally {A} (body : M A) (final : M unit) : M A :=
  fun s =>
    match body s with
    | (r, s') =>
        match final s' with
        | (Ok _, s'') => (r, s'')
        | (Throw msg, s'') => (Throw msg, s'')
        end
    end.

End WithState.

Arguments ret {St A} a.
Arguments throw {St A} msg.
Arguments bind {St A B} m k.
Arguments get {St}.
Arguments modify {St} f.
Arguments await {St A} r.
Arguments tryCatch {St A} body handler.
Arguments tryFinally {St A} body final.

End Eff.

Declare Scope eff_scope.
Delimit Scope eff_scope with eff.
Notation "x <- m ;; k" := (Eff.bind m (fun x => k))
  (at level 61, m at next level, right associativity) : eff_scope.
Notation "m ;;; k" := (Eff.bind m (fun _ => k))
  (at level 61, right associativity) : eff_scope.

(* ================================================================== *)
(** * Attendance records *)
(* ================================================================== *)

(** One subject's record.  [attended] and [total] are [null] when the
    scraped count text did not parse. *)
Record AttendanceRecord : Type := {
  subject : string;
  attended : option Z;
  total : option Z;
  percentage : Q;
  status : string
}.

Record Profile : Type := {
  name : string;
  studentId : string;
  course : string;
  semester : string;
  profileStatus : string;
  profilePhoto : option string
}.

Record Summary : Type := {
  totalSubjects : Z;
  safeSubjects : Z;
  warningSubjects : Z;
  criticalSubjects : Z;
  overallPercentage : Q
}.

Record Report : Type := {
  success : bool;
  timestamp : string;
  student : Profile;
  attendance : list AttendanceRecord;
  summary : Summary
}.

(** [xs.filter(p).length]. *)
Definition countIf {A} (p : A -> bool) (xs : list A) : Z :=
  Z.of_nat (List.length (List.filter p xs)).

(** [xs.reduce((sum, x) => sum + f(x), 0)]. *)
Definition sumQ {A} (f : A -> Q) (xs : list A) : Q :=
  List.fold_left (fun sum x => (sum + f x)%Q) xs 0%Q.

Definition sumZ {A} (f : A -> Z) (xs : list A) : Z :=
  List.fold_left (fun sum x => sum + f x) xs 0.

(* ================================================================== *)
(** * Reading numbers out of scraped text *)
(* ================================================================== *)

Module Scan.

(** The longest run of decimal digits at the head of [s], and the rest. *)
Fixpoint takeDigits (s : string) : string * string :=
  match s with
  | EmptyString => (EmptyString, EmptyString)
  | String c rest =>
      if Str.isDigit c
      then let (ds, tl) := takeDigits rest in (String c ds, tl)
      else (EmptyString, s)
  end.

Definition digitVal (c : ascii) : Z := Z.of_N (Str.code c - 48).

Fixpoint digitsAcc (acc : Z) (ds : string) : Z :=
  match ds with
  | EmptyString => acc
  | String c rest => digitsAcc (acc * 10 + digitVal c) rest
  end.

(** [parseInt(ds)] for a string of decimal digits, read exactly;
    [parseInt] itself returns the nearest binary64 value, which is the
    same number up to [2^53]. *)
Definition parseInt (ds : string) : Z := digitsAcc 0 ds.

(** The regex /(\d+)\/(\d+)/ anchored at the head of [s]. *)
Definition countAt (s : string) : option (Z * Z) :=
  let (d1, r1) := takeDigits s in
  match d1, r1 with
  | String _ _, String "/" r2 =>
      let (d2, _) := takeDigits r2 in
      match d2 with
      | String _ _ => Some (parseInt d1, parseInt d2)
      | EmptyString => None
      end
  | _, _ => None
  end.

(** [text.match(/(\d+)\/(\d+)/)], mapped through [parseInt]: the
    leftmost match. *)
Fixpoint countMatch (s : string) : option (Z * Z) :=
  match countAt s with
  | Some r => Some r
  | None =>
      match s with
      | EmptyString => None
      | String _ rest => countMatch rest
      end
  end.

(** [parseFloat] of the text matched by /\d+(?:\.\d+)?/ at the head
    of [s], which starts with a digit. *)
Definition numberAt (s : string) : Q :=
  let (ds, r) := takeDigits s in
  match r with
  | String "." r2 =>
      let (fs, _) := takeDigits r2 in
      match fs with
      | String _ _ =>
          (inject_Z (parseInt ds)
           + inject_Z (parseInt fs)
             / inject_Z (10 ^ Z.of_nat (String.length fs)))%Q
      | EmptyString => inject_Z (parseInt ds)
      end
  | _ => inject_Z (parseInt ds)
  end.

(** [text.match(/(\d+(?:\.\d+)?)/)], mapped through [parseFloat]. *)
Fixpoint percentageMatch (s : string) : option Q :=
  match s with
  | EmptyString => None
  | String c rest =>
      if Str.isDigit c then Some (numberAt s) else percentageMatch rest
  end.

End Scan.

(* ================================================================== *)
(** * The portal, as one request sees it *)
(* ================================================================== *)

(** A browser or page object of the automation library. *)
Inductive handle : Type := Handle (id : nat).

(** One [.row.mb-2] row of the attendance wrapper: the text of its
    [.attndnce-mod], [.count-text] and [.percentage-text] elements, where
    present. *)
Record WrapperRow : Type := {
  subjectElement : option string;
  countElement : option string;
  percentageElement : option string
}.

(** What [page.evaluate] finds on the dashboard. *)
Inductive Dashboard : Type :=
| Wrapper (attendanceRows : list WrapperRow)
| NoWrapper (subjectElements countElements percentageElements : list string).

(** What the browser, the portal and the process environment do during
    one request.  Each field is the outcome of the named awaited call. *)
Record Portal : Type := {
  findChrome : result (option string);
  launch : result handle;
  newPage : result handle;
  configurePage : result unit;
  portalUrl : string;
  submitCredentials : result unit;
  currentUrl : string;
  errorElements : result (list string);
  dashboardIndicators : result (list string);
  dashboard : result Dashboard;
  profileOnPage : result Profile;
  pageClose : result unit;
  browserClose : result unit;
  now : string
}.

(** What happened to the browser, in order (ghost state). *)
Inductive Event : Type :=
| Launched
| PageOpened
| CleanupCalled
| PageClosed
| BrowserClosed.

Record Service : Type := {
  browser : option handle;
  page : option handle;
  events : list Event
}.

(* ================================================================== *)
(** * [UPESScrapingService] *)
(* ================================================================== *)

Module UPES.

Import Eff.
Local Open Scope eff_scope.

(** [new UPESScrapingService()]. *)
Definition construct : Service :=
  {| browser := None; page := None; events := [] |}.

Definition record (e : Event) : M Service unit :=
  modify (fun s => {| browser := browser s; page := page s;
                      events := events s ++ [e] |}).

Definition setBrowser (b : option handle) : M Service unit :=
  modify (fun s => {| browser := b; page := page s; events := events s |}).

Definition setPage (p : option handle) : M Service unit :=
  modify (fun s => {| browser := browser s; page := p; events := events s |}).

(** The status the scraper attaches to a row. *)
Definition rowStatus (percentage : Q) : string :=
  if Num.geb percentage 75 then "Good"
  else if Num.geb percentage 65 then "Warning"
  else "Critical".

(** The record pushed for a row with the given (trimmed) texts. *)
Definition rowRecord (subjectName countText percentageText : string)
  : AttendanceRecord :=
  let countMatch := Scan.countMatch countText in
  let percentage :=
    match Scan.percentageMatch percentageText with
    | Some p => p
    | None => 0%Q
    end in
  {| subject := subjectName;
     attended := option_map fst countMatch;
     total := option_map snd countMatch;
     percentage := Num.toFixed2 percentage;
     status := rowStatus percentage |}.

Definition textOf (element : option string) : option string :=
  option_map Str.trim element.

Definition wrapperRow (row : WrapperRow) : list AttendanceRecord :=
  match textOf (subjectElement row), textOf (countElement row),
        textOf (percentageElement row) with
  | Some subjectName, Some countText, Some percentageText =>
      if Str.truthy subjectName && Str.truthy countText
         && Str.truthy percentageText
      then [rowRecord subjectName countText percentageText]
      else []
  | _, _, _ => []
  end.

Fixpoint zipRows (ss cs ps : list string) : list AttendanceRecord :=
  match ss, cs, ps with
  | s :: ss', c :: cs', p :: ps' =>
      rowRecord (Str.trim s) (Str.trim c) (Str.trim p) :: zipRows ss' cs' ps'
  | _, _, _ => []
  end.

(** The body of the [page.evaluate] callback of [scrapeAttendanceData]. *)
Definition attendanceInfo (d : Dashboard) : list AttendanceRecord :=
  match d with
  | Wrapper rows => List.flat_map wrapperRow rows
  | NoWrapper ss cs ps =>
      if Nat.eqb (List.length ss) (List.length cs)
         && Nat.eqb (List.length cs) (List.length ps)
      then zipRows ss cs ps
      else []
  end.

(** The [summary] object of the report. *)
Definition summarize (attendanceData : list AttendanceRecord) : Summary :=
  {| totalSubjects := Z.of_nat (List.length attendanceData);
     safeSubjects :=
       countIf (fun a => String.eqb (status a) "Good"
                         || Num.geb (percentage a) 75) attendanceData;
     warningSubjects :=
       countIf (fun a => String.eqb (status a) "Warning"
                         || (Num.geb (percentage a) 65
                             && Num.ltb (percentage a) 75)) attendanceData;
     criticalSubjects :=
       countIf (fun a => String.eqb (status a) "Critical"
                         || Num.ltb (percentage a) 65) attendanceData;
     overallPercentage :=
       if (0 <? List.length attendanceData)%nat
       then Num.toFixed2
              (sumQ percentage attendanceData
               / inject_Z (Z.of_nat (List.length attendanceData)))%Q
       else 0%Q |}.

Definition defaultProfile : Profile :=
  {| name := "Student Name"; studentId := "590018413";
     course := "B.Tech CSE"; semester := "Semester 3";
     profileStatus := "Active"; profilePhoto := None |}.

Section Run.

Variable P : Portal.

Definition initBrowser : M Service unit :=
  tryCatch
    (chromePath <- await (findChrome P) ;;
     match chromePath with
     | Some path =>
         if Str.truthy path then
           b <- await (launch P) ;;
           setBrowser (Some b) ;;; record Launched ;;;
           p <- await (newPage P) ;;
           setPage (Some p) ;;; record PageOpened ;;;
           await (configurePage P)
         else throw "Chrome browser not found. Please install Google Chrome or Chromium."
     | None =>
         throw "Chrome browser not found. Please install Google Chrome or Chromium."
     end)
    (fun _ => throw "Browser initialization failed").

Definition login (userId password : string) : M Service bool :=
  tryCatch
    (s <- get ;;
     match page s with
     | None => throw "Browser not initialized"
     | Some _ =>
         await (submitCredentials P) ;;;
         errors <- await (errorElements P) ;;
         (if (0 <? List.length errors)%nat then
            let errorMessage := String.concat ", " errors in
            let lowered := Str.toLowerCase errorMessage in
            if Str.includes lowered "too many"
               || Str.includes lowered "login attempts"
               || Str.includes lowered "try again later"
            then throw ("RATE_LIMITED: " ++ errorMessage)
            else throw ("Login failed: " ++ errorMessage)
          else ret tt) ;;;
         let isStillOnLoginPage :=
           Str.includes (currentUrl P) "login"
           || Str.includes (currentUrl P) "auth"
           || String.eqb (currentUrl P) (portalUrl P) in
         indicators <- await (dashboardIndicators P) ;;
         if isStillOnLoginPage && Nat.eqb (List.length indicators) 0
         then throw "Login failed: Still on login page"
         else ret true
     end)
    (fun message => throw ("Login failed: " ++ message)).

Definition scrapeAttendanceData : M Service (list AttendanceRecord) :=
  tryCatch
    (s <- get ;;
     match page s with
     | None => throw "Browser not initialized"
     | Some _ =>
         d <- await (dashboard P) ;;
         ret (attendanceInfo d)
     end)
    (fun message =>
       throw ("Failed to scrape attendance data: " ++ message)).

Definition getStudentProfile : M Service Profile :=
  tryCatch
    (s <- get ;;
     match page s with
     | None => throw "Cannot read properties of null (reading 'evaluate')"
     | Some _ => await (profileOnPage P)
     end)
    (fun _ => ret defaultProfile).

Definition cleanup : M Service unit :=
  record CleanupCalled ;;;
  tryCatch
    (s <- get ;;
     match page s with
     | Some _ =>
         await (pageClose P) ;;; record PageClosed ;;; setPage None
     | None => ret tt
     end ;;;
     s' <- get ;;
     match browser s' with
     | Some _ =>
         await (browserClose P) ;;; record BrowserClosed ;;;
         setBrowser None
     | None => ret tt
     end)
    (fun _ => ret tt).

Definition fetchAttendanceReport (userId password : string)
  : M Service Report :=
  tryFinally
    (tryCatch
       (initBrowser ;;;
        login userId password ;;;
        attendanceData <- scrapeAttendanceData ;;
        profile <- getStudentProfile ;;
        ret {| success := true;
               timestamp := now P;
               student := profile;
               attendance := attendanceData;
               summary := summarize attendanceData |})
       (fun error => throw error))
    cleanup.

End Run.

End UPES.

(* ================================================================== *)
(** * [DynamicAttendanceScrapingService] *)
(* ================================================================== *)

Module Dynamic.

(** The status [extractRowData] attaches to a row. *)
Definition rowStatus (percentage : Q) : string :=
  if Num.geb percentage 90 then "Perfect"
  else if Num.geb percentage 85 then "Excellent"
  else if Num.geb percentage 75 then "Good"
  else if Num.geb percentage 65 then "Warning"
  else "Critical".


(** A count as [+] sees it: [null] adds nothing. *)
Definition numberOf (n : option Z) : Z :=
  match n with Some z => z | None => 0 end.

Definition overallStatus (overallPercentage : Q) : string * string :=
  if Num.geb overallPercentage 90 then
    ("Excellent", "Outstanding attendance! Keep up the great work.")
  else if Num.geb overallPercentage 85 then
    ("Very Good", "Great attendance! Continue maintaining regularity.")
  else if Num.geb overallPercentage 75 then
    ("Good", "Good attendance. Try to improve further.")
  else if Num.geb overallPercentage 65 then
    ("Warning",
     "Attendance is below optimal. Focus on attending more classes.")
  else
    ("Critical",
     "Critical: Attendance is too low. Immediate improvement needed.").

Record OverallAttendance : Type := {
  totalClasses : Z;
  attendedClasses : Z;
  overallPercentage : Q;
  status : string;
  totalSubjects : Z;
  safeSubjects : Z;
  warningSubjects : Z;
  criticalSubjects : Z;
  recommendations : list string
}.

(** [calculateOverallAttendance(attendanceData)]. *)
Definition calculateOverallAttendance
    (attendanceData : list AttendanceRecord) : OverallAttendance :=
  match attendanceData with
  | [] =>
      {| totalClasses := 0; attendedClasses := 0; overallPercentage := 0%Q;
         status := "No Data"; totalSubjects := 0; safeSubjects := 0;
         warningSubjects := 0; criticalSubjects := 0;
         recommendations := ["No attendance data available"] |}
  | _ :: _ =>
      let totalClasses' :=
        sumZ (fun s => numberOf (total s)) attendanceData in
      let attendedClasses' :=
        sumZ (fun s => numberOf (attended s)) attendanceData in
      let overallPercentage' :=
        if 0 <? totalClasses'
        then Num.toFixed2
               (inject_Z attendedClasses' / inject_Z totalClasses' * 100)%Q
        else 0%Q in
      let safeSubjects' :=
        countIf (fun s => Num.geb (percentage s) 75) attendanceData in
      let warningSubjects' :=
        countIf (fun s => Num.geb (percentage s) 65
                          && Num.ltb (percentage s) 75) attendanceData in
      let criticalSubjects' :=
        countIf (fun s => Num.ltb (percentage s) 65) attendanceData in
      let (status', first) := overallStatus overallPercentage' in
      {| totalClasses := totalClasses';
         attendedClasses := attendedClasses';
         overallPercentage := overallPercentage';
         status := status';
         totalSubjects := Z.of_nat (List.length attendanceData);
         safeSubjects := safeSubjects';
         warningSubjects := warningSubjects';
         criticalSubjects := criticalSubjects';
         recommendations :=
           ([first]
            ++ (if 0 <? criticalSubjects'
                then [(Str.ofZ criticalSubjects'
                       ++ " subject(s) need immediate attention.")%string]
                else [])
            ++ (if 0 <? warningSubjects'
                then [(Str.ofZ warningSubjects'
                       ++ " subject(s) need improvement.")%string]
                else []))%list |}
  end.

End Dynamic.

(* ================================================================== *)
(** * HTTP responses and request validation *)
(* ================================================================== *)

Record Response : Type := {
  statusCode : Z;
  body : json
}.

(** What the Node process supplies to a handler: [NODE_ENV], the clock,
    the random source and the stack of a caught error. *)
Record Runtime : Type := {
  development : bool;
  toISOString : string;
  toLocaleString : string;
  dateNow : Z;
  randomSuffix : string;
  stack : string
}.

(** The checks of the request-validation middleware that the routes
    chain on a body field.  A missing field is validated as the empty
    string. *)
Module Validator.

Definition toString (value : option string) : string :=
  match value with Some s => s | None => EmptyString end.

Definition notEmpty (s : string) : bool := Str.truthy s.

Definition isLength (min : nat) (max : option nat) (s : string) : bool :=
  (min <=? String.length s)%nat
  && match max with
     | Some m => (String.length s <=? m)%nat
     | None => true
     end.

(** The character class [[a-zA-Z0-9._@-]]. *)
Definition userIdChar (c : ascii) : bool :=
  let n := Str.code c in
  ((97 <=? n) && (n <=? 122) || (65 <=? n) && (n <=? 90)
   || (48 <=? n) && (n <=? 57)
   || (n =? 46) || (n =? 95) || (n =? 64) || (n =? 45))%N.

(** [/^[a-zA-Z0-9._@-]+$/.test(s)]. *)
Definition matchesUserId (s : string) : bool :=
  Str.truthy s && Str.allChars userIdChar s.

(** One entry of [errors.array()].  The [value] of a field that the
    body does not have is [undefined], and the key is then left out of
    the JSON. *)
Definition fieldError (path : string) (value : option string) (msg : string)
  : json :=
  JObj ([("type", JStr "field")]
        ++ match value with
           | Some v => [("value", JStr v)]
           | None => []
           end
        ++ [("msg", JStr msg); ("path", JStr path);
            ("location", JStr "body")])%list.

Definition check (ok : bool) (path : string) (value : option string)
    (msg : string) : list json :=
  if ok then [] else [fieldError path value msg].

(** [validateAttendanceInput]: the chain on [password]. *)
Definition validateAttendanceInput (password : option string) : list json :=
  let v := toString password in
  (check (notEmpty v) "password" password "Password is required"
   ++ check (isLength 1 None v) "password" password
        "Password cannot be empty")%list.

(** [validateLoginInput]: the chains on [userId] and [password].  The
    [trim()] sanitizer sits after [notEmpty()]; the later checks see,
    and the handler receives, the trimmed value (the empty string for
    a field that the body does not have). *)
Definition validateLoginInput (userId password : option string)
  : list json * string :=
  let u0 := toString userId in
  let u1 := Str.trim u0 in
  let p := toString password in
  ((check (notEmpty u0) "userId" userId "User ID is required"
   ++ check (isLength 1 (Some 50%nat) u1) "userId" (Some u1)
        "User ID must be between 1 and 50 characters"
   ++ check (matchesUserId u1) "userId" (Some u1)
        "User ID contains invalid characters"
   ++ check (notEmpty p) "password" password "Password is required"
   ++ check (isLength 1 None p) "password" password
        "Password is required")%list,
   u1).

End Validator.

(** The authenticated request of [POST /api/attendance/fetch]: the body's
    [password] and the [userId] and [email] of the verified token. *)
Record FetchRequest : Type := {
  bodyPassword : option string;
  userUserId : string;
  userEmail : option string
}.

Module Encode.

Definition ofProfile (p : Profile) : json :=
  JObj [("name", JStr (name p)); ("studentId", JStr (studentId p));
        ("course", JStr (course p)); ("semester", JStr (semester p));
        ("status", JStr (profileStatus p));
        ("profilePhoto", Json.ofOptStr (profilePhoto p))].

Definition ofRecord (a : AttendanceRecord) : json :=
  JObj [("subject", JStr (subject a));
        ("attended", Json.ofOptZ (attended a));
        ("total", Json.ofOptZ (total a));
        ("percentage", JNum (percentage a));
        ("status", JStr (status a))].

Definition ofSummary (s : Summary) : json :=
  JObj [("totalSubjects", Json.ofZ (totalSubjects s));
        ("safeSubjects", Json.ofZ (safeSubjects s));
        ("warningSubjects", Json.ofZ (warningSubjects s));
        ("criticalSubjects", Json.ofZ (criticalSubjects s));
        ("overallPercentage", JNum (overallPercentage s))].

Definition ofReport (r : Report) : json :=
  JObj [("success", JBool (success r));
        ("timestamp", JStr (timestamp r));
        ("student", ofProfile (student r));
        ("attendance", JArr (List.map ofRecord (attendance r)));
        ("summary", ofSummary (summary r))].

End Encode.

(* ================================================================== *)
(** * The error-handling middleware behind [asyncHandler] *)
(* ================================================================== *)

Module Middleware.

(** [errorHandler] for a plain [Error] with the given message: the
    checks run in sequence, a later one overriding an earlier one. *)
Definition errorHandler (R : Runtime) (message : string) : Response :=
  let message0 :=
    if Str.truthy message then message else "Internal Server Error" in
  let '(message1, status1) :=
    if Str.includes message "puppeteer" || Str.includes message "browser"
    then ("Browser automation failed. Please try again.", 503)
    else (message0, 500) in
  let status2 :=
    if Str.includes message "Login failed" then 401 else status1 in
  {| statusCode := status2;
     body := JObj ([("error", JStr message1)]
                   ++ (if development R
                       then [("stack", JStr (stack R));
                             ("details", JObj [])]
                       else []))%list |}.

End Middleware.

(* ================================================================== *)
(** * [POST /api/attendance/fetch], version 1.0
      ([backend/routes/attendance.js]) *)
(* ================================================================== *)

Module RouteV1.

Import Eff.
Local Open Scope eff_scope.

(** The [statusCode], [errorCode] and [errorMessage] chosen in the
    [catch] branch for an error with the given message. *)
Definition classify (message : string) : Z * string * string :=
  if Str.includes message "Login failed"
     || Str.includes message "credentials" then
    (401, "INVALID_CREDENTIALS",
     "Invalid login credentials. Please check your user ID and password.")
  else if Str.includes message "RATE_LIMITED"
          || Str.includes message "too many login attempts" then
    (429, "RATE_LIMITED",
     "Too many login attempts. Please wait 15-30 minutes before trying again.")
  else if Str.includes message "timeout"
          || Str.includes message "Network" then
    (504, "TIMEOUT_ERROR", "Request timeout. Please try again later.")
  else if Str.includes message "Browser"
          || Str.includes message "puppeteer" then
    (503, "SERVICE_UNAVAILABLE",
     "Service temporarily unavailable. Please try again later.")
  else if Str.includes message "No attendance data found" then
    (404, "NO_DATA_FOUND",
     "No attendance data found. Please check if data is available on the portal.")
  else
    (500, "FETCH_ERROR", "Failed to fetch attendance data").

Definition invalidInput (errors : list json) : Response :=
  {| statusCode := 400;
     body := JObj [("error", JStr "Invalid input data");
                   ("details", JArr errors);
                   ("code", JStr "VALIDATION_ERROR")] |}.

Definition missingCredentials : Response :=
  {| statusCode := 400;
     body := JObj [("error", JStr "User ID and password are required");
                   ("code", JStr "MISSING_CREDENTIALS")] |}.

Section Handler.

Variable P : Portal.
Variable R : Runtime.

Definition metadata (userId : string) : json :=
  JObj [("requestedBy", JStr userId);
        ("requestTime", JStr (toISOString R));
        ("source", JStr "UPES Beta Portal");
        ("version", JStr "1.0")].

Definition onSuccess (userId : string) (attendanceReport : Report)
  : Response :=
  {| statusCode := 200;
     body := JObj [("success", JBool true);
                   ("message", JStr "Attendance data fetched successfully");
                   ("data", Json.set "metadata" (metadata userId)
                              (Encode.ofReport attendanceReport))] |}.

Definition onError (message : string) : Response :=
  let '(status, errorCode, errorMessage) := classify message in
  {| statusCode := status;
     body := JObj ([("success", JBool false);
                    ("error", JStr errorMessage);
                    ("code", JStr errorCode)]
                   ++ (if development R
                       then [("details", JStr message);
                             ("stack", JStr (stack R))]
                       else []))%list |}.

(** The [try]/[catch]/[finally] of the handler, on a fresh service.
    The watchdog timer set before the awaited call runs outside this
    call chain and is not part of the model. *)
Definition attempt (userId password : string) : M Service Response :=
  tryFinally
    (tryCatch
       (attendanceReport <- UPES.fetchAttendanceReport P userId password ;;
        ret (onSuccess userId attendanceReport))
       (fun message => ret (onError message)))
    (tryCatch (UPES.cleanup P) (fun _ => ret tt)).

(** The handler: the response sent, and the scraping service as the
    request leaves it when one was constructed. *)
Definition fetch (req : FetchRequest) : Response * option Service :=
  match Validator.validateAttendanceInput (bodyPassword req) with
  | (_ :: _) as errors => (invalidInput errors, None)
  | [] =>
      let password := Validator.toString (bodyPassword req) in
      let userId := userUserId req in
      if negb (Str.truthy password) || negb (Str.truthy userId)
      then (missingCredentials, None)
      else
        match attempt userId password UPES.construct with
        | (Ok response, s) => (response, Some s)
        | (Throw message, s) =>
            (Middleware.errorHandler R message, Some s)
        end
  end.

End Handler.

End RouteV1.

(* ================================================================== *)
(** * [POST /api/attendance/fetch], version 3.0 (fallback to demo data) *)
(* ================================================================== *)

Module RouteV3.

Import Eff.
Local Open Scope eff_scope.

(** The [statusCode], [errorCode] and [errorMessage] computed in the
    [catch] branch; only [errorMessage] reaches the response. *)
Definition classify (message : string) : Z * string * string :=
  if Str.includes message "Login failed"
     || Str.includes message "credentials" then
    (401, "INVALID_CREDENTIALS",
     "Invalid UPES login credentials. Please check your Student ID and password.")
  else if Str.includes message "RATE_LIMITED"
          || Str.includes message "too many login attempts" then
    (429, "RATE_LIMITED",
     "Too many login attempts on UPES portal. Please wait 15-30 minutes before trying again.")
  else if Str.includes message "timeout"
          || Str.includes message "Network" then
    (504, "TIMEOUT_ERROR",
     "Request timeout while connecting to UPES Portal. Please try again later.")
  else if Str.includes message "Browser"
          || Str.includes message "puppeteer" then
    (503, "SERVICE_UNAVAILABLE",
     "Scraping service temporarily unavailable. Please try again later.")
  else if Str.includes message "No attendance data found" then
    (404, "NO_DATA_FOUND",
     "No attendance data found on UPES Portal. Please check if data is available.")
  else
    (500, "FETCH_ERROR", "Failed to fetch attendance data from UPES Portal").

Definition demoSubject (subject subjectCode : string) (total attended : Z)
    (percentage : Q) (status faculty : string) : json :=
  JObj [("subject", JStr subject); ("subjectCode", JStr subjectCode);
        ("total", Json.ofZ total); ("attended", Json.ofZ attended);
        ("percentage", JNum percentage); ("status", JStr status);
        ("faculty", JStr faculty)].

Section Handler.

Variable P : Portal.
Variable R : Runtime.

(** The base64 JPEG data URL that the fallback data carries as
    [profilePhoto]. *)
Variable fallbackPhoto : string.

(** [generateFallbackData(userId, userEmail)]. *)
Definition generateFallbackData (userId userEmail : string) : json :=
  let '(studentName, studentId) :=
    if String.eqb userEmail "sudhanshu@student.com"
       || Str.includes userEmail "sudhanshu"
    then ("Sudhanshu Ranjan", "590018435")
    else if String.eqb userEmail "demo@student.com"
    then ("Demo Student", "500000001")
    else
      let emailName := Str.beforeFirst "@" userEmail in
      (Str.capitalizeDropDigits emailName, "590018435") in
  JObj [
    ("success", JBool true);
    ("student",
     JObj [("name", JStr studentName); ("studentId", JStr studentId);
           ("course", JStr "B.Tech CSE");
           ("semester", JStr "Semester 3");
           ("status", JStr "ACTIVE");
           ("profilePhoto", JStr fallbackPhoto)]);
    ("attendance",
     JArr [
       demoSubject "Discrete Mathematical Structures" "CSBT301"
         16 14 87.5 "Good" "Dr. Amit Kumar";
       demoSubject "Operating Systems" "CSBT302"
         19 17 89.47 "Good" "Prof. Priya Singh";
       demoSubject "Fundamentals of Clinical Research" "HSBT206"
         12 12 100 "Perfect" "Dr. Rajesh Sharma";
       demoSubject "Elements of AIML" "CSBT305"
         19 19 100 "Perfect" "Dr. Neha Davis";
       demoSubject "Database Management Systems" "CSBT303"
         23 21 91.3 "Excellent" "Prof. Anil Williams";
       demoSubject "Design and Analysis of Algorithms" "CSBT304"
         24 24 100 "Perfect" "Dr. Sunita Brown";
       demoSubject "Biomedical Diagnostics" "HSBT208"
         6 5 83.33 "Good" "Dr. Vivek Patel"]);
    ("overallAttendance",
     JObj [("totalClasses", Json.ofZ 119);
           ("attendedClasses", Json.ofZ 112);
           ("overallPercentage", JNum 94.12);
           ("status", JStr "Excellent");
           ("totalSubjects", Json.ofZ 7);
           ("safeSubjects", Json.ofZ 7);
           ("warningSubjects", Json.ofZ 0);
           ("criticalSubjects", Json.ofZ 0);
           ("recommendations",
            JArr [JStr "Excellent attendance! All subjects above minimum requirement.";
                  JStr "Continue maintaining regular attendance.";
                  JStr "You're on track for academic success!"])]);
    ("metadata",
     JObj [("requestedBy", JStr userId);
           ("requestTime", JStr (toISOString R));
           ("source", JStr "Fallback Demo Data - UPES Portal Structure");
           ("version", JStr "3.1");
           ("lastUpdated", JStr (toLocaleString R));
           ("note", JStr "Fallback data shown due to portal connectivity issues")])
  ].

Definition metadata (userId : string) : json :=
  JObj [("requestedBy", JStr userId);
        ("requestTime", JStr (toISOString R));
        ("source", JStr "UPES Beta Portal - Real Time Scraping");
        ("version", JStr "3.0");
        ("lastUpdated", JStr (toLocaleString R));
        ("note", JStr "Real attendance data fetched from UPES portal")].

Definition onSuccess (userId : string) (attendanceReport : Report)
  : Response :=
  {| statusCode := 200;
     body := JObj [("success", JBool true);
                   ("message",
                    JStr "Real attendance data fetched successfully from UPES Portal");
                   ("data", Json.set "metadata" (metadata userId)
                              (Encode.ofReport attendanceReport))] |}.

Definition onError (userId userEmail message : string) : Response :=
  let '(_, _, errorMessage) := classify message in
  let fallbackData := generateFallbackData userId userEmail in
  {| statusCode := 200;
     body := JObj [("success", JBool true);
                   ("message",
                    JStr "Fallback demo data provided (UPES Portal temporarily unavailable)");
                   ("data", fallbackData);
                   ("warning",
                    JStr "Real UPES data unavailable, showing demo data");
                   ("originalError", JStr errorMessage)] |}.

Definition attempt (userId userEmail password : string)
  : M Service Response :=
  tryFinally
    (tryCatch
       (attendanceReport <- UPES.fetchAttendanceReport P userId password ;;
        ret (onSuccess userId attendanceReport))
       (fun message => ret (onError userId userEmail message)))
    (tryCatch (UPES.cleanup P) (fun _ => ret tt)).

Definition fetch (req : FetchRequest) : Response * option Service :=
  match Validator.validateAttendanceInput (bodyPassword req) with
  | (_ :: _) as errors => (RouteV1.invalidInput errors, None)
  | [] =>
      let password := Validator.toString (bodyPassword req) in
      let userId := userUserId req in
      let userEmail :=
        match userEmail req with
        | Some e => if Str.truthy e then e else userId
        | None => userId
        end in
      if negb (Str.truthy password) || negb (Str.truthy userId)
      then (RouteV1.missingCredentials, None)
      else
        match attempt userId userEmail password UPES.construct with
        | (Ok response, s) => (response, Some s)
        | (Throw message, s) =>
            (Middleware.errorHandler R message, Some s)
        end
  end.

End Handler.

End RouteV3.

(* ================================================================== *)
(** * [POST /api/auth/login] *)
(* ================================================================== *)

Module Auth.

Record Payload : Type := {
  userId : string;
  email : string;
  loginTime : Z;
  sessionId : string
}.

Section Login.

(** [generateToken] of the authentication middleware: it signs the
    payload into a token, or throws. *)
Variable generateToken : Payload -> result string.
Variable R : Runtime.

Definition payloadFor (sanitizedUserId : string) : Payload :=
  {| userId := sanitizedUserId;
     email := sanitizedUserId;
     loginTime := dateNow R;
     sessionId := "session_" ++ Str.ofZ (dateNow R) ++ "_"
                  ++ randomSuffix R |}.

(** The handler behind the rate limiter and the validation chain,
    given the body's [userId] and [password]. *)
Definition login (bodyUserId bodyPassword : option string) : Response :=
  let '(errors, userId) :=
    Validator.validateLoginInput bodyUserId bodyPassword in
  match errors with
  | _ :: _ => RouteV1.invalidInput errors
  | [] =>
      let password := Validator.toString bodyPassword in
      let sanitizedUserId := Str.toLowerCase (Str.trim userId) in
      let sanitizedPassword := Str.trim password in
      if negb (Str.truthy sanitizedUserId)
         || negb (Str.truthy sanitizedPassword)
      then RouteV1.missingCredentials
      else
        match generateToken (payloadFor sanitizedUserId) with
        | Ok token =>
            {| statusCode := 200;
               body := JObj [("success", JBool true);
                             ("message", JStr "Login credentials validated");
                             ("token", JStr token);
                             ("user",
                              JObj [("userId", JStr sanitizedUserId);
                                    ("loginTime", JStr (toISOString R))])] |}
        | Throw _ =>
            {| statusCode := 500;
               body := JObj [("error", JStr "Login processing failed");
                             ("code", JStr "LOGIN_ERROR")] |}
        end
  end.

End Login.

End Auth.

(* ================================================================== *)
(** * Sample portals *)
(* ================================================================== *)

Module Examples.

Definition row (subjectName countText percentageText : string)
  : WrapperRow :=
  {| subjectElement := Some subjectName;
     countElement := Some countText;
     percentageElement := Some percentageText |}.

(** Two subjects of different size. *)
Definition twoSubjects : Dashboard :=
  Wrapper [row "Mathematics" "1/2" "50%"; row "Physics" "10/10" "100%"].

(** One subject whose percentage the portal prints with three
    decimals, just below 75. *)
Definition justBelow : Dashboard :=
  Wrapper [row "Mathematics" "18749/25000" "74.996%"].

Definition someProfile : Profile :=
  {| name := "Asha Rao"; studentId := "590012345";
     course := "B.Tech CSE"; semester := "Semester 3";
     profileStatus := "Active"; profilePhoto := None |}.

(** A request during which every browser and portal call succeeds and
    the dashboard shows [d]. *)
Definition smooth (d : Dashboard) : Portal :=
  {| findChrome := Ok (Some "/usr/bin/chromium");
     launch := Ok (Handle 1);
     newPage := Ok (Handle 2);
     configurePage := Ok tt;
     portalUrl := "https://myupes-beta.upes.ac.in/oneportal/app/auth/login";
     submitCredentials := Ok tt;
     currentUrl := "https://myupes-beta.upes.ac.in/oneportal/app/dashboard";
     errorElements := Ok [];
     dashboardIndicators := Ok ["dashboard-class"; "navigation"];
     dashboard := Ok d;
     profileOnPage := Ok someProfile;
     pageClose := Ok tt;
     browserClose := Ok tt;
     now := "2025-01-25T16:44:00.000Z" |}.

(** The same, except that closing the page fails. *)
Definition stuckPage (d : Dashboard) : Portal :=
  {| findChrome := findChrome (smooth d);
     launch := launch (smooth d);
     newPage := newPage (smooth d);
     configurePage := configurePage (smooth d);
     portalUrl := portalUrl (smooth d);
     submitCredentials := submitCredentials (smooth d);
     currentUrl := currentUrl (smooth d);
     errorElements := errorElements (smooth d);
     dashboardIndicators := dashboardIndicators (smooth d);
     dashboard := dashboard (smooth d);
     profileOnPage := profileOnPage (smooth d);
     pageClose := Throw "Protocol error: Connection closed.";
     browserClose := browserClose (smooth d);
     now := now (smooth d) |}.

(** A request whose login form never appears: the navigation times
    out. *)
Definition slowLogin : Portal :=
  {| findChrome := findChrome (smooth twoSubjects);
     launch := launch (smooth twoSubjects);
     newPage := newPage (smooth twoSubjects);
     configurePage := configurePage (smooth twoSubjects);
     portalUrl := portalUrl (smooth twoSubjects);
     submitCredentials := Throw "Navigation timeout of 30000 ms exceeded";
     currentUrl := portalUrl (smooth twoSubjects);
     errorElements := Ok [];
     dashboardIndicators := Ok [];
     dashboard := dashboard (smooth twoSubjects);
     profileOnPage := profileOnPage (smooth twoSubjects);
     pageClose := Ok tt;
     browserClose := Ok tt;
     now := now (smooth twoSubjects) |}.

(** A request on which the portal answers the login with a
    rate-limiting banner. *)
Definition rateLimited : Portal :=
  {| findChrome := findChrome (smooth twoSubjects);
     launch := launch (smooth twoSubjects);
     newPage := newPage (smooth twoSubjects);
     configurePage := configurePage (smooth twoSubjects);
     portalUrl := portalUrl (smooth twoSubjects);
     submitCredentials := Ok tt;
     currentUrl := portalUrl (smooth twoSubjects);
     errorElements := Ok ["Too many login attempts"];
     dashboardIndicators := Ok [];
     dashboard := dashboard (smooth twoSubjects);
     profileOnPage := profileOnPage (smooth twoSubjects);
     pageClose := Ok tt;
     browserClose := Ok tt;
     now := now (smooth twoSubjects) |}.

Definition runtime : Runtime :=
  {| development := false;
     toISOString := "2025-01-25T16:44:00.000Z";
     toLocaleString := "1/25/2025, 10:14:00 PM";
     dateNow := 1737823440000;
     randomSuffix := "k3x9q2";
     stack := "Error" |}.

Definition request : FetchRequest :=
  {| bodyPassword := Some "secret";
     userUserId := "asha.rao@stu.upes.ac.in";
     userEmail := Some "asha.rao@stu.upes.ac.in" |}.

End Examples.

(* ================================================================== *)
(** * Counting cleanups *)
(* ================================================================== *)

Definition isCleanup (e : Event) : bool :=
  match e with CleanupCalled => true | _ => false end.

(** How many times [cleanup] has been entered. *)
Definition cleanups (s : Service) : nat :=
  List.length (List.filter isCleanup (events s)).

(** A computation that never enters [cleanup]. *)
Definition quiet {A} (m : Eff.M Service A) : Prop :=
  forall s, cleanups (snd (m s)) = cleanups s.

(* ================================================================== *)
(** * Vocabulary for the statements about responses *)
(* ================================================================== *)

Module Shape.

Definition hasObject (k : string) (o : json) : bool :=
  match Json.get k o with Some (JObj _) => true | _ => false end.

Definition hasArray (k : string) (o : json) : bool :=
  match Json.get k o with Some (JArr _) => true | _ => false end.

Definition isTrue (k : string) (o : json) : bool :=
  match Json.get k o with Some (JBool true) => true | _ => false end.

Definition isFalse (k : string) (o : json) : bool :=
  match Json.get k o with Some (JBool false) => true | _ => false end.

(** [o.data], [null] when absent. *)
Definition data (o : json) : json :=
  match Json.get "data" o with Some d => d | None => JNull end.

(** The message carries one of two markers. *)
Definition mentions (message a b : string) : bool :=
  Str.includes message a || Str.includes message b.

(** The request reaches the [try] block of the fetch handlers. *)
Definition admitted (req : FetchRequest) : bool :=
  Str.truthy (Validator.toString (bodyPassword req))
  && Str.truthy (userUserId req).

(** [req.user.email || req.user.userId]. *)
Definition emailOf (req : FetchRequest) : string :=
  match userEmail req with
  | Some e => if Str.truthy e then e else userUserId req
  | None => userUserId req
  end.

(** 1 to 50 characters, all of them in [[a-zA-Z0-9._@-]]. *)
Definition validUserId (userId : string) : bool :=
  (1 <=? String.length userId)%nat && (String.length userId <=? 50)%nat
  && Str.allChars Validator.userIdChar userId.

(** The password has a character that is not white space. *)
Definition hasVisibleChar (password : string) : bool :=
  negb (Str.allChars Str.isWhiteSpace password).

End Shape.

(* ================================================================== *)
(** * The summary component (frontend [AttendanceSummary]) *)
(* ================================================================== *)

Module AttendanceSummary.

(** [getOverallStatus().status], given the number that
    [parseFloat(summary.overallPercentage) || 0] is. *)
Definition getOverallStatus (percentage : Q) : string :=
  if Num.geb percentage 75 then "Excellent"
  else if Num.geb percentage 65 then "Good"
  else "Needs Attention".

End AttendanceSummary.

(* ================================================================== *)
(** * Binary64 numbers *)
(* ================================================================== *)

(** The numbers of JavaScript with their arithmetic: every operation
    returns the binary64 value nearest to the exact result, ties going
    to the even significand, with gradual underflow and overflow to
    infinity.  A finite number is a sign and a magnitude, so that the
    two zeros are told apart. *)
Module Double.

Inductive number : Type :=
| NaN
| Infinity (negative : bool)
| Finite (negative : bool) (magnitude : Q).

Definition pow2 (e : Z) : Q := (2 ^ e)%Q.

(** The position of the leading bit of [x > 0]: the [k] with
    [2^k <= x < 2^(k+1)]. *)
Definition ilog2 (x : Q) : Z :=
  let k := Z.log2 (Qnum x) - Z.log2 (Zpos (Qden x)) in
  if Qle_bool (pow2 k) x then k else k - 1.

(** The nearest integer, the even one of two that are equally near. *)
Definition nearestEven (s : Q) : Z :=
  let f := Qfloor s in
  match (s - inject_Z f ?= 1 # 2)%Q with
  | Lt => f
  | Gt => f + 1
  | Eq => if Z.even f then f else f + 1
  end.

(** The exponent of the last place of the significand of [x > 0]: 53
    bits, and no exponent below that of the subnormal numbers. *)
Definition exponent (x : Q) : Z := Z.max (ilog2 x - 52) (-1074).

(** The binary64 magnitude nearest to [x >= 0], before overflow is
    looked at. *)
Definition roundMagnitude (x : Q) : Q :=
  let x := Qred x in
  if Qle_bool x 0 then 0%Q
  else
    let e := exponent x in
    Qred (inject_Z (nearestEven (x / pow2 e)) * pow2 e).

(** The unit roundoff, [2^-53], and half the least subnormal number,
    [2^-1075]: rounding moves [x] by at most [eps * x + eta]. *)
Definition eps : Q := 1 # 9007199254740992.
Definition eta : Q := pow2 (-1075).

Definition val (negative : bool) (magnitude : Q) : Q :=
  if negative then (- magnitude)%Q else magnitude.

(** The number that an operation with the exact result [x] returns;
    [negativeZero] is the sign of a result that is exactly zero. *)
Definition make (negativeZero : bool) (x : Q) : number :=
  if Qeq_bool x 0 then Finite negativeZero 0
  else
    let negative := negb (Qle_bool 0 x) in
    let magnitude := roundMagnitude (Qabs x) in
    if Qle_bool (pow2 1024) magnitude then Infinity negative
    else Finite negative magnitude.

(** A numeric literal, or a number read from JSON. *)
Definition ofQ (q : Q) : number := make false q.
Definition ofZ (n : Z) : number := ofQ (inject_Z n).

Definition neg (x : number) : number :=
  match x with
  | NaN => NaN
  | Infinity s => Infinity (negb s)
  | Finite s m => Finite (negb s) m
  end.

Definition add (x y : number) : number :=
  match x, y with
  | NaN, _ | _, NaN => NaN
  | Infinity a, Infinity b => if Bool.eqb a b then Infinity a else NaN
  | Infinity a, Finite _ _ => Infinity a
  | Finite _ _, Infinity b => Infinity b
  | Finite s m, Finite s' m' => make (s && s') (val s m + val s' m')
  end.

Definition sub (x y : number) : number := add x (neg y).

Definition mul (x y : number) : number :=
  match x, y with
  | NaN, _ | _, NaN => NaN
  | Infinity a, Infinity b => Infinity (xorb a b)
  | Infinity a, Finite s m | Finite s m, Infinity a =>
      if Qeq_bool m 0 then NaN else Infinity (xorb a s)
  | Finite s m, Finite s' m' => make (xorb s s') (val s m * val s' m')
  end.

Definition div (x y : number) : number :=
  match x, y with
  | NaN, _ | _, NaN => NaN
  | Infinity _, Infinity _ => NaN
  | Infinity a, Finite s _ => Infinity (xorb a s)
  | Finite s _, Infinity b => Finite (xorb s b) 0
  | Finite s m, Finite s' m' =>
      if Qeq_bool m' 0
      then if Qeq_bool m 0 then NaN else Infinity (xorb s s')
      else make (xorb s s') (val s m / val s' m')
  end.

(** The order of two numbers; [NaN] is not comparable, the two zeros
    are equal. *)
Definition compare (x y : number) : option comparison :=
  match x, y with
  | NaN, _ | _, NaN => None
  | Infinity a, Infinity b =>
      Some (if a then if b then Eq else Lt else if b then Gt else Eq)
  | Infinity a, Finite _ _ => Some (if a then Lt else Gt)
  | Finite _ _, Infinity b => Some (if b then Gt else Lt)
  | Finite s m, Finite s' m' => Some (val s m ?= val s' m')%Q
  end.

(** [x === y], [x < y], [x > y], [x <= y] and [x >= y]. *)
Definition eqb (x y : number) : bool :=
  match compare x y with Some Eq => true | _ => false end.

Definition ltb (x y : number) : bool :=
  match compare x y with Some Lt => true | _ => false end.

Definition gtb (x y : number) : bool :=
  match compare x y with Some Gt => true | _ => false end.

Definition leb (x y : number) : bool :=
  match compare x y with Some Lt | Some Eq => true | _ => false end.

Definition geb (x y : number) : bool :=
  match compare x y with Some Gt | Some Eq => true | _ => false end.

(** [Math.ceil(x)] and [Math.floor(x)]; both keep the sign. *)
Definition ceil (x : number) : number :=
  match x with
  | Finite s m => Finite s (inject_Z (Z.abs (Qceiling (val s m))))
  | _ => x
  end.

Definition floor (x : number) : number :=
  match x with
  | Finite s m => Finite s (inject_Z (Z.abs (Qfloor (val s m))))
  | _ => x
  end.

Definition isNegative (x : number) : bool :=
  match x with
  | NaN => false
  | Infinity s | Finite s _ => s
  end.

(** [Number.isFinite(x)]. *)
Definition isFinite (x : number) : bool :=
  match x with
  | Finite _ _ => true
  | _ => false
  end.

(** [Math.max(x, y)]. *)
Definition max (x y : number) : number :=
  match compare x y with
  | None => NaN
  | Some Gt => x
  | Some Lt => y
  | Some Eq => if isNegative x then y else x
  end.

Definition truthy (x : number) : bool :=
  match x with
  | NaN => false
  | Infinity _ => true
  | Finite _ m => negb (Qeq_bool m 0)
  end.

(** [x || d] on a number that may be [null]. *)
Definition orElse (x : option number) (d : number) : number :=
  match x with
  | Some v => if truthy v then v else d
  | None => d
  end.

End Double.

(* ================================================================== *)
(** * The attendance utilities in binary64 *)
(* ================================================================== *)

(** The arithmetic of [attendanceUtils] as the code runs it.  [Utils]
    and [AttendanceUtils] read the same lines over exact numbers. *)
Module UtilsDouble.

Import Double.

(** [calculateClassesNeeded(currentAttended, currentTotal,
    targetPercentage)]. *)
Definition calculateClassesNeeded
    (currentAttended currentTotal targetPercentage : number) : number :=
  if eqb currentTotal (ofZ 0) then ofZ 0
  else
    let currentPercentage :=
      mul (div currentAttended currentTotal) (ofZ 100) in
    if geb currentPercentage targetPercentage then ofZ 0
    else
      let classesNeeded :=
        ceil (div (sub (mul targetPercentage currentTotal)
                       (mul currentAttended (ofZ 100)))
                  (sub (ofZ 100) targetPercentage)) in
      max (ofZ 0) classesNeeded.

(** [calculateClassesCanMiss(currentAttended, currentTotal,
    targetPercentage)]. *)
Definition calculateClassesCanMiss
    (currentAttended currentTotal targetPercentage : number) : number :=
  if eqb currentTotal (ofZ 0) then ofZ 0
  else
    let currentPercentage :=
      mul (div currentAttended currentTotal) (ofZ 100) in
    if ltb currentPercentage targetPercentage then ofZ 0
    else
      let maxTotalClasses :=
        div (mul currentAttended (ofZ 100)) targetPercentage in
      let classesCanMiss := floor (sub maxTotalClasses currentTotal) in
      max (ofZ 0) classesCanMiss.

(** [getAttendanceStatus(percentage).status]. *)
Definition getAttendanceStatus (percentage : number) : string :=
  if geb percentage (ofZ 75) then "Safe"
  else if geb percentage (ofZ 65) then "Warning"
  else "Critical".

(** The result of [calculateProjectedAttendance]. *)
Record Projection : Type := {
  projectedAttended : number;
  projectedTotal : number;
  projectedPercentage : number;
  projectedStatus : string;
  improvement : number
}.

(** [calculateProjectedAttendance(subject, futureClasses,
    totalFutureClasses)], given the subject's [attendedClasses],
    [totalClasses] and [percentage]. *)
Definition calculateProjectedAttendance
    (attendedClasses totalClasses percentage : number)
    (futureClasses totalFutureClasses : number) : Projection :=
  let currentAttended := attendedClasses in
  let currentTotal := totalClasses in
  let projectedAttended' := add currentAttended futureClasses in
  let projectedTotal' := add currentTotal totalFutureClasses in
  let projectedPercentage' :=
    if gtb projectedTotal' (ofZ 0)
    then mul (div projectedAttended' projectedTotal') (ofZ 100)
    else ofZ 0 in
  {| projectedAttended := projectedAttended';
     projectedTotal := projectedTotal';
     projectedPercentage := projectedPercentage';
     projectedStatus := getAttendanceStatus projectedPercentage';
     improvement := sub projectedPercentage' percentage |}.

End UtilsDouble.

(* ================================================================== *)
(** * More of the attendance utilities *)
(* ================================================================== *)

Module AttendanceUtils.

(** [calculateClassesCanMiss(currentAttended, currentTotal,
    targetPercentage)], over exact numbers and for a target other than
    0; [UtilsDouble.calculateClassesCanMiss] is the same function in
    binary64. *)
Definition calculateClassesCanMiss
    (currentAttended currentTotal : Z) (targetPercentage : Q) : Z :=
  if currentTotal =? 0 then 0
  else
    let currentPercentage :=
      (inject_Z currentAttended / inject_Z currentTotal * 100)%Q in
    if Num.ltb currentPercentage targetPercentage then 0
    else
      let maxTotalClasses :=
        (inject_Z currentAttended * 100 / targetPercentage)%Q in
      let classesCanMiss :=
        Qfloor (maxTotalClasses - inject_Z currentTotal)%Q in
      Z.max 0 classesCanMiss.

(** [filterAttendanceData(attendance, filter)]. *)
Definition filterAttendanceData
    (attendance : list AttendanceRecord) (filter : string)
  : list AttendanceRecord :=
  if String.eqb filter "all" then attendance
  else
    List.filter
      (fun subject =>
         String.eqb (Str.toLowerCase (status subject))
           (Str.toLowerCase filter))
      attendance.

(** The comparator of [sortAttendanceData] for [sortBy = 'percentage']:
    negative when [a] goes first. *)
Definition comparePercentage (order : string) (a b : AttendanceRecord) : Q :=
  let comparison := (percentage a - percentage b)%Q in
  if String.eqb order "desc" then (- comparison)%Q else comparison.

(** Where a stable sort puts [x] in front of a sorted list of elements
    that came after it. *)
Fixpoint insertSorted (order : string) (x : AttendanceRecord)
    (sorted : list AttendanceRecord) : list AttendanceRecord :=
  match sorted with
  | [] => [x]
  | y :: rest =>
      if Qle_bool (comparePercentage order x y) 0
      then x :: y :: rest
      else y :: insertSorted order x rest
  end.

(** [sortAttendanceData(attendance, 'percentage', order)]: the stable
    sort of a copy of the list by that comparator. *)
Definition sortAttendanceDataByPercentage
    (attendance : list AttendanceRecord) (order : string)
  : list AttendanceRecord :=
  List.fold_right (insertSorted order) [] attendance.

End AttendanceUtils.

(* ================================================================== *)
(** * The attendance card *)
(* ================================================================== *)

Module Card.

(** [calculateClassesToAttend(subject)] of the card component, in
    binary64. *)
Definition calculateClassesToAttend (subject : AttendanceRecord)
  : Double.number :=
  if Double.geb (Double.ofQ (percentage subject)) (Double.ofZ 75)
  then Double.ofZ 0
  else
    let targetPercentage := Double.ofZ 75 in
    let currentAttended :=
      Double.orElse (option_map Double.ofZ (attended subject))
        (Double.ofZ 0) in
    let currentTotal :=
      Double.orElse (option_map Double.ofZ (total subject))
        (Double.ofZ 0) in
    if Double.eqb currentTotal (Double.ofZ 0) then Double.ofZ 0
    else
      let classesNeeded :=
        Double.ceil
          (Double.div
             (Double.sub (Double.mul targetPercentage currentTotal)
                         (Double.mul currentAttended (Double.ofZ 100)))
             (Double.sub (Double.ofZ 100) targetPercentage)) in
      Double.max (Double.ofZ 0) classesNeeded.

(** [getPercentageColor(percentage)]. *)
Definition getPercentageColor (percentage : Q) : string :=
  if Num.geb percentage 75 then "text-green-600"
  else if Num.geb percentage 65 then "text-yellow-600"
  else "text-red-600".

End Card.

(* ================================================================== *)
(** * Vocabulary for the statements about scraped rows *)
(* ================================================================== *)

Module Rows.



End Rows.

(* ================================================================== *)
(** * [GET /api/attendance/status] ([backend/routes/attendance.js]) *)
(* ================================================================== *)

Module StatusRoute.

Import Eff.
Local Open Scope eff_scope.

Section Handler.

Variable P : Portal.
Variable R : Runtime.

Definition operational : Response :=
  {| statusCode := 200;
     body := JObj [("success", JBool true);
                   ("status", JStr "Service is operational");
                   ("services",
                    JObj [("webScraping", JStr "operational");
                          ("browser", JStr "operational");
                          ("upesPortal", JStr "not_tested")]);
                   ("timestamp", JStr (toISOString R))] |}.

Definition unavailable (message : string) : Response :=
  {| statusCode := 503;
     body := JObj [("success", JBool false);
                   ("status", JStr "Service partially unavailable");
                   ("services",
                    JObj [("webScraping", JStr "error");
                          ("browser", JStr "error");
                          ("upesPortal", JStr "not_tested")]);
                   ("error", JStr message);
                   ("timestamp", JStr (toISOString R))] |}.

(** The handler's [try]/[catch]: the health check starts a browser and
    cleans up. *)
Definition attempt : M Service Response :=
  tryCatch
    (UPES.initBrowser P ;;;
     UPES.cleanup P ;;;
     ret operational)
    (fun message => ret (unavailable message)).

(** The handler: the response sent, and the scraping service as the
    request leaves it. *)
Definition status : result Response * Service := attempt UPES.construct.

End Handler.

End StatusRoute.

(* ================================================================== *)
(** * Vocabulary for the statements about errors and portals *)
(* ================================================================== *)

(** The computation throws only messages that satisfy [ok]. *)
Definition throwsOnly {A} (ok : string -> Prop) (m : Eff.M Service A) : Prop :=
  forall s message, fst (m s) = Throw message -> ok message.

(** The same request, except for what scraping the profile does. *)
Definition withProfile (r : result Profile) (P : Portal) : Portal :=
  {| findChrome := findChrome P;
     launch := launch P;
     newPage := newPage P;
     configurePage := configurePage P;
     portalUrl := portalUrl P;
     submitCredentials := submitCredentials P;
     currentUrl := currentUrl P;
     errorElements := errorElements P;
     dashboardIndicators := dashboardIndicators P;
     dashboard := dashboard P;
     profileOnPage := r;
     pageClose := pageClose P;
     browserClose := browserClose P;
     now := now P |}.

(** A request during which the browser starts and then fails to open a
    page. *)
Definition noPagePortal : Portal :=
  {| findChrome := findChrome (Examples.smooth Examples.twoSubjects);
     launch := launch (Examples.smooth Examples.twoSubjects);
     newPage := Throw "Protocol error (Target.createTarget): Target closed.";
     configurePage := Ok tt;
     portalUrl := portalUrl (Examples.smooth Examples.twoSubjects);
     submitCredentials := Ok tt;
     currentUrl := currentUrl (Examples.smooth Examples.twoSubjects);
     errorElements := Ok [];
     dashboardIndicators := Ok [];
     dashboard := dashboard (Examples.smooth Examples.twoSubjects);
     profileOnPage := profileOnPage (Examples.smooth Examples.twoSubjects);
     pageClose := Ok tt;
     browserClose := Ok tt;
     now := now (Examples.smooth Examples.twoSubjects) |}.

(* ================================================================== *)
(** * Vocabulary for the statements about user ids *)
(* ================================================================== *)

Module Ids.

(** The character class [[a-z0-9._@-]]. *)
Definition canonicalChar (c : ascii) : bool :=
  let n := Str.code c in
  ((97 <=? n) && (n <=? 122) || (48 <=? n) && (n <=? 57)
   || (n =? 46) || (n =? 95) || (n =? 64) || (n =? 45))%N.

(** 1 to 50 characters from [[a-z0-9._@-]]. *)
Definition canonical (userId : string) : bool :=
  (1 <=? String.length userId)%nat && (String.length userId <=? 50)%nat
  && Str.allChars canonicalChar userId.

End Ids.

(* ================================================================== *)
(** * [DynamicAttendanceScrapingService]: reading one table row *)
(* ================================================================== *)

Module DynamicRow.

Definition isWordChar (c : ascii) : bool :=
  let n := Str.code c in
  ((97 <=? n) && (n <=? 122) || (65 <=? n) && (n <=? 90)
   || (48 <=? n) && (n <=? 57) || (n =? 95))%N.

(** [s.replace(/\s+/g, ' ')]; [inRun] says that the character before was
    white space. *)
Fixpoint collapseFrom (inRun : bool) (s : string) : string :=
  match s with
  | EmptyString => EmptyString
  | String c rest =>
      if Str.isWhiteSpace c
      then if inRun then collapseFrom true rest
           else String " " (collapseFrom true rest)
      else String c (collapseFrom false rest)
  end.

Fixpoint dropStart (p : ascii -> bool) (s : string) : string :=
  match s with
  | EmptyString => EmptyString
  | String c rest => if p c then dropStart p rest else s
  end.

Fixpoint dropEnd (p : ascii -> bool) (s : string) : string :=
  match s with
  | EmptyString => EmptyString
  | String c rest =>
      match dropEnd p rest with
      | EmptyString => if p c then EmptyString else String c EmptyString
      | r => String c r
      end
  end.

(** [s.replace(/^\W+|\W+$/g, '')]. *)
Definition stripNonWord (s : string) : string :=
  dropEnd (fun c => negb (isWordChar c))
    (dropStart (fun c => negb (isWordChar c)) s).

(** [s.replace(/\n|\r/g, ' ')]. *)
Definition breaksToSpaces (s : string) : string :=
  Str.mapChars
    (fun c => if ((Str.code c =? 10) || (Str.code c =? 13))%N
              then " "%char else c) s.

(** [cleanText(text)]. *)
Definition cleanText (text : option string) : option string :=
  match text with
  | None => None
  | Some t =>
      if negb (Str.truthy t) then None
      else
        let cleaned :=
          breaksToSpaces
            (stripNonWord (collapseFrom false (Str.trim t))) in
        if Str.truthy cleaned then Some cleaned else None
  end.







End DynamicRow.

(* ================================================================== *)
(** * Vocabulary for the statements about table cells *)
(* ================================================================== *)

Module Cells.


(** The last character of a string. *)
Fixpoint lastChar (s : string) : option ascii :=
  match s with
  | EmptyString => None
  | String c EmptyString => Some c
  | String _ rest => lastChar rest
  end.

Definition firstChar (s : string) : option ascii :=
  match s with
  | EmptyString => None
  | String c _ => Some c
  end.

Definition isWord (c : option ascii) : bool :=
  match c with
  | Some x => DynamicRow.isWordChar x
  | None => false
  end.


End Cells.

(* ================================================================== *)
(** * Facts about numbers *)
(* ================================================================== *)

Module NumFacts.

Lemma geb_true (a b : Q) : Num.geb a b = true <-> (b <= a)%Q.
Proof. unfold Num.geb. apply Qle_bool_iff. Qed.

Lemma geb_false (a b : Q) : Num.geb a b = false <-> (a < b)%Q.
Proof.
  unfold Num.geb. split; intro H.
  - apply Qnot_le_lt. intro L. apply Qle_bool_iff in L. congruence.
  - destruct (Qle_bool b a) eqn:E; [|reflexivity].
    apply Qle_bool_iff in E. exfalso. apply (Qlt_not_le _ _ H E).
Qed.

Lemma ltb_true (a b : Q) : Num.ltb a b = true <-> (a < b)%Q.
Proof. unfold Num.ltb. rewrite negb_true_iff. apply (geb_false a b). Qed.

Lemma ltb_false (a b : Q) : Num.ltb a b = false <-> (b <= a)%Q.
Proof. unfold Num.ltb. rewrite negb_false_iff. apply (geb_true a b). Qed.

Lemma ltb_negb_geb (a b : Q) : Num.ltb a b = negb (Num.geb a b).
Proof. reflexivity. Qed.

(** Dividing by a positive number and comparing. *)
Lemma div_le_iff (n d c : Q) :
  (0 < d)%Q -> ((n / d <= c)%Q <-> (n <= c * d)%Q).
Proof.
  intros Hd. split; intro H.
  - assert (E : (n == n / d * d)%Q).
    { field. intro Z. rewrite Z in Hd. apply (Qlt_irrefl _ Hd). }
    rewrite E. apply Qmult_le_compat_r; [exact H | apply Qlt_le_weak, Hd].
  - apply Qle_shift_div_r; assumption.
Qed.

Lemma le_div_iff (n d c : Q) :
  (0 < d)%Q -> ((c <= n / d)%Q <-> (c * d <= n)%Q).
Proof.
  intros Hd. split; intro H.
  - assert (E : (n == n / d * d)%Q).
    { field. intro Z. rewrite Z in Hd. apply (Qlt_irrefl _ Hd). }
    rewrite E. apply Qmult_le_compat_r; [exact H | apply Qlt_le_weak, Hd].
  - apply Qle_shift_div_l; assumption.
Qed.

(** The ceiling is the least integer above. *)
Lemma ceiling_least (x : Q) (m : Z) :
  (x <= inject_Z m)%Q -> Qceiling x <= m.
Proof.
  intro H. rewrite <- (Qceiling_Z m). apply Qceiling_resp_le, H.
Qed.

Lemma ceiling_pos (x : Q) : (0 < x)%Q -> 0 < Qceiling x.
Proof.
  intro H.
  assert (L : (0 < inject_Z (Qceiling x))%Q)
    by (eapply Qlt_le_trans; [exact H | apply Qle_ceiling]).
  rewrite (Zlt_Qlt 0 (Qceiling x)). exact L.
Qed.

End NumFacts.

(* ================================================================== *)
(** * Facts about the attendance utilities *)
(* ================================================================== *)

Module UtilsFacts.

Import NumFacts.

Lemma percentage_meets_iff (a t : Z) (p : Q) :
  0 < t ->
  ((p <= inject_Z a / inject_Z t * 100)%Q
   <-> (p * inject_Z t <= 100 * inject_Z a)%Q).
Proof.
  intro Ht.
  assert (HT : (0 < inject_Z t)%Q)
    by (change (inject_Z 0 < inject_Z t)%Q; rewrite <- Zlt_Qlt; exact Ht).
  assert (E : (inject_Z a / inject_Z t * 100
               == (100 * inject_Z a) / inject_Z t)%Q).
  { field. intro Z. rewrite Z in HT. apply (Qlt_irrefl _ HT). }
  rewrite E. apply le_div_iff, HT.
Qed.

(** The inequality that defines "enough classes", with the count
    moved to one side. *)
Lemma enough_iff (a t m : Z) (p : Q) :
  (p < 100)%Q ->
  ((p * inject_Z (t + m) <= 100 * inject_Z (a + m))%Q
   <-> ((p * inject_Z t - inject_Z a * 100) / (100 - p)
        <= inject_Z m)%Q).
Proof.
  intro Hp.
  assert (HD : (0 < 100 - p)%Q) by lra.
  rewrite (div_le_iff _ _ HD), !inject_Z_plus.
  split; intro H; lra.
Qed.

(** Over exact numbers, for counts with
    [0 <= currentAttended <= currentTotal] and a target strictly between
    0 and 100, [calculateClassesNeeded] returns the least non-negative
    integer [n] with
    [100 * (currentAttended + n) >= targetPercentage * (currentTotal + n)];
    it returns 0 when [currentTotal = 0] and when the current
    percentage already meets the target. *)
Lemma needed_least_exact
    (currentAttended currentTotal : Z) (targetPercentage : Q) :
  0 <= currentAttended <= currentTotal ->
  (0 < targetPercentage)%Q -> (targetPercentage < 100)%Q ->
  let n :=
    Utils.calculateClassesNeeded currentAttended currentTotal
      targetPercentage in
  0 <= n
  /\ (targetPercentage * inject_Z (currentTotal + n)
      <= 100 * inject_Z (currentAttended + n))%Q
  /\ (forall m : Z,
        0 <= m ->
        (targetPercentage * inject_Z (currentTotal + m)
         <= 100 * inject_Z (currentAttended + m))%Q ->
        n <= m)
  /\ (currentTotal = 0 -> n = 0)
  /\ ((targetPercentage * inject_Z currentTotal
       <= 100 * inject_Z currentAttended)%Q -> n = 0).
Proof.
  intros Hat Hp0 Hp100. cbv zeta. unfold Utils.calculateClassesNeeded.
  destruct (Z.eqb_spec currentTotal 0) as [Ht | Ht].
  - subst currentTotal. assert (currentAttended = 0) by lia. subst.
    repeat split; try lia; try reflexivity.
    rewrite Z.add_0_l. change (inject_Z 0) with 0%Q. lra.
  - assert (Hpos : 0 < currentTotal) by lia.
    destruct (Num.geb _ targetPercentage) eqn:G.
    + apply geb_true, (percentage_meets_iff _ _ Hpos) in G.
      repeat split; try lia; try reflexivity.
      rewrite !Z.add_0_r. exact G.
    + apply geb_false in G.
      assert (G' : ~ (targetPercentage * inject_Z currentTotal
                      <= 100 * inject_Z currentAttended)%Q).
      { intro L. apply (percentage_meets_iff _ _ Hpos) in L.
        apply (Qlt_not_le _ _ G L). }
      set (x := ((targetPercentage * inject_Z currentTotal
                  - inject_Z currentAttended * 100)
                 / (100 - targetPercentage))%Q) in *.
      assert (Hx : (0 < x)%Q).
      { apply Qnot_le_lt. intro L. apply G'.
        apply (enough_iff currentAttended currentTotal 0) in L;
          [| exact Hp100].
        rewrite !Z.add_0_r in L. exact L. }
      pose proof (ceiling_pos Hx) as Hc.
      rewrite Z.max_r by lia.
      repeat split; try lia.
      * apply enough_iff; [exact Hp100 | apply Qle_ceiling].
      * intros m _ Hm. apply ceiling_least.
        apply enough_iff in Hm; [exact Hm | exact Hp100].
      * intro L. contradiction.
Qed.

End UtilsFacts.

(* ================================================================== *)
(** * Facts about status labels *)
(* ================================================================== *)

Module StatusFacts.

Import NumFacts.

Lemma geb_75_65 (p : Q) : Num.geb p 75 = true -> Num.geb p 65 = true.
Proof. rewrite !geb_true. intro H. lra. Qed.

Ltac thresholds :=
  repeat match goal with
    | H : Num.geb _ _ = true |- _ => apply geb_true in H
    | H : Num.geb _ _ = false |- _ => apply geb_false in H
    end;
  try reflexivity; try (exfalso; lra).

Ltac ladder p :=
  unfold Utils.getAttendanceStatus, UPES.rowStatus, Dynamic.rowStatus;
  destruct (Num.geb p 90) eqn:?; destruct (Num.geb p 85) eqn:?;
  destruct (Num.geb p 75) eqn:?; destruct (Num.geb p 65) eqn:?;
  thresholds.

(** The label [extractRowData] gives from 75 up depends on two more
    thresholds. *)
Lemma dynamic_rowStatus_safe (p : Q) :
  ((90 <= p)%Q -> Dynamic.rowStatus p = "Perfect")
  /\ ((85 <= p)%Q -> (p < 90)%Q -> Dynamic.rowStatus p = "Excellent")
  /\ ((75 <= p)%Q -> (p < 85)%Q -> Dynamic.rowStatus p = "Good").
Proof. repeat split; intros; ladder p. Qed.

(** C1, as the code has it.  The five functions that compute a status
    label from a percentage all split at 75 and 65.  The three that
    label a subject's record: from 75 up [getAttendanceStatus] says
    "Safe", the scraper of [UPESScrapingService] says "Good" and
    [extractRowData] says "Good" (below 85), "Excellent" (from 85,
    below 90) or "Perfect" (from 90); from 65 up to 75 all three say
    "Warning"; below 65 all three say "Critical".  The two that label
    the overall percentage: [calculateOverallAttendance] says "Good",
    "Very Good" or "Excellent" on the same three ranges from 75 up,
    then "Warning" and "Critical"; [getOverallStatus] of the summary
    component says "Excellent" from 75 up, "Good" from 65 up to 75 and
    "Needs Attention" below 65. *)
Theorem status_by_thresholds (p : Q) :
  ((90 <= p)%Q ->
     Utils.getAttendanceStatus p = "Safe"
     /\ UPES.rowStatus p = "Good"
     /\ Dynamic.rowStatus p = "Perfect"
     /\ fst (Dynamic.overallStatus p) = "Excellent"
     /\ AttendanceSummary.getOverallStatus p = "Excellent")
  /\ ((85 <= p)%Q -> (p < 90)%Q ->
        Utils.getAttendanceStatus p = "Safe"
        /\ UPES.rowStatus p = "Good"
        /\ Dynamic.rowStatus p = "Excellent"
        /\ fst (Dynamic.overallStatus p) = "Very Good"
        /\ AttendanceSummary.getOverallStatus p = "Excellent")
  /\ ((75 <= p)%Q -> (p < 85)%Q ->
        Utils.getAttendanceStatus p = "Safe"
        /\ UPES.rowStatus p = "Good"
        /\ Dynamic.rowStatus p = "Good"
        /\ fst (Dynamic.overallStatus p) = "Good"
        /\ AttendanceSummary.getOverallStatus p = "Excellent")
  /\ ((65 <= p)%Q -> (p < 75)%Q ->
        Utils.getAttendanceStatus p = "Warning"
        /\ UPES.rowStatus p = "Warning"
        /\ Dynamic.rowStatus p = "Warning"
        /\ fst (Dynamic.overallStatus p) = "Warning"
        /\ AttendanceSummary.getOverallStatus p = "Good")
  /\ ((p < 65)%Q ->
        Utils.getAttendanceStatus p = "Critical"
        /\ UPES.rowStatus p = "Critical"
        /\ Dynamic.rowStatus p = "Critical"
        /\ fst (Dynamic.overallStatus p) = "Critical"
        /\ AttendanceSummary.getOverallStatus p = "Needs Attention").
Proof.
  repeat split; intros;
    unfold Dynamic.overallStatus, AttendanceSummary.getOverallStatus;
    ladder p.
Qed.

(** The theorem at 95, 87, 80, 70 and 50 percent. *)
Lemma status_by_thresholds_witness :
  (Dynamic.rowStatus 95 = "Perfect"
   /\ fst (Dynamic.overallStatus 95) = "Excellent")
  /\ (Dynamic.rowStatus 87 = "Excellent"
      /\ fst (Dynamic.overallStatus 87) = "Very Good")
  /\ (Utils.getAttendanceStatus 80 = "Safe"
      /\ UPES.rowStatus 80 = "Good"
      /\ Dynamic.rowStatus 80 = "Good"
      /\ AttendanceSummary.getOverallStatus 80 = "Excellent")
  /\ (Utils.getAttendanceStatus 70 = "Warning"
      /\ UPES.rowStatus 70 = "Warning"
      /\ Dynamic.rowStatus 70 = "Warning"
      /\ AttendanceSummary.getOverallStatus 70 = "Good")
  /\ (Utils.getAttendanceStatus 50 = "Critical"
      /\ UPES.rowStatus 50 = "Critical"
      /\ Dynamic.rowStatus 50 = "Critical"
      /\ AttendanceSummary.getOverallStatus 50 = "Needs Attention").
Proof.
  destruct (status_by_thresholds 95) as (H95 & _).
  destruct (status_by_thresholds 87) as (_ & H87 & _).
  destruct (status_by_thresholds 80) as (_ & _ & H80 & _).
  destruct (status_by_thresholds 70) as (_ & _ & _ & H70 & _).
  destruct (status_by_thresholds 50) as (_ & _ & _ & _ & H50).
  destruct H95 as (_ & _ & A1 & A2 & _); [discriminate |].
  destruct H87 as (_ & _ & B1 & B2 & _); [discriminate | reflexivity |].
  destruct H80 as (C1 & C2 & C3 & _ & C5); [discriminate | reflexivity |].
  destruct H70 as (D1 & D2 & D3 & _ & D5); [discriminate | reflexivity |].
  destruct H50 as (E1 & E2 & E3 & _ & E5); [reflexivity |].
  repeat split; assumption.
Defined.

(** C1 as stated fails: at 90 percent [extractRowData] labels the row
    "Perfect", which is neither "Safe" nor "Good". *)
Lemma status_label_not_safe_or_good :
  ~ (forall p : Q,
       (75 <= p)%Q ->
       Dynamic.rowStatus p = "Safe" \/ Dynamic.rowStatus p = "Good").
Proof.
  intro H. destruct (H 90%Q) as [E | E]; discriminate.
Qed.

End StatusFacts.

(* ================================================================== *)
(** * Facts about the two summaries *)
(* ================================================================== *)

Module SummaryFacts.

Import NumFacts.

Lemma countIf_cons {A} (p : A -> bool) (x : A) (xs : list A) :
  countIf p (x :: xs) = (if p x then 1 else 0) + countIf p xs.
Proof.
  unfold countIf. cbn [List.filter].
  destruct (p x); cbn [List.length]; lia.
Qed.

(** Three tests of which exactly one holds of every element split a
    list three ways. *)
Lemma countIf_partition {A} (p1 p2 p3 : A -> bool) (xs : list A) :
  (forall x, List.In x xs ->
             (p1 x, p2 x, p3 x) = (true, false, false)
             \/ (p1 x, p2 x, p3 x) = (false, true, false)
             \/ (p1 x, p2 x, p3 x) = (false, false, true)) ->
  countIf p1 xs + countIf p2 xs + countIf p3 xs = Z.of_nat (List.length xs).
Proof.
  induction xs as [| x xs IH]; intro One; [reflexivity |].
  rewrite !countIf_cons.
  assert (IH' := IH (fun y Hy => One y (or_intror Hy))).
  destruct (One x (or_introl eq_refl)) as [E | [E | E]];
    injection E as -> -> ->; cbn [List.length]; lia.
Qed.

Lemma buckets_exclusive (p : Q) :
  (Num.geb p 75, Num.geb p 65 && Num.ltb p 75, Num.ltb p 65)
    = (true, false, false)
  \/ (Num.geb p 75, Num.geb p 65 && Num.ltb p 75, Num.ltb p 65)
     = (false, true, false)
  \/ (Num.geb p 75, Num.geb p 65 && Num.ltb p 75, Num.ltb p 65)
     = (false, false, true).
Proof.
  rewrite !ltb_negb_geb.
  destruct (Num.geb p 75) eqn:E75.
  - rewrite (StatusFacts.geb_75_65 _ E75). left. reflexivity.
  - destruct (Num.geb p 65); [right; left | right; right]; reflexivity.
Qed.

(** [calculateOverallAttendance] counts every record in exactly one of
    its three buckets. *)
Lemma dynamic_summary_partitions (attendanceData : list AttendanceRecord) :
  let o := Dynamic.calculateOverallAttendance attendanceData in
  Dynamic.safeSubjects o + Dynamic.warningSubjects o
    + Dynamic.criticalSubjects o
  = Dynamic.totalSubjects o
  /\ Dynamic.totalSubjects o = Z.of_nat (List.length attendanceData).
Proof.
  destruct attendanceData as [| a rest]; [split; reflexivity |].
  cbv zeta. unfold Dynamic.calculateOverallAttendance.
  destruct (Dynamic.overallStatus _) as [st first].
  cbn [Dynamic.safeSubjects Dynamic.warningSubjects
       Dynamic.criticalSubjects Dynamic.totalSubjects].
  split; [| reflexivity].
  apply (countIf_partition
           (fun s => Num.geb (percentage s) 75)
           (fun s => Num.geb (percentage s) 65 && Num.ltb (percentage s) 75)
           (fun s => Num.ltb (percentage s) 65)).
  intros x _. apply buckets_exclusive.
Qed.

(** The summary of [fetchAttendanceReport] does the same on records
    whose status is the one the scraper derives from the stored
    percentage. *)
Lemma upes_summary_partitions (attendanceData : list AttendanceRecord) :
  (forall a, List.In a attendanceData ->
             status a = UPES.rowStatus (percentage a)) ->
  let s := UPES.summarize attendanceData in
  safeSubjects s + warningSubjects s + criticalSubjects s = totalSubjects s
  /\ totalSubjects s = Z.of_nat (List.length attendanceData).
Proof.
  intro Agree. cbv zeta. split; [| reflexivity].
  unfold UPES.summarize.
  cbn [safeSubjects warningSubjects criticalSubjects totalSubjects].
  apply countIf_partition. intros a Ha.
  rewrite (Agree a Ha). unfold UPES.rowStatus.
  destruct (buckets_exclusive (percentage a)) as [E | [E | E]];
    injection E as E1 E2 E3; rewrite E2, E3, E1.
  - left. reflexivity.
  - rewrite ltb_negb_geb in E3. apply negb_false_iff in E3. rewrite E3.
    right; left. reflexivity.
  - rewrite ltb_negb_geb in E3. apply negb_true_iff in E3. rewrite E3.
    right; right. reflexivity.
Qed.

End SummaryFacts.

Module SummaryCases.

(** C5.  The two services summarise one list differently.  On a
    dashboard with the rows ("1/2", "50%") and ("10/10", "100%")
    [fetchAttendanceReport] returns a report whose [overallPercentage]
    is the mean of the two percentages, 75, while
    [calculateOverallAttendance] on the report's attendance list gives
    the attended share of all classes, 11 of 12, 91.67. *)
Theorem overall_percentages_differ :
  exists (r : Report) (s : Service),
    UPES.fetchAttendanceReport (Examples.smooth Examples.twoSubjects)
      "590012345" "secret" UPES.construct = (Ok r, s)
    /\ overallPercentage (summary r) = Num.toFixed2 ((50 + 100) / 2)
    /\ (overallPercentage (summary r) == 75)%Q
    /\ Dynamic.overallPercentage
         (Dynamic.calculateOverallAttendance (attendance r))
       = Num.toFixed2 (inject_Z (1 + 10) / inject_Z (2 + 10) * 100)
    /\ (Dynamic.overallPercentage
          (Dynamic.calculateOverallAttendance (attendance r)) == 91.67)%Q
    /\ ~ (overallPercentage (summary r)
          == Dynamic.overallPercentage
               (Dynamic.calculateOverallAttendance (attendance r)))%Q.
Proof.
  eexists. eexists. split; [vm_compute; reflexivity |].
  repeat split; try (vm_compute; reflexivity).
  vm_compute. discriminate.
Qed.

(** C10 on [fetchAttendanceReport].  The portal prints "74.996%" for
    the only subject.  The scraper derives "Warning" from 74.996 and
    stores the percentage rounded to 75; the summary then counts the
    record as safe by its percentage and as warning by its status:
    the three buckets add up to 2 for 1 subject. *)
Theorem upes_summary_counts_twice :
  exists r s,
    UPES.fetchAttendanceReport (Examples.smooth Examples.justBelow)
      "590012345" "secret" UPES.construct = (Ok r, s)
    /\ List.map status (attendance r) = ["Warning"]
    /\ List.map (fun a => Qred (percentage a)) (attendance r) = [75%Q]
    /\ totalSubjects (summary r) = 1
    /\ safeSubjects (summary r) = 1
    /\ warningSubjects (summary r) = 1
    /\ criticalSubjects (summary r) = 0
    /\ safeSubjects (summary r) + warningSubjects (summary r)
       + criticalSubjects (summary r) <> totalSubjects (summary r).
Proof.
  eexists. eexists. split; [vm_compute; reflexivity |].
  repeat split; try (vm_compute; reflexivity).
  vm_compute. discriminate.
Qed.

End SummaryCases.

(* ================================================================== *)
(** * Facts about the browser's life cycle *)
(* ================================================================== *)

Module ServiceFacts.

Import Eff.

Lemma cleanups_snoc (b p : option handle) (ev : list Event) (e : Event) :
  cleanups {| browser := b; page := p; events := ev ++ [e] |}
  = (cleanups {| browser := b; page := p; events := ev |}
     + (if isCleanup e then 1 else 0))%nat.
Proof.
  unfold cleanups. cbn [events].
  rewrite List.filter_app, List.length_app. cbn [List.filter].
  destruct (isCleanup e); reflexivity.
Qed.

Lemma quiet_ret {A} (a : A) : quiet (ret a).
Proof. intro s. reflexivity. Qed.

Lemma quiet_throw {A} (msg : string) : quiet (@throw Service A msg).
Proof. intro s. reflexivity. Qed.

Lemma quiet_await {A} (r : result A) : quiet (await r).
Proof. intro s. reflexivity. Qed.

Lemma quiet_get : quiet (@get Service).
Proof. intro s. reflexivity. Qed.

Lemma quiet_bind {A B} (m : M Service A) (k : A -> M Service B) :
  quiet m -> (forall a, quiet (k a)) -> quiet (bind m k).
Proof.
  intros Hm Hk s. unfold bind. specialize (Hm s).
  destruct (m s) as [[a | msg] s1]; cbn [snd] in *.
  - rewrite (Hk a s1). exact Hm.
  - exact Hm.
Qed.

Lemma quiet_tryCatch {A} (m : M Service A) (h : string -> M Service A) :
  quiet m -> (forall msg, quiet (h msg)) -> quiet (tryCatch m h).
Proof.
  intros Hm Hh s. unfold tryCatch. specialize (Hm s).
  destruct (m s) as [[a | msg] s1]; cbn [snd] in *.
  - exact Hm.
  - rewrite (Hh msg s1). exact Hm.
Qed.

Lemma quiet_setBrowser (b : option handle) : quiet (UPES.setBrowser b).
Proof. intro s. reflexivity. Qed.

Lemma quiet_setPage (p : option handle) : quiet (UPES.setPage p).
Proof. intro s. reflexivity. Qed.

Lemma quiet_record (e : Event) :
  isCleanup e = false -> quiet (UPES.record e).
Proof.
  intros He [b p ev]. unfold UPES.record, modify. cbn [snd browser page events].
  rewrite cleanups_snoc, He. apply Nat.add_0_r.
Qed.

(** Decompose a computation along its structure. *)
Ltac quietness :=
  cbv zeta;
  repeat match goal with
    | |- forall _, _ => intro
    | |- quiet (bind _ _) => apply quiet_bind
    | |- quiet (tryCatch _ _) => apply quiet_tryCatch
    | |- quiet (ret _) => apply quiet_ret
    | |- quiet (throw _) => apply quiet_throw
    | |- quiet (await _) => apply quiet_await
    | |- quiet get => apply quiet_get
    | |- quiet (UPES.setBrowser _) => apply quiet_setBrowser
    | |- quiet (UPES.setPage _) => apply quiet_setPage
    | |- quiet (UPES.record _) => apply quiet_record; reflexivity
    | |- quiet (match ?x with _ => _ end) => destruct x
    end.

Lemma quiet_initBrowser (P : Portal) : quiet (UPES.initBrowser P).
Proof. unfold UPES.initBrowser. quietness. Qed.

Lemma quiet_login (P : Portal) (u pw : string) : quiet (UPES.login P u pw).
Proof. unfold UPES.login. quietness. Qed.

Lemma quiet_scrapeAttendanceData (P : Portal) :
  quiet (UPES.scrapeAttendanceData P).
Proof. unfold UPES.scrapeAttendanceData. quietness. Qed.

Lemma quiet_getStudentProfile (P : Portal) :
  quiet (UPES.getStudentProfile P).
Proof. unfold UPES.getStudentProfile. quietness. Qed.

(** [cleanup] returns normally, whatever the close calls do; it closes
    both handles when the close calls succeed. *)
Lemma cleanup_spec (P : Portal) (s : Service) :
  exists s',
    UPES.cleanup P s = (Ok tt, s')
    /\ cleanups s' = S (cleanups s)
    /\ (pageClose P = Ok tt -> browserClose P = Ok tt ->
        browser s' = None /\ page s' = None).
Proof.
  destruct s as [b p ev].
  unfold UPES.cleanup, UPES.record, UPES.setPage, UPES.setBrowser,
    tryCatch, bind, modify, get, await, ret.
  cbn [browser page events].
  destruct p as [hp |], b as [hb |];
    destruct (pageClose P) as [[] | m1];
    destruct (browserClose P) as [[] | m2];
    cbn [browser page events];
    (eexists; split; [reflexivity |]; split;
     [ unfold cleanups; cbn [events];
       repeat rewrite List.filter_app, List.length_app;
       cbn [List.filter isCleanup List.length]; lia
     | intros; try discriminate; split; reflexivity ]).
Qed.

Lemma quiet_workflow (P : Portal) (u pw : string) (k : _ -> _ -> Report) :
  quiet
    (tryCatch
       (bind (UPES.initBrowser P) (fun _ =>
        bind (UPES.login P u pw) (fun _ =>
        bind (UPES.scrapeAttendanceData P) (fun attendanceData =>
        bind (UPES.getStudentProfile P) (fun profile =>
        ret (k attendanceData profile))))))
       (fun error => throw error)).
Proof.
  apply quiet_tryCatch; [| intro; apply quiet_throw].
  apply quiet_bind; [apply quiet_initBrowser | intros _].
  apply quiet_bind; [apply quiet_login | intros _].
  apply quiet_bind; [apply quiet_scrapeAttendanceData | intro].
  apply quiet_bind; [apply quiet_getStudentProfile | intro].
  apply quiet_ret.
Qed.

(** C6, as the code has it.  Every call of [fetchAttendanceReport],
    whether it returns a report or throws, enters [cleanup] exactly
    once, in its [finally] block, and [cleanup] does not throw; when
    [page.close()] and [browser.close()] do not throw, the service is
    left with [browser = null] and [page = null]. *)
Theorem fetchAttendanceReport_cleans_up
    (P : Portal) (userId password : string) (s : Service) :
  let s' := snd (UPES.fetchAttendanceReport P userId password s) in
  cleanups s' = S (cleanups s)
  /\ (forall s0 : Service, fst (UPES.cleanup P s0) = Ok tt)
  /\ (pageClose P = Ok tt -> browserClose P = Ok tt ->
      browser s' = None /\ page s' = None).
Proof.
  cbv zeta.
  assert (N : forall s0 : Service, fst (UPES.cleanup P s0) = Ok tt).
  { intro s0. destruct (cleanup_spec P s0) as (s1 & E & _).
    rewrite E. reflexivity. }
  unfold UPES.fetchAttendanceReport, tryFinally.
  match goal with
  | |- context [tryCatch ?b ?h s] =>
      pose proof (@quiet_workflow P userId password
                    (fun attendanceData profile =>
                       {| success := true; timestamp := now P;
                          student := profile;
                          attendance := attendanceData;
                          summary := UPES.summarize attendanceData |}) s)
        as Q;
      destruct (tryCatch b h s) as [r s1]
  end.
  cbn [snd] in Q.
  destruct (cleanup_spec P s1) as (s2 & E & C & T).
  rewrite E. cbn [snd]. split; [congruence | split; [exact N | exact T]].
Qed.

(** The theorem on a request during which every call succeeds. *)
Lemma fetchAttendanceReport_cleans_up_witness :
  let s' :=
    snd (UPES.fetchAttendanceReport (Examples.smooth Examples.twoSubjects)
           "590012345" "secret" UPES.construct) in
  cleanups s' = 1%nat /\ browser s' = None /\ page s' = None.
Proof.
  destruct (fetchAttendanceReport_cleans_up
              (Examples.smooth Examples.twoSubjects)
              "590012345" "secret" UPES.construct) as (C & _ & T).
  split; [exact C | apply T; reflexivity].
Defined.

(** C6 as stated fails: when [page.close()] throws, [cleanup] logs the
    error and returns with both handles still set. *)
Lemma teardown_incomplete_when_close_throws :
  ~ (forall (P : Portal) (userId password : string),
       let s' :=
         snd (UPES.fetchAttendanceReport P userId password
                UPES.construct) in
       browser s' = None /\ page s' = None).
Proof.
  intro H.
  destruct (H (Examples.stuckPage Examples.twoSubjects)
              "590012345" "secret") as [B _].
  vm_compute in B. discriminate B.
Qed.

(** A report is returned, or an error thrown, exactly as the workflow
    before the [finally] block decides: [cleanup] never replaces the
    outcome. *)
Lemma finally_keeps_outcome {A} (P : Portal) (m : M Service A) (s : Service) :
  fst (tryFinally m (UPES.cleanup P) s) = fst (m s).
Proof.
  unfold tryFinally. destruct (m s) as [r s1].
  destruct (cleanup_spec P s1) as (s2 & E & _). rewrite E. reflexivity.
Qed.

End ServiceFacts.

(* ================================================================== *)
(** * Facts about [POST /api/attendance/fetch] *)
(* ================================================================== *)

Module RouteFacts.

Import Eff.

Lemma validateAttendanceInput_admitted (req : FetchRequest) :
  Shape.admitted req = true ->
  Validator.validateAttendanceInput (bodyPassword req) = []
  /\ Str.truthy (Validator.toString (bodyPassword req)) = true
  /\ Str.truthy (userUserId req) = true.
Proof.
  unfold Shape.admitted. intro H. apply andb_true_iff in H as [Hp Hu].
  repeat split; try assumption.
  unfold Validator.validateAttendanceInput, Validator.check,
    Validator.notEmpty, Validator.isLength.
  rewrite Hp.
  destruct (Validator.toString (bodyPassword req)); [discriminate |].
  reflexivity.
Qed.

(** The handler's [try]/[catch]/[finally] always produces a response:
    the success response when [fetchAttendanceReport] returns, the
    [catch] branch's response when it throws. *)
Lemma v1_attempt_spec (P : Portal) (R : Runtime) (u pw : string) :
  exists s',
    RouteV1.attempt P R u pw UPES.construct
    = (Ok match fst (UPES.fetchAttendanceReport P u pw UPES.construct) with
          | Ok r => RouteV1.onSuccess R u r
          | Throw m => RouteV1.onError R m
          end, s').
Proof.
  unfold RouteV1.attempt, tryFinally, tryCatch, bind, ret.
  destruct (UPES.fetchAttendanceReport P u pw UPES.construct)
    as [[r | m] s1]; cbn [fst];
    destruct (ServiceFacts.cleanup_spec P s1) as (s2 & E & _);
    rewrite E; eexists; reflexivity.
Qed.

Lemma v3_attempt_spec (P : Portal) (R : Runtime) (ph u e pw : string) :
  exists s',
    RouteV3.attempt P R ph u e pw UPES.construct
    = (Ok match fst (UPES.fetchAttendanceReport P u pw UPES.construct) with
          | Ok r => RouteV3.onSuccess R u r
          | Throw m => RouteV3.onError R ph u e m
          end, s').
Proof.
  unfold RouteV3.attempt, tryFinally, tryCatch, bind, ret.
  destruct (UPES.fetchAttendanceReport P u pw UPES.construct)
    as [[r | m] s1]; cbn [fst];
    destruct (ServiceFacts.cleanup_spec P s1) as (s2 & E & _);
    rewrite E; eexists; reflexivity.
Qed.

Lemma v1_fetch_admitted (P : Portal) (R : Runtime) (req : FetchRequest) :
  Shape.admitted req = true ->
  fst (RouteV1.fetch P R req)
  = match fst (UPES.fetchAttendanceReport P (userUserId req)
                 (Validator.toString (bodyPassword req)) UPES.construct) with
    | Ok r => RouteV1.onSuccess R (userUserId req) r
    | Throw m => RouteV1.onError R m
    end.
Proof.
  intro A. destruct (validateAttendanceInput_admitted _ A) as (V & Hp & Hu).
  unfold RouteV1.fetch. rewrite V, Hp, Hu. cbn [negb orb].
  destruct (v1_attempt_spec P R (userUserId req)
              (Validator.toString (bodyPassword req))) as [s' E].
  rewrite E. reflexivity.
Qed.

Lemma v3_fetch_admitted (P : Portal) (R : Runtime) (ph : string)
    (req : FetchRequest) :
  Shape.admitted req = true ->
  fst (RouteV3.fetch P R ph req)
  = match fst (UPES.fetchAttendanceReport P (userUserId req)
                 (Validator.toString (bodyPassword req)) UPES.construct) with
    | Ok r => RouteV3.onSuccess R (userUserId req) r
    | Throw m =>
        RouteV3.onError R ph (userUserId req) (Shape.emailOf req) m
    end.
Proof.
  intro A. destruct (validateAttendanceInput_admitted _ A) as (V & Hp & Hu).
  unfold RouteV3.fetch. rewrite V, Hp, Hu. cbn [negb orb].
  fold (Shape.emailOf req).
  destruct (v3_attempt_spec P R ph (userUserId req) (Shape.emailOf req)
              (Validator.toString (bodyPassword req))) as [s' E].
  rewrite E. reflexivity.
Qed.

Lemma fetch_not_admitted (req : FetchRequest) :
  Shape.admitted req = false ->
  forall (P : Portal) (R : Runtime) (ph : string),
    statusCode (fst (RouteV1.fetch P R req)) = 400
    /\ statusCode (fst (RouteV3.fetch P R ph req)) = 400.
Proof.
  intros A P R ph. unfold RouteV1.fetch, RouteV3.fetch.
  destruct (Validator.validateAttendanceInput (bodyPassword req));
    [| split; reflexivity].
  unfold Shape.admitted in A. apply andb_false_iff in A.
  assert (E : negb (Str.truthy (Validator.toString (bodyPassword req)))
              || negb (Str.truthy (userUserId req)) = true).
  { destruct A as [-> | ->]; [reflexivity | apply orb_true_r]. }
  rewrite E. split; reflexivity.
Qed.

Lemma v1_onError_status (R : Runtime) (m : string) :
  statusCode (RouteV1.onError R m) = fst (fst (RouteV1.classify m))
  /\ Shape.isFalse "success" (body (RouteV1.onError R m)) = true.
Proof.
  unfold RouteV1.onError.
  destruct (RouteV1.classify m) as [[st code] msg]. split; reflexivity.
Qed.

Lemma v1_classify_not_200 (m : string) :
  fst (fst (RouteV1.classify m)) <> 200.
Proof.
  unfold RouteV1.classify.
  repeat match goal with
         | |- context [if ?b then _ else _] => destruct b
         end; discriminate.
Qed.

(** C3, as the code has it, for the version 1.0 route.  When
    [fetchAttendanceReport] throws, the response has [success: false]
    and the status of the first rule that matches the message, the
    rules being tried in the order 401 ('Login failed', 'credentials'),
    429 ('RATE_LIMITED', 'too many login attempts'), 504 ('timeout',
    'Network'), 503 ('Browser', 'puppeteer').  A message with both a
    401 marker and a 429 marker is left out of the statement. *)
Theorem v1_error_status_first_match
    (P : Portal) (R : Runtime) (req : FetchRequest) (message : string) :
  Shape.admitted req = true ->
  fst (UPES.fetchAttendanceReport P (userUserId req)
         (Validator.toString (bodyPassword req)) UPES.construct)
  = Throw message ->
  let response := fst (RouteV1.fetch P R req) in
  let credentials := Shape.mentions message "Login failed" "credentials" in
  let rateLimit :=
    Shape.mentions message "RATE_LIMITED" "too many login attempts" in
  let timeout := Shape.mentions message "timeout" "Network" in
  let browserDown := Shape.mentions message "Browser" "puppeteer" in
  Shape.isFalse "success" (body response) = true
  /\ (credentials = true -> rateLimit = false ->
      statusCode response = 401)
  /\ (credentials = false -> rateLimit = true ->
      statusCode response = 429)
  /\ (credentials = false -> rateLimit = false -> timeout = true ->
      statusCode response = 504)
  /\ (credentials = false -> rateLimit = false -> timeout = false ->
      browserDown = true -> statusCode response = 503).
Proof.
  intros A T. cbv zeta. rewrite (v1_fetch_admitted P R req A), T.
  destruct (v1_onError_status R message) as [-> S]. split; [exact S |].
  unfold RouteV1.classify, Shape.mentions.
  repeat split; intros;
    repeat match goal with H : _ = _ |- _ => rewrite H end; reflexivity.
Qed.

(** The theorem on a login whose navigation times out: the message is
    "Login failed: Navigation timeout of 30000 ms exceeded" and the
    answer is 401. *)
Lemma v1_error_status_first_match_witness :
  fst (UPES.fetchAttendanceReport Examples.slowLogin
         (userUserId Examples.request)
         (Validator.toString (bodyPassword Examples.request))
         UPES.construct)
  = Throw "Login failed: Navigation timeout of 30000 ms exceeded"
  /\ statusCode
       (fst (RouteV1.fetch Examples.slowLogin Examples.runtime
               Examples.request)) = 401.
Proof.
  split; [reflexivity |].
  apply (@v1_error_status_first_match Examples.slowLogin Examples.runtime
           Examples.request
           "Login failed: Navigation timeout of 30000 ms exceeded");
    reflexivity.
Defined.

(** C3 as stated fails: a message with 'timeout' in it is answered
    with 401, not 504, when it also says 'Login failed'. *)
Lemma timeout_message_answered_401 :
  ~ (forall (P : Portal) (R : Runtime) (req : FetchRequest)
            (message : string),
       Shape.admitted req = true ->
       fst (UPES.fetchAttendanceReport P (userUserId req)
              (Validator.toString (bodyPassword req)) UPES.construct)
       = Throw message ->
       Shape.mentions message "timeout" "Network" = true ->
       statusCode (fst (RouteV1.fetch P R req)) = 504).
Proof.
  intro H.
  specialize (H Examples.slowLogin Examples.runtime Examples.request
                "Login failed: Navigation timeout of 30000 ms exceeded"
                eq_refl eq_refl eq_refl).
  vm_compute in H. discriminate H.
Qed.

(** A rate-limiting banner on the portal: [login] throws
    "RATE_LIMITED: ..." inside its own [try], its [catch] wraps that in
    "Login failed: ", and the route answers 401. *)
Lemma rate_limited_login_answered_401 :
  fst (UPES.fetchAttendanceReport Examples.rateLimited
         (userUserId Examples.request)
         (Validator.toString (bodyPassword Examples.request))
         UPES.construct)
  = Throw "Login failed: RATE_LIMITED: Too many login attempts"
  /\ statusCode
       (fst (RouteV1.fetch Examples.rateLimited Examples.runtime
               Examples.request)) = 401.
Proof. split; reflexivity. Qed.

Lemma v3_onError_response (R : Runtime) (ph u e m : string) :
  statusCode (RouteV3.onError R ph u e m) = 200
  /\ Shape.isTrue "success" (body (RouteV3.onError R ph u e m)) = true
  /\ Json.get "data" (body (RouteV3.onError R ph u e m))
     = Some (RouteV3.generateFallbackData R ph u e).
Proof.
  unfold RouteV3.onError.
  destruct (RouteV3.classify m) as [[st code] msg].
  repeat split; reflexivity.
Qed.

(** C2, as the code has it, for the version 3.0 route.  Whatever
    error [fetchAttendanceReport] throws, the handler answers 200 with
    [success: true] and, as [data], [generateFallbackData] applied to
    the user's id and email. *)
Theorem v3_failure_answers_fallback
    (P : Portal) (R : Runtime) (fallbackPhoto : string)
    (req : FetchRequest) (message : string) :
  Shape.admitted req = true ->
  fst (UPES.fetchAttendanceReport P (userUserId req)
         (Validator.toString (bodyPassword req)) UPES.construct)
  = Throw message ->
  let response := fst (RouteV3.fetch P R fallbackPhoto req) in
  statusCode response = 200
  /\ Shape.isTrue "success" (body response) = true
  /\ Json.get "data" (body response)
     = Some (RouteV3.generateFallbackData R fallbackPhoto
               (userUserId req) (Shape.emailOf req)).
Proof.
  intros A T. cbv zeta.
  rewrite (v3_fetch_admitted P R fallbackPhoto req A), T.
  apply v3_onError_response.
Qed.

(** The theorem on a login whose navigation times out. *)
Lemma v3_failure_answers_fallback_witness :
  let response :=
    fst (RouteV3.fetch Examples.slowLogin Examples.runtime
           "data:image/jpeg;base64," Examples.request) in
  statusCode response = 200
  /\ Shape.isTrue "success" (body response) = true
  /\ Json.get "data" (body response)
     = Some (RouteV3.generateFallbackData Examples.runtime
               "data:image/jpeg;base64,"
               "asha.rao@stu.upes.ac.in" "asha.rao@stu.upes.ac.in").
Proof.
  apply (@v3_failure_answers_fallback Examples.slowLogin Examples.runtime
           "data:image/jpeg;base64," Examples.request
           "Login failed: Navigation timeout of 30000 ms exceeded");
    reflexivity.
Defined.

(** C2 as stated fails on the version 1.0 route: a failed fetch is
    answered with an error status, not with 200 and demo data. *)
Lemma v1_failure_answers_error :
  ~ (forall (P : Portal) (R : Runtime) (req : FetchRequest)
            (message : string),
       Shape.admitted req = true ->
       fst (UPES.fetchAttendanceReport P (userUserId req)
              (Validator.toString (bodyPassword req)) UPES.construct)
       = Throw message ->
       statusCode (fst (RouteV1.fetch P R req)) = 200
       /\ Shape.isTrue "success" (body (fst (RouteV1.fetch P R req)))
          = true).
Proof.
  intro H.
  destruct (H Examples.slowLogin Examples.runtime Examples.request
              "Login failed: Navigation timeout of 30000 ms exceeded"
              eq_refl eq_refl) as [S _].
  vm_compute in S. discriminate S.
Qed.

Lemma v1_onSuccess_shape (R : Runtime) (u : string) (r : Report) :
  let b := body (RouteV1.onSuccess R u r) in
  Shape.isTrue "success" b = true
  /\ Shape.hasObject "student" (Shape.data b) = true
  /\ Shape.hasArray "attendance" (Shape.data b) = true
  /\ Shape.hasObject "summary" (Shape.data b) = true.
Proof. repeat split; reflexivity. Qed.

Lemma v3_onSuccess_shape (R : Runtime) (u : string) (r : Report) :
  let b := body (RouteV3.onSuccess R u r) in
  Shape.isTrue "success" b = true
  /\ Shape.hasObject "student" (Shape.data b) = true
  /\ Shape.hasArray "attendance" (Shape.data b) = true
  /\ Shape.hasObject "summary" (Shape.data b) = true.
Proof. repeat split; reflexivity. Qed.

Lemma v3_onError_shape (R : Runtime) (ph u e m : string) :
  let b := body (RouteV3.onError R ph u e m) in
  Shape.isTrue "success" b = true
  /\ Shape.hasObject "student" (Shape.data b) = true
  /\ Shape.hasArray "attendance" (Shape.data b) = true
  /\ Shape.hasObject "overallAttendance" (Shape.data b) = true
  /\ Json.get "summary" (Shape.data b) = None.
Proof.
  cbv zeta. unfold RouteV3.onError.
  destruct (RouteV3.classify m) as [[st code] msg].
  unfold RouteV3.generateFallbackData.
  match goal with
  | |- context [let '(_, _) := ?c in _] => destruct c as [n i]
  end.
  repeat split; reflexivity.
Qed.

(** C4.  Every 200 response of [POST /api/attendance/fetch], the route
    of [backend/routes/attendance.js], has [success: true] and a [data]
    with a [student] object, an [attendance] array and a [summary]
    object. *)
Theorem success_response_shape
    (P : Portal) (R : Runtime) (req : FetchRequest) :
  let response := fst (RouteV1.fetch P R req) in
  statusCode response = 200 ->
  Shape.isTrue "success" (body response) = true
  /\ Shape.hasObject "student" (Shape.data (body response)) = true
  /\ Shape.hasArray "attendance" (Shape.data (body response)) = true
  /\ Shape.hasObject "summary" (Shape.data (body response)) = true.
Proof.
  cbv zeta. intro S.
  destruct (Shape.admitted req) eqn:A.
  - rewrite (v1_fetch_admitted P R req A) in *.
    destruct (fst (UPES.fetchAttendanceReport _ _ _ _)) as [r | m].
    + apply v1_onSuccess_shape.
    + exfalso. rewrite (proj1 (v1_onError_status R m)) in S.
      exact (v1_classify_not_200 m S).
  - exfalso. rewrite (proj1 (fetch_not_admitted req A P R "")) in S.
    discriminate S.
Qed.

(** The theorem on a request during which every call succeeds. *)
Lemma success_response_shape_witness :
  let response :=
    fst (RouteV1.fetch (Examples.smooth Examples.twoSubjects)
           Examples.runtime Examples.request) in
  Shape.isTrue "success" (body response) = true
  /\ Shape.hasObject "student" (Shape.data (body response)) = true
  /\ Shape.hasArray "attendance" (Shape.data (body response)) = true
  /\ Shape.hasObject "summary" (Shape.data (body response)) = true.
Proof.
  apply (success_response_shape (Examples.smooth Examples.twoSubjects)
           Examples.runtime Examples.request).
  reflexivity.
Defined.

(** X28.  Every 200 response of the version 3.0 route has
    [success: true] and a [data] with a [student] object and an
    [attendance] array; its [data] has a [summary] object when
    [fetchAttendanceReport] returned, and an [overallAttendance] object
    and no [summary] when it threw and the fallback data are sent. *)
Theorem v3_response_shape
    (P : Portal) (R : Runtime) (fallbackPhoto : string)
    (req : FetchRequest) :
  let response := fst (RouteV3.fetch P R fallbackPhoto req) in
  let outcome :=
    fst (UPES.fetchAttendanceReport P (userUserId req)
           (Validator.toString (bodyPassword req)) UPES.construct) in
  statusCode response = 200 ->
  Shape.isTrue "success" (body response) = true
  /\ Shape.hasObject "student" (Shape.data (body response)) = true
  /\ Shape.hasArray "attendance" (Shape.data (body response)) = true
  /\ match outcome with
     | Ok _ =>
         Shape.hasObject "summary" (Shape.data (body response)) = true
     | Throw _ =>
         Shape.hasObject "overallAttendance"
           (Shape.data (body response)) = true
         /\ Json.get "summary" (Shape.data (body response)) = None
     end.
Proof.
  cbv zeta. intro S.
  destruct (Shape.admitted req) eqn:A.
  - rewrite (v3_fetch_admitted P R fallbackPhoto req A) in *.
    destruct (fst (UPES.fetchAttendanceReport _ _ _ _)) as [r | m].
    + destruct (v3_onSuccess_shape R (userUserId req) r)
        as (H1 & H2 & H3 & H4).
      repeat split; assumption.
    + destruct (v3_onError_shape R fallbackPhoto (userUserId req)
                  (Shape.emailOf req) m) as (H1 & H2 & H3 & H4 & H5).
      repeat split; assumption.
  - exfalso.
    rewrite (proj2 (fetch_not_admitted req A P R fallbackPhoto)) in S.
    discriminate S.
Qed.

(** The theorem on a request whose login times out: the fallback data
    are sent, without a [summary]. *)
Lemma v3_response_shape_witness :
  let response :=
    fst (RouteV3.fetch Examples.slowLogin Examples.runtime
           "data:image/jpeg;base64," Examples.request) in
  Shape.hasObject "overallAttendance" (Shape.data (body response)) = true
  /\ Json.get "summary" (Shape.data (body response)) = None.
Proof.
  destruct (v3_response_shape Examples.slowLogin Examples.runtime
              "data:image/jpeg;base64," Examples.request eq_refl)
    as (_ & _ & _ & F).
  exact F.
Defined.

End RouteFacts.

(* ================================================================== *)
(** * Facts about [POST /api/auth/login] *)
(* ================================================================== *)

Module AuthFacts.

Lemma userIdChar_not_space (c : ascii) :
  Validator.userIdChar c = true -> Str.isWhiteSpace c = false.
Proof.
  destruct c as [[] [] [] [] [] [] [] []]; vm_compute;
    intro; congruence.
Qed.

Lemma trimEnd_no_space (s : string) :
  Str.allChars (fun c => negb (Str.isWhiteSpace c)) s = true ->
  Str.trimEnd s = s.
Proof.
  induction s as [| c rest IH]; [reflexivity |].
  cbn [Str.allChars Str.trimEnd]. intro H.
  apply andb_true_iff in H as [Hc Hr]. rewrite (IH Hr).
  apply negb_true_iff in Hc. rewrite Hc. destruct rest; reflexivity.
Qed.

Lemma allChars_weaken (p q : ascii -> bool) (s : string) :
  (forall c, p c = true -> q c = true) ->
  Str.allChars p s = true -> Str.allChars q s = true.
Proof.
  intro W. induction s as [| c rest IH]; [reflexivity |].
  cbn [Str.allChars]. intro H. apply andb_true_iff in H as [Hc Hr].
  rewrite (W c Hc), (IH Hr). reflexivity.
Qed.

(** A user id made of the allowed characters has nothing to trim. *)
Lemma trim_userId (s : string) :
  Str.allChars Validator.userIdChar s = true -> Str.trim s = s.
Proof.
  intro H. unfold Str.trim.
  assert (S : Str.trimStart s = s).
  { destruct s as [| c rest]; [reflexivity |].
    cbn [Str.allChars] in H. apply andb_true_iff in H as [Hc _].
    cbn [Str.trimStart]. rewrite (userIdChar_not_space _ Hc). reflexivity. }
  rewrite S. apply trimEnd_no_space.
  apply (allChars_weaken Validator.userIdChar); [| exact H].
  intros c Hc. rewrite (userIdChar_not_space _ Hc). reflexivity.
Qed.

Lemma trimEnd_visible_head (c : ascii) (rest : string) :
  Str.isWhiteSpace c = false ->
  Str.truthy (Str.trimEnd (String c rest)) = true.
Proof.
  intro Hc. cbn [Str.trimEnd]. rewrite Hc.
  destruct (Str.trimEnd rest); reflexivity.
Qed.

(** Trimming leaves something exactly when some character is not
    white space. *)
Lemma trim_truthy (s : string) :
  Str.truthy (Str.trim s) = Shape.hasVisibleChar s.
Proof.
  unfold Str.trim, Shape.hasVisibleChar.
  induction s as [| c rest IH]; [reflexivity |].
  cbn [Str.trimStart Str.allChars].
  destruct (Str.isWhiteSpace c) eqn:Hc.
  - rewrite IH. reflexivity.
  - rewrite (@trimEnd_visible_head c rest Hc). reflexivity.
Qed.

Lemma visible_nonempty (s : string) :
  Shape.hasVisibleChar s = true -> Str.truthy s = true.
Proof. destruct s; [discriminate | reflexivity]. Qed.

Lemma toLowerCase_truthy (s : string) :
  Str.truthy (Str.toLowerCase s) = Str.truthy s.
Proof. destruct s; reflexivity. Qed.

Section Login.

Variable generateToken : Auth.Payload -> result string.
Variable R : Runtime.

(** C8, as the code has it.  For a [userId] of 1 to 50 characters
    from [[a-zA-Z0-9._@-]] and a password with at least one
    character that is not white space, the handler, when
    [generateToken] returns a token for the payload, answers 200
    with [success: true], that token, and the lowercased [userId],
    which is also the payload's [userId] (there is nothing to trim);
    every other such password gets the same response. *)
Theorem login_issues_token (userId password token : string) :
  Shape.validUserId userId = true ->
  Shape.hasVisibleChar password = true ->
  generateToken (Auth.payloadFor R (Str.toLowerCase userId)) = Ok token ->
  Auth.login generateToken R (Some userId) (Some password)
  = {| statusCode := 200;
       body := JObj [("success", JBool true);
                     ("message", JStr "Login credentials validated");
                     ("token", JStr token);
                     ("user",
                      JObj [("userId", JStr (Str.toLowerCase userId));
                            ("loginTime", JStr (toISOString R))])] |}
  /\ Auth.userId (Auth.payloadFor R (Str.toLowerCase userId))
     = Str.toLowerCase (Str.trim userId)
  /\ (forall password' : string,
        Shape.hasVisibleChar password' = true ->
        Auth.login generateToken R (Some userId) (Some password')
        = Auth.login generateToken R (Some userId) (Some password)).
Proof.
  intros V Hp T.
  unfold Shape.validUserId in V.
  apply andb_true_iff in V as [V Chars].
  apply andb_true_iff in V as [Lo Hi].
  assert (Tr : Str.trim userId = userId) by (apply trim_userId, Chars).
  assert (Ne : Str.truthy userId = true).
  { destruct userId; [discriminate Lo | reflexivity]. }
  assert (Run : forall pw,
             Shape.hasVisibleChar pw = true ->
             Auth.login generateToken R (Some userId) (Some pw)
             = {| statusCode := 200;
                  body := JObj [("success", JBool true);
                                ("message",
                                 JStr "Login credentials validated");
                                ("token", JStr token);
                                ("user",
                                 JObj [("userId",
                                        JStr (Str.toLowerCase userId));
                                       ("loginTime",
                                        JStr (toISOString R))])] |}).
  { intros pw Hpw.
    unfold Auth.login, Validator.validateLoginInput, Validator.check,
      Validator.notEmpty, Validator.isLength, Validator.matchesUserId,
      Validator.toString.
    rewrite !Tr, Ne, Lo, Hi, Chars, (visible_nonempty _ Hpw).
    assert (L1 : (1 <=? String.length pw)%nat = true).
    { destruct pw; [discriminate Hpw | reflexivity]. }
    rewrite L1. cbn [andb app].
    rewrite toLowerCase_truthy, Ne, trim_truthy, Hpw. cbn [negb orb].
    rewrite T. reflexivity. }
  split; [apply Run, Hp |].
  split; [rewrite Tr; reflexivity |].
  intros pw' Hpw'. rewrite (Run pw' Hpw'), (Run password Hp). reflexivity.
Qed.

End Login.

(** The theorem for the user id "Student.01@stu.upes.ac.in" and the
    password "secret", with a token generator that always returns. *)
Lemma login_issues_token_witness :
  statusCode
    (Auth.login (fun _ => Ok "token") Examples.runtime
       (Some "Student.01@stu.upes.ac.in") (Some "secret")) = 200
  /\ Json.get "user"
       (body (Auth.login (fun _ => Ok "token") Examples.runtime
                (Some "Student.01@stu.upes.ac.in") (Some "secret")))
     = Some (JObj [("userId", JStr "student.01@stu.upes.ac.in");
                   ("loginTime", JStr "2025-01-25T16:44:00.000Z")]).
Proof.
  destruct (@login_issues_token (fun _ => Ok "token") Examples.runtime
              "Student.01@stu.upes.ac.in" "secret" "token"
              eq_refl eq_refl eq_refl) as [E _].
  rewrite E. split; reflexivity.
Defined.

(** C8 as stated fails: a password of one space is not empty, passes
    the validation chain, and is answered with 400 because it trims
    to the empty string. *)
Lemma blank_password_rejected :
  ~ (forall (generateToken : Auth.Payload -> result string) (R : Runtime)
            (userId password token : string),
       Shape.validUserId userId = true ->
       password <> EmptyString ->
       generateToken (Auth.payloadFor R (Str.toLowerCase userId))
       = Ok token ->
       statusCode (Auth.login generateToken R (Some userId) (Some password))
       = 200).
Proof.
  intro H.
  assert (N : " " <> EmptyString) by discriminate.
  specialize (H (fun _ => Ok "token") Examples.runtime
                "student1" " " "token" eq_refl N eq_refl).
  vm_compute in H. discriminate H.
Qed.

End AuthFacts.

(* ================================================================== *)
(** * More facts about the attendance utilities *)
(* ================================================================== *)

Module AttendanceUtilsFacts.

Import NumFacts.

Lemma inject_Z_nonneg (z : Z) : 0 <= z -> (0 <= inject_Z z)%Q.
Proof.
  intro H. change (inject_Z 0 <= inject_Z z)%Q. rewrite <- Zle_Qle. exact H.
Qed.

Lemma inject_Z_pos (z : Z) : 0 < z -> (0 < inject_Z z)%Q.
Proof.
  intro H. change (inject_Z 0 < inject_Z z)%Q. rewrite <- Zlt_Qlt. exact H.
Qed.

(** What [calculateClassesNeeded] returns is enough. *)
Lemma needed_enough (a t : Z) (p : Q) :
  0 <= a <= t -> (0 < p)%Q -> (p < 100)%Q ->
  0 <= Utils.calculateClassesNeeded a t p
  /\ (p * inject_Z (t + Utils.calculateClassesNeeded a t p)
      <= 100 * inject_Z (a + Utils.calculateClassesNeeded a t p))%Q.
Proof.
  intros Hat Hp0 Hp100. unfold Utils.calculateClassesNeeded.
  destruct (Z.eqb_spec t 0) as [Ht | Ht].
  - subst t. assert (a = 0) by lia. subst a. split; [lia |].
    change (inject_Z (0 + 0)) with 0%Q. lra.
  - assert (Hpos : 0 < t) by lia.
    destruct (Num.geb _ p) eqn:G.
    + apply geb_true, (UtilsFacts.percentage_meets_iff _ _ Hpos) in G.
      split; [lia |]. rewrite !Z.add_0_r. exact G.
    + split; [apply Z.le_max_l |].
      apply UtilsFacts.enough_iff; [exact Hp100 |].
      eapply Qle_trans; [apply Qle_ceiling |].
      rewrite <- Zle_Qle. apply Z.le_max_r.
Qed.

(** Over exact numbers: when the target is met,
    [calculateClassesCanMiss] returns the greatest number [m >= 0] of
    further classes that can all be missed with
    [targetPercentage * (currentTotal + m) <= 100 * currentAttended]
    still true; when it is not met, it returns 0. *)
Lemma canMiss_greatest_exact
    (currentAttended currentTotal : Z) (targetPercentage : Q) :
  0 < currentTotal -> (0 < targetPercentage)%Q ->
  let m :=
    AttendanceUtils.calculateClassesCanMiss currentAttended currentTotal
      targetPercentage in
  ((targetPercentage * inject_Z currentTotal
    <= 100 * inject_Z currentAttended)%Q ->
   0 <= m
   /\ (targetPercentage * inject_Z (currentTotal + m)
       <= 100 * inject_Z currentAttended)%Q
   /\ (forall k : Z,
         0 <= k ->
         (targetPercentage * inject_Z (currentTotal + k)
          <= 100 * inject_Z currentAttended)%Q ->
         k <= m))
  /\ ((100 * inject_Z currentAttended
       < targetPercentage * inject_Z currentTotal)%Q -> m = 0).
Proof.
  intros Ht Hp. cbv zeta. unfold AttendanceUtils.calculateClassesCanMiss.
  destruct (Z.eqb_spec currentTotal 0) as [E | _]; [lia |].
  assert (Room : forall k : Z,
             (targetPercentage * inject_Z (currentTotal + k)
              <= 100 * inject_Z currentAttended)%Q
             <-> (inject_Z k
                  <= inject_Z currentAttended * 100 / targetPercentage
                     - inject_Z currentTotal)%Q).
  { intro k. rewrite inject_Z_plus.
    assert (S : (inject_Z k
                 <= inject_Z currentAttended * 100 / targetPercentage
                    - inject_Z currentTotal)%Q
                <-> (inject_Z currentTotal + inject_Z k
                     <= inject_Z currentAttended * 100 / targetPercentage)%Q)
      by (split; intro; lra).
    rewrite S, (le_div_iff _ _ Hp). split; intro; lra. }
  split.
  - intro Met.
    assert (G : Num.ltb (inject_Z currentAttended / inject_Z currentTotal * 100)
                  targetPercentage = false).
    { apply ltb_false. apply (UtilsFacts.percentage_meets_iff _ _ Ht). exact Met. }
    rewrite G.
    set (x := (inject_Z currentAttended * 100 / targetPercentage
               - inject_Z currentTotal)%Q).
    assert (X0 : (inject_Z 0 <= x)%Q).
    { apply Room. rewrite Z.add_0_r. exact Met. }
    assert (F0 : 0 <= Qfloor x).
    { rewrite <- (Qfloor_Z 0). apply Qfloor_resp_le, X0. }
    rewrite Z.max_r by exact F0.
    split; [exact F0 |]. split.
    + apply Room. apply Qfloor_le.
    + intros k _ Hk. apply Room in Hk.
      rewrite <- (Qfloor_Z k). apply Qfloor_resp_le, Hk.
  - intro Short.
    assert (G : Num.ltb (inject_Z currentAttended / inject_Z currentTotal * 100)
                  targetPercentage = true).
    { apply ltb_true. apply Qnot_le_lt. intro L.
      apply (UtilsFacts.percentage_meets_iff _ _ Ht) in L.
      apply (Qlt_not_le _ _ Short L). }
    rewrite G. reflexivity.
Qed.


(** Over exact numbers, attending the classes that
    [calculateClassesNeeded] asks for settles the matter: asked again
    with both counts raised by its answer, it answers 0. *)
Lemma needed_after_attending_exact
    (currentAttended currentTotal : Z) (targetPercentage : Q) :
  0 <= currentAttended <= currentTotal ->
  (0 < targetPercentage)%Q -> (targetPercentage < 100)%Q ->
  let n :=
    Utils.calculateClassesNeeded currentAttended currentTotal
      targetPercentage in
  Utils.calculateClassesNeeded (currentAttended + n) (currentTotal + n)
    targetPercentage = 0.
Proof.
  intros Hat Hp0 Hp100. cbv zeta.
  destruct (needed_enough Hat Hp0 Hp100) as [N0 Enough].
  set (n := Utils.calculateClassesNeeded currentAttended currentTotal
              targetPercentage) in *.
  unfold Utils.calculateClassesNeeded at 1.
  destruct (Z.eqb_spec (currentTotal + n) 0) as [E | E]; [reflexivity |].
  assert (Hpos : 0 < currentTotal + n) by lia.
  apply (UtilsFacts.percentage_meets_iff _ _ Hpos), geb_true in Enough.
  rewrite Enough. reflexivity.
Qed.

End AttendanceUtilsFacts.

(* ================================================================== *)
(** * Facts about binary64 arithmetic *)
(* ================================================================== *)

Module DoubleFacts.

Import Double.

Lemma pow2_pos (e : Z) : (0 < pow2 e)%Q.
Proof. apply Qpower_0_lt. reflexivity. Qed.

Lemma pow2_add (a b : Z) : (pow2 (a + b) == pow2 a * pow2 b)%Q.
Proof. apply Qpower_plus. intro H. discriminate H. Qed.

Lemma pow2_le (a b : Z) : a <= b -> (pow2 a <= pow2 b)%Q.
Proof.
  intro H. apply Qpower_le_compat_l; [exact H | discriminate].
Qed.

Lemma pow2_lt (a b : Z) : a < b -> (pow2 a < pow2 b)%Q.
Proof.
  intro H. apply Qpower_lt_compat_l; [exact H | reflexivity].
Qed.

Lemma pow2_Z (n : Z) : 0 <= n -> (pow2 n == inject_Z (2 ^ n))%Q.
Proof.
  intro H. unfold pow2. rewrite (Zpower_Qpower 2 n H). reflexivity.
Qed.

Lemma pow2_succ (a : Z) : (pow2 (a + 1) == 2 * pow2 a)%Q.
Proof. rewrite pow2_add. change (pow2 1) with 2%Q. ring. Qed.

(** Where the leading bit of a positive number is. *)
Lemma ilog2_spec (x : Q) :
  (0 < x)%Q -> (pow2 (ilog2 x) <= x)%Q /\ (x < pow2 (ilog2 x + 1))%Q.
Proof.
  intro Hx. destruct x as [n d].
  assert (Hn : 0 < n).
  { unfold Qlt in Hx. cbn in Hx. lia. }
  unfold ilog2. cbn [Qnum Qden].
  set (Ln := Z.log2 n). set (Ld := Z.log2 (Z.pos d)).
  destruct (Z.log2_spec n Hn) as [N1 N2].
  destruct (Z.log2_spec (Z.pos d) (Pos2Z.is_pos d)) as [D1 D2].
  fold Ln in N1, N2. fold Ld in D1, D2.
  assert (Ln0 : 0 <= Ln) by apply Z.log2_nonneg.
  assert (Ld0 : 0 <= Ld) by apply Z.log2_nonneg.
  assert (QN1 : (pow2 Ln <= inject_Z n)%Q).
  { rewrite (pow2_Z Ln0). rewrite <- Zle_Qle. exact N1. }
  assert (QN2 : (inject_Z n < pow2 (Ln + 1))%Q).
  { rewrite pow2_Z by lia. rewrite <- Zlt_Qlt. exact N2. }
  assert (QD1 : (pow2 Ld <= inject_Z (Z.pos d))%Q).
  { rewrite (pow2_Z Ld0). rewrite <- Zle_Qle. exact D1. }
  assert (QD2 : (inject_Z (Z.pos d) < pow2 (Ld + 1))%Q).
  { rewrite pow2_Z by lia. rewrite <- Zlt_Qlt. exact D2. }
  assert (Dpos : (0 < inject_Z (Z.pos d))%Q) by reflexivity.
  assert (E : (n # d == inject_Z n / inject_Z (Z.pos d))%Q)
    by apply Qmake_Qdiv.
  assert (Up : (n # d < pow2 (Ln - Ld + 1))%Q).
  { rewrite E. apply Qlt_shift_div_r; [exact Dpos |].
    assert (P : (pow2 (Ln + 1) == pow2 (Ln - Ld + 1) * pow2 Ld)%Q).
    { rewrite <- pow2_add. replace (Ln - Ld + 1 + Ld) with (Ln + 1) by lia.
      reflexivity. }
    pose proof (pow2_pos (Ln - Ld + 1)) as P1.
    assert (M : (pow2 (Ln - Ld + 1) * pow2 Ld
                 <= pow2 (Ln - Ld + 1) * inject_Z (Z.pos d))%Q).
    { apply Qmult_le_l; assumption. }
    lra. }
  assert (Lo : (pow2 (Ln - Ld - 1) < n # d)%Q).
  { rewrite E. apply Qlt_shift_div_l; [exact Dpos |].
    assert (P : (pow2 Ln == pow2 (Ln - Ld - 1) * pow2 (Ld + 1))%Q).
    { rewrite <- pow2_add. replace (Ln - Ld - 1 + (Ld + 1)) with Ln by lia.
      reflexivity. }
    pose proof (pow2_pos (Ln - Ld - 1)) as P1.
    assert (M : (pow2 (Ln - Ld - 1) * inject_Z (Z.pos d)
                 < pow2 (Ln - Ld - 1) * pow2 (Ld + 1))%Q).
    { apply Qmult_lt_l; assumption. }
    lra. }
  destruct (Qle_bool (pow2 (Ln - Ld)) (n # d)) eqn:B.
  - apply Qle_bool_iff in B. split; assumption.
  - assert (B' : (n # d < pow2 (Ln - Ld))%Q).
    { apply Qnot_le_lt. intro L. apply Qle_bool_iff in L. congruence. }
    replace (Ln - Ld - 1 + 1) with (Ln - Ld) by lia.
    split; [apply Qlt_le_weak; exact Lo | exact B'].
Qed.

Lemma ilog2_unique (x : Q) (k : Z) :
  (pow2 k <= x)%Q -> (x < pow2 (k + 1))%Q -> ilog2 x = k.
Proof.
  intros L U.
  assert (Hx : (0 < x)%Q).
  { eapply Qlt_le_trans; [apply (pow2_pos k) | exact L]. }
  destruct (ilog2_spec Hx) as [L' U'].
  destruct (Z.lt_trichotomy (ilog2 x) k) as [C | [C | C]]; [| exact C |].
  - exfalso. assert (P : (pow2 (ilog2 x + 1) <= pow2 k)%Q)
      by (apply pow2_le; lia). lra.
  - exfalso. assert (P : (pow2 (k + 1) <= pow2 (ilog2 x))%Q)
      by (apply pow2_le; lia). lra.
Qed.

Lemma ilog2_mono (x y : Q) :
  (0 < x)%Q -> (x <= y)%Q -> ilog2 x <= ilog2 y.
Proof.
  intros Hx L.
  assert (Hy : (0 < y)%Q) by lra.
  destruct (ilog2_spec Hx) as [Lx Ux].
  destruct (ilog2_spec Hy) as [Ly Uy].
  destruct (Z_le_gt_dec (ilog2 x) (ilog2 y)) as [C | C]; [exact C |].
  exfalso. assert (P : (pow2 (ilog2 y + 1) <= pow2 (ilog2 x))%Q)
    by (apply pow2_le; lia). lra.
Qed.

(** Rounding to the nearest integer, ties to even. *)
Lemma floor_unique (s : Q) (k : Z) :
  (inject_Z k <= s)%Q -> (s < inject_Z (k + 1))%Q -> Qfloor s = k.
Proof.
  intros L U.
  pose proof (Qfloor_le s) as F1. pose proof (Qlt_floor s) as F2.
  assert (A : (inject_Z k < inject_Z (Qfloor s + 1))%Q) by lra.
  assert (B : (inject_Z (Qfloor s) < inject_Z (k + 1))%Q) by lra.
  rewrite <- Zlt_Qlt in A, B. lia.
Qed.

Lemma nearestEven_bounds (s : Q) :
  Qfloor s <= nearestEven s <= Qfloor s + 1.
Proof.
  unfold nearestEven. destruct (Qcompare _ _); [destruct (Z.even _) | |];
    lia.
Qed.

Lemma nearestEven_err (s : Q) :
  (s - (1 # 2) <= inject_Z (nearestEven s))%Q
  /\ (inject_Z (nearestEven s) <= s + (1 # 2))%Q.
Proof.
  pose proof (Qfloor_le s) as F1. pose proof (Qlt_floor s) as F2.
  rewrite inject_Z_plus in F2. change (inject_Z 1) with 1%Q in F2.
  unfold nearestEven.
  destruct (Qcompare (s - inject_Z (Qfloor s)) (1 # 2)) eqn:C.
  - apply Qeq_alt in C. destruct (Z.even _).
    + split; lra.
    + rewrite inject_Z_plus. change (inject_Z 1) with 1%Q. split; lra.
  - apply Qlt_alt in C. split; lra.
  - apply Qgt_alt in C. rewrite inject_Z_plus.
    change (inject_Z 1) with 1%Q. split; lra.
Qed.

Lemma nearestEven_Z (n : Z) : nearestEven (inject_Z n) = n.
Proof.
  unfold nearestEven. rewrite Qfloor_Z.
  assert (C : (inject_Z n - inject_Z n ?= 1 # 2)%Q = Lt).
  { apply Qlt_alt. unfold Qminus. rewrite Qplus_opp_r. reflexivity. }
  rewrite C. reflexivity.
Qed.

Lemma nearestEven_comp (s s' : Q) :
  (s == s')%Q -> nearestEven s = nearestEven s'.
Proof.
  intro E. unfold nearestEven. rewrite (Qfloor_comp _ _ E).
  assert (C : (s - inject_Z (Qfloor s') ?= 1 # 2)%Q
              = (s' - inject_Z (Qfloor s') ?= 1 # 2)%Q).
  { apply Qcompare_comp; [rewrite E; reflexivity | reflexivity]. }
  rewrite C. reflexivity.
Qed.

Lemma nearestEven_mono (s s' : Q) :
  (s <= s')%Q -> nearestEven s <= nearestEven s'.
Proof.
  intro L. pose proof (Qfloor_resp_le _ _ L) as F.
  destruct (Z.eq_dec (Qfloor s) (Qfloor s')) as [E | N].
  - unfold nearestEven. rewrite E.
    destruct (Qcompare (s - inject_Z (Qfloor s')) (1 # 2)) eqn:C;
      destruct (Qcompare (s' - inject_Z (Qfloor s')) (1 # 2)) eqn:C';
      try (destruct (Z.even _)); try lia; exfalso;
      repeat match goal with
        | H : Qcompare _ _ = Eq |- _ => apply Qeq_alt in H
        | H : Qcompare _ _ = Lt |- _ => apply Qlt_alt in H
        | H : Qcompare _ _ = Gt |- _ => apply Qgt_alt in H
        end; lra.
  - pose proof (nearestEven_bounds s). pose proof (nearestEven_bounds s').
    lia.
Qed.

(** ** Rounding *)

Lemma eta_pos : (0 < eta)%Q.
Proof. apply pow2_pos. Qed.

Lemma eta_small : (eta <= 1 # 1267650600228229401496703205376)%Q.
Proof. apply Qle_bool_iff. vm_compute. reflexivity. Qed.

Lemma ilog2_comp (x y : Q) : (0 < x)%Q -> (x == y)%Q -> ilog2 x = ilog2 y.
Proof.
  intros Hx E. symmetry.
  destruct (ilog2_spec Hx) as [L U].
  apply ilog2_unique; rewrite <- E; assumption.
Qed.

Lemma exponent_comp (x y : Q) :
  (0 < x)%Q -> (x == y)%Q -> exponent x = exponent y.
Proof.
  intros Hx E. unfold exponent. rewrite (ilog2_comp Hx E). reflexivity.
Qed.

Lemma roundMagnitude_comp (x y : Q) :
  (x == y)%Q -> roundMagnitude x = roundMagnitude y.
Proof.
  intro E. unfold roundMagnitude. rewrite (Qred_complete _ _ E). reflexivity.
Qed.

Lemma roundMagnitude_nonpos (x : Q) : (x <= 0)%Q -> roundMagnitude x = 0%Q.
Proof.
  intro H. unfold roundMagnitude. cbv zeta.
  assert (B : Qle_bool (Qred x) 0 = true).
  { apply Qle_bool_iff. rewrite Qred_correct. exact H. }
  rewrite B. reflexivity.
Qed.

(** What rounding a positive number is. *)
Lemma roundMagnitude_pos (x : Q) :
  (0 < x)%Q ->
  roundMagnitude x
  = Qred (inject_Z (nearestEven (x / pow2 (exponent x))) * pow2 (exponent x)).
Proof.
  intro H. unfold roundMagnitude. cbv zeta.
  assert (B : Qle_bool (Qred x) 0 = false).
  { destruct (Qle_bool (Qred x) 0) eqn:B; [| reflexivity].
    apply Qle_bool_iff in B. rewrite Qred_correct in B. lra. }
  rewrite B.
  assert (Hr : (0 < Qred x)%Q) by (rewrite Qred_correct; exact H).
  rewrite (exponent_comp Hr (Qred_correct x)).
  apply Qred_complete.
  assert (N : nearestEven (Qred x / pow2 (exponent x))
              = nearestEven (x / pow2 (exponent x))).
  { apply nearestEven_comp. rewrite Qred_correct. reflexivity. }
  rewrite N. reflexivity.
Qed.

Lemma roundMagnitude_nonneg (x : Q) : (0 <= roundMagnitude x)%Q.
Proof.
  destruct (Qlt_le_dec 0 x) as [H | H].
  - rewrite (roundMagnitude_pos H), Qred_correct.
    apply Qmult_le_0_compat; [| apply Qlt_le_weak, pow2_pos].
    change 0%Q with (inject_Z 0). rewrite <- Zle_Qle.
    pose proof (nearestEven_bounds (x / pow2 (exponent x))) as [B _].
    assert (F : 0 <= Qfloor (x / pow2 (exponent x))).
    { rewrite <- (Qfloor_Z 0). apply Qfloor_resp_le.
      change (inject_Z 0) with 0%Q.
      apply Qle_shift_div_l; [apply pow2_pos | lra]. }
    lia.
  - rewrite (roundMagnitude_nonpos H). apply Qle_refl.
Qed.

Lemma scaled (x : Q) (e : Z) : (x == x / pow2 e * pow2 e)%Q.
Proof.
  field. intro Z. pose proof (pow2_pos e) as P. rewrite Z in P.
  apply (Qlt_irrefl _ P).
Qed.

(** Half a unit in the last place is at most [eps * x + eta]. *)
Lemma half_ulp (x : Q) :
  (0 < x)%Q -> (pow2 (exponent x) * (1 # 2) <= eps * x + eta)%Q.
Proof.
  intro H. destruct (ilog2_spec H) as [L _]. unfold exponent.
  pose proof eta_pos as E.
  destruct (Z.max_spec (ilog2 x - 52) (-1074)) as [[C ->] | [C ->]].
  - assert (P : (pow2 (-1074) == 2 * eta)%Q).
    { unfold eta. rewrite <- pow2_succ. reflexivity. }
    assert (0 <= eps * x)%Q.
    { apply Qmult_le_0_compat; [discriminate | lra]. }
    rewrite P. lra.
  - assert (P : (pow2 (ilog2 x - 52) == pow2 (ilog2 x) * (1 # 4503599627370496))%Q).
    { unfold Z.sub. rewrite pow2_add. reflexivity. }
    rewrite P. unfold eps.
    assert (M : (pow2 (ilog2 x) * (1 # 4503599627370496) * (1 # 2)
                 == (1 # 9007199254740992) * pow2 (ilog2 x))%Q) by ring.
    rewrite M.
    assert (M2 : ((1 # 9007199254740992) * pow2 (ilog2 x)
                  <= (1 # 9007199254740992) * x)%Q).
    { apply Qmult_le_l; [reflexivity | exact L]. }
    lra.
Qed.

(** The standard model of rounding: a relative error of at most
    [eps], or an absolute one of at most [eta]. *)
Lemma roundMagnitude_err (x : Q) :
  (0 <= x)%Q ->
  (x - (eps * x + eta) <= roundMagnitude x)%Q
  /\ (roundMagnitude x <= x + (eps * x + eta))%Q.
Proof.
  intro H0. pose proof eta_pos as E.
  destruct (Qlt_le_dec 0 x) as [H | H].
  - rewrite (roundMagnitude_pos H), Qred_correct.
    set (e := exponent x).
    pose proof (half_ulp H) as U. fold e in U.
    destruct (nearestEven_err (x / pow2 e)) as [A B].
    pose proof (pow2_pos e) as P.
    pose proof (scaled x e) as S.
    set (s := (x / pow2 e)%Q) in *.
    set (m := inject_Z (nearestEven s)) in *.
    assert (A' : ((s - (1 # 2)) * pow2 e <= m * pow2 e)%Q).
    { apply Qmult_le_compat_r; [exact A | lra]. }
    assert (B' : (m * pow2 e <= (s + (1 # 2)) * pow2 e)%Q).
    { apply Qmult_le_compat_r; [exact B | lra]. }
    assert (A2 : ((s - (1 # 2)) * pow2 e == x - pow2 e * (1 # 2))%Q).
    { rewrite S. ring. }
    assert (B2 : ((s + (1 # 2)) * pow2 e == x + pow2 e * (1 # 2))%Q).
    { rewrite S. ring. }
    rewrite A2 in A'. rewrite B2 in B'. split; lra.
  - assert (Z : (x == 0)%Q) by lra.
    rewrite (roundMagnitude_nonpos H).
    assert (0 <= eps * x)%Q by (rewrite Z; discriminate).
    split; lra.
Qed.

Lemma Qred_inject_Z (n : Z) : Qred (inject_Z n) = inject_Z n.
Proof. apply Qcanon.Qred_identity. cbn. apply Z.gcd_1_r. Qed.

(** Whole numbers up to [2^53] are binary64 values. *)
Lemma roundMagnitude_Z (n : Z) :
  0 <= n <= 9007199254740992 ->
  roundMagnitude (inject_Z n) = inject_Z n.
Proof.
  intros [H0 H1].
  destruct (Z.eq_dec n 0) as [-> | N0]; [reflexivity |].
  destruct (Z.eq_dec n 9007199254740992) as [-> | N1];
    [vm_compute; reflexivity |].
  assert (Hx : (0 < inject_Z n)%Q).
  { change 0%Q with (inject_Z 0). rewrite <- Zlt_Qlt. lia. }
  rewrite (roundMagnitude_pos Hx).
  transitivity (Qred (inject_Z n)); [apply Qred_complete | apply Qred_inject_Z].
  destruct (ilog2_spec Hx) as [L U].
  set (k := ilog2 (inject_Z n)) in *.
  assert (K0 : 0 <= k).
  { destruct (Z_le_gt_dec 0 k) as [C | C]; [exact C | exfalso].
    assert (P : (pow2 (k + 1) <= pow2 0)%Q) by (apply pow2_le; lia).
    change (pow2 0) with 1%Q in P.
    assert (Q1 : (1 <= inject_Z n)%Q).
    { change 1%Q with (inject_Z 1). rewrite <- Zle_Qle. lia. }
    lra. }
  assert (K1 : k <= 52).
  { destruct (Z_le_gt_dec k 52) as [C | C]; [exact C | exfalso].
    assert (P : (pow2 53 <= pow2 k)%Q) by (apply pow2_le; lia).
    rewrite (@pow2_Z 53) in P by lia.
    assert (Q1 : (inject_Z (2 ^ 53) <= inject_Z n)%Q) by lra.
    rewrite <- Zle_Qle in Q1. change (2 ^ 53) with 9007199254740992 in Q1.
    lia. }
  assert (Ee : exponent (inject_Z n) = k - 52).
  { unfold exponent. fold k. lia. }
  rewrite Ee.
  assert (Inv : (/ pow2 (k - 52) == pow2 (52 - k))%Q).
  { replace (52 - k) with (- (k - 52)) by lia. unfold pow2.
    rewrite Qpower_opp. reflexivity. }
  assert (S : (inject_Z n / pow2 (k - 52)
               == inject_Z (n * 2 ^ (52 - k)))%Q).
  { rewrite inject_Z_mult, <- (@pow2_Z (52 - k)) by lia.
    unfold Qdiv. rewrite Inv. reflexivity. }
  rewrite (nearestEven_comp S), nearestEven_Z.
  rewrite inject_Z_mult, <- (@pow2_Z (52 - k)) by lia.
  rewrite <- Inv. field.
  intro Z. pose proof (pow2_pos (k - 52)) as P. rewrite Z in P.
  apply (Qlt_irrefl _ P).
Qed.

(** Rounding never changes the order of two numbers. *)
Lemma roundMagnitude_mono (x y : Q) :
  (x <= y)%Q -> (roundMagnitude x <= roundMagnitude y)%Q.
Proof.
  intro L.
  destruct (Qlt_le_dec 0 x) as [Hx | Hx];
    [| rewrite (roundMagnitude_nonpos Hx); apply roundMagnitude_nonneg].
  assert (Hy : (0 < y)%Q) by lra.
  rewrite (roundMagnitude_pos Hx), (roundMagnitude_pos Hy), !Qred_correct.
  pose proof (ilog2_mono Hx L) as Lk.
  destruct (ilog2_spec Hx) as [Lx Ux]. destruct (ilog2_spec Hy) as [Ly Uy].
  set (ex := exponent x). set (ey := exponent y).
  pose proof (pow2_pos ex) as Px. pose proof (pow2_pos ey) as Py.
  assert (Le : ex <= ey) by (unfold ex, ey, exponent; lia).
  destruct (Z.eq_dec ex ey) as [E | N].
  - rewrite E. apply Qmult_le_compat_r; [| lra].
    rewrite <- Zle_Qle. apply nearestEven_mono.
    apply Qmult_le_compat_r; [exact L |].
    apply Qlt_le_weak, Qinv_lt_0_compat, Py.
  - assert (Lt : ex + 1 <= ey) by lia.
    assert (Ey : ey = ilog2 y - 52) by (unfold ex, ey, exponent in *; lia).
    assert (Ex : ilog2 x - 52 <= ex) by (unfold ex, exponent; lia).
    (* the rounded x is at most 2^(ex+53) *)
    assert (Sx : (x / pow2 ex < inject_Z (2 ^ 53))%Q).
    { apply Qlt_shift_div_r; [exact Px |].
      rewrite <- (@pow2_Z 53), <- pow2_add by lia.
      assert (P : (pow2 (ilog2 x + 1) <= pow2 (53 + ex))%Q)
        by (apply pow2_le; lia).
      lra. }
    assert (Mx : nearestEven (x / pow2 ex) <= 2 ^ 53).
    { pose proof (nearestEven_bounds (x / pow2 ex)) as [_ B].
      pose proof (Qfloor_le (x / pow2 ex)) as F.
      assert (F' : (inject_Z (Qfloor (x / pow2 ex)) < inject_Z (2 ^ 53))%Q)
        by lra.
      rewrite <- Zlt_Qlt in F'. lia. }
    assert (Sy : (inject_Z (2 ^ 52) <= y / pow2 ey)%Q).
    { apply Qle_shift_div_l; [exact Py |].
      rewrite <- (@pow2_Z 52), <- pow2_add by lia.
      replace (52 + ey) with (ilog2 y) by lia. exact Ly. }
    assert (My : 2 ^ 52 <= nearestEven (y / pow2 ey)).
    { pose proof (nearestEven_bounds (y / pow2 ey)) as [B _].
      pose proof (Qfloor_resp_le _ _ Sy) as F. rewrite Qfloor_Z in F. lia. }
    rewrite Zle_Qle in Mx, My.
    assert (A : (inject_Z (nearestEven (x / pow2 ex)) * pow2 ex
                 <= inject_Z (2 ^ 53) * pow2 ex)%Q)
      by (apply Qmult_le_compat_r; [exact Mx | lra]).
    assert (B : (inject_Z (2 ^ 52) * pow2 ey
                 <= inject_Z (nearestEven (y / pow2 ey)) * pow2 ey)%Q)
      by (apply Qmult_le_compat_r; [exact My | lra]).
    assert (C : (inject_Z (2 ^ 53) * pow2 ex <= inject_Z (2 ^ 52) * pow2 ey)%Q).
    { rewrite <- (@pow2_Z 53), <- (@pow2_Z 52), <- !pow2_add by lia.
      apply pow2_le. lia. }
    lra.
Qed.

(** ** The operations on numbers of moderate size *)

Lemma Qeq_bool_false (q : Q) : ~ (q == 0)%Q -> Qeq_bool q 0 = false.
Proof.
  intro H. destruct (Qeq_bool q 0) eqn:E; [| reflexivity].
  apply Qeq_bool_iff in E. contradiction.
Qed.

Lemma Qle_bool_false (a b : Q) : (b < a)%Q -> Qle_bool a b = false.
Proof.
  intro H. destruct (Qle_bool a b) eqn:E; [| reflexivity].
  apply Qle_bool_iff in E. lra.
Qed.

Lemma Qle_bool_true (a b : Q) : (a <= b)%Q -> Qle_bool a b = true.
Proof. apply Qle_bool_iff. Qed.

Lemma below_overflow : (inject_Z (2 ^ 70) < pow2 1024)%Q.
Proof. apply Qlt_alt. vm_compute. reflexivity. Qed.

(** No overflow on numbers of moderate size. *)
Lemma make_bounded (s : bool) (q : Q) :
  (Qabs q <= inject_Z (2 ^ 64))%Q ->
  make s q
  = if Qeq_bool q 0 then Finite s 0
    else Finite (negb (Qle_bool 0 q)) (roundMagnitude (Qabs q)).
Proof.
  intro B. unfold make. destruct (Qeq_bool q 0); [reflexivity |].
  cbv zeta.
  destruct (roundMagnitude_err (Qabs_nonneg q)) as [_ U].
  pose proof eta_small as E. pose proof below_overflow as O.
  pose proof (Qabs_nonneg q) as A0.
  assert (M : (eps * Qabs q <= Qabs q)%Q).
  { unfold eps. rewrite <- (Qmult_1_l (Qabs q)) at 2.
    apply Qmult_le_compat_r; [discriminate | exact A0]. }
  assert (C : (inject_Z (2 ^ 64) * 2 + 1 <= inject_Z (2 ^ 70))%Q)
    by discriminate.
  rewrite Qle_bool_false; [reflexivity |].
  assert (E' : ((1 # 1267650600228229401496703205376) <= 1)%Q) by discriminate.
  lra.
Qed.

Lemma make_nonneg (q : Q) :
  (0 <= q)%Q -> (q <= inject_Z (2 ^ 64))%Q ->
  make false q = Finite false (roundMagnitude q).
Proof.
  intros L U. rewrite make_bounded by (rewrite Qabs_pos; assumption).
  destruct (Qeq_bool q 0) eqn:E.
  - apply Qeq_bool_iff in E. rewrite roundMagnitude_nonpos by lra.
    reflexivity.
  - rewrite (Qle_bool_true L). cbn [negb].
    rewrite (roundMagnitude_comp (Qabs_pos q L)). reflexivity.
Qed.

Lemma make_Z (s : bool) (q : Q) (n : Z) :
  (q == inject_Z n)%Q -> Z.abs n <= 9007199254740992 ->
  make s q
  = Finite (if n =? 0 then s else n <? 0) (inject_Z (Z.abs n)).
Proof.
  intros E B.
  assert (A : (Qabs q == inject_Z (Z.abs n))%Q).
  { rewrite E. unfold Qabs, inject_Z. reflexivity. }
  rewrite make_bounded.
  2:{ rewrite A, <- Zle_Qle. change (2 ^ 64) with 18446744073709551616. lia. }
  destruct (Z.eqb_spec n 0) as [-> | N].
  - rewrite E. reflexivity.
  - rewrite Qeq_bool_false.
    2:{ rewrite E. intro Z. apply N. unfold Qeq in Z. cbn in Z. lia. }
    rewrite (roundMagnitude_comp A), roundMagnitude_Z by lia.
    f_equal. destruct (Z.ltb_spec n 0) as [C | C].
    + rewrite Qle_bool_false; [reflexivity |].
      rewrite E. change 0%Q with (inject_Z 0). rewrite <- Zlt_Qlt. exact C.
    + rewrite Qle_bool_true; [reflexivity |].
      rewrite E. change 0%Q with (inject_Z 0). rewrite <- Zle_Qle. exact C.
Qed.

Lemma ofZ_exact (n : Z) :
  0 <= n <= 9007199254740992 -> ofZ n = Finite false (inject_Z n).
Proof.
  intro B. unfold ofZ, ofQ.
  rewrite (@make_Z false (inject_Z n) n) by (try reflexivity; lia).
  destruct (Z.eqb_spec n 0) as [-> | N]; [reflexivity |].
  rewrite Z.abs_eq by lia.
  destruct (Z.ltb_spec n 0); [lia | reflexivity].
Qed.

Lemma val_pos (m : Q) : val false m = m.
Proof. reflexivity. Qed.

Lemma div_nonneg (x y : Q) :
  (0 <= x)%Q -> (0 < y)%Q -> (x / y <= inject_Z (2 ^ 64))%Q ->
  div (Finite false x) (Finite false y)
  = Finite false (roundMagnitude (x / y)).
Proof.
  intros Hx Hy B. unfold div.
  rewrite Qeq_bool_false by (intro Z; rewrite Z in Hy; exact (Qlt_irrefl _ Hy)).
  cbn [xorb val]. apply make_nonneg; [| exact B].
  apply Qle_shift_div_l; [exact Hy | lra].
Qed.

Lemma mul_nonneg (x y : Q) :
  (0 <= x)%Q -> (0 <= y)%Q -> (x * y <= inject_Z (2 ^ 64))%Q ->
  mul (Finite false x) (Finite false y)
  = Finite false (roundMagnitude (x * y)).
Proof.
  intros Hx Hy B. unfold mul. cbn [xorb val]. apply make_nonneg; [| exact B].
  apply Qmult_le_0_compat; assumption.
Qed.

Lemma mul_Z (m n : Z) :
  0 <= m -> 0 <= n -> m * n <= 9007199254740992 ->
  mul (Finite false (inject_Z m)) (Finite false (inject_Z n))
  = Finite false (inject_Z (m * n)).
Proof.
  intros Hm Hn B. unfold mul. cbn [xorb val].
  rewrite (@make_Z false _ (m * n)).
  - assert (0 <= m * n) by (apply Z.mul_nonneg_nonneg; assumption).
    rewrite Z.abs_eq by lia.
    destruct (Z.eqb_spec (m * n) 0) as [E | N]; [reflexivity |].
    destruct (Z.ltb_spec (m * n) 0); [lia | reflexivity].
  - rewrite inject_Z_mult. reflexivity.
  - assert (0 <= m * n) by (apply Z.mul_nonneg_nonneg; assumption). lia.
Qed.

Lemma sub_Z (m n : Z) :
  0 <= m <= 9007199254740992 -> 0 <= n <= 9007199254740992 ->
  sub (Finite false (inject_Z m)) (Finite false (inject_Z n))
  = Finite (m - n <? 0) (inject_Z (Z.abs (m - n))).
Proof.
  intros Hm Hn. unfold sub, neg, add. cbn [negb andb val].
  rewrite (@make_Z false _ (m - n)).
  - destruct (Z.eqb_spec (m - n) 0) as [E | N]; [| reflexivity].
    rewrite E. reflexivity.
  - unfold Z.sub. rewrite inject_Z_plus, inject_Z_opp. reflexivity.
  - lia.
Qed.

Lemma add_Z (m n : Z) :
  0 <= m -> 0 <= n -> m + n <= 9007199254740992 ->
  add (Finite false (inject_Z m)) (Finite false (inject_Z n))
  = Finite false (inject_Z (m + n)).
Proof.
  intros Hm Hn B. unfold add. cbn [andb val].
  rewrite (@make_Z false _ (m + n)).
  - rewrite Z.abs_eq by lia.
    destruct (Z.eqb_spec (m + n) 0) as [E | N]; [reflexivity |].
    destruct (Z.ltb_spec (m + n) 0); [lia | reflexivity].
  - rewrite inject_Z_plus. reflexivity.
  - lia.
Qed.

(** Comparisons of finite numbers are comparisons of their values. *)
Lemma geb_finite (s s' : bool) (m m' : Q) :
  geb (Finite s m) (Finite s' m') = Qle_bool (val s' m') (val s m).
Proof.
  unfold geb, compare.
  destruct (Qcompare (val s m) (val s' m')) eqn:C.
  - apply Qeq_alt in C. symmetry. apply Qle_bool_true. lra.
  - apply Qlt_alt in C. symmetry. apply Qle_bool_false. exact C.
  - apply Qgt_alt in C. symmetry. apply Qle_bool_true. lra.
Qed.

Lemma ltb_finite (s s' : bool) (m m' : Q) :
  ltb (Finite s m) (Finite s' m') = negb (Qle_bool (val s' m') (val s m)).
Proof.
  unfold ltb, compare.
  destruct (Qcompare (val s m) (val s' m')) eqn:C.
  - apply Qeq_alt in C. rewrite Qle_bool_true by lra. reflexivity.
  - apply Qlt_alt in C. rewrite Qle_bool_false by exact C. reflexivity.
  - apply Qgt_alt in C. rewrite Qle_bool_true by lra. reflexivity.
Qed.

Lemma leb_finite (s s' : bool) (m m' : Q) :
  leb (Finite s m) (Finite s' m') = Qle_bool (val s m) (val s' m').
Proof.
  unfold leb, compare.
  destruct (Qcompare (val s m) (val s' m')) eqn:C.
  - apply Qeq_alt in C. symmetry. apply Qle_bool_true. lra.
  - apply Qlt_alt in C. symmetry. apply Qle_bool_true. lra.
  - apply Qgt_alt in C. symmetry. apply Qle_bool_false. exact C.
Qed.

Lemma gtb_finite (s s' : bool) (m m' : Q) :
  gtb (Finite s m) (Finite s' m') = negb (Qle_bool (val s m) (val s' m')).
Proof.
  unfold gtb, compare.
  destruct (Qcompare (val s m) (val s' m')) eqn:C.
  - apply Qeq_alt in C. rewrite Qle_bool_true by lra. reflexivity.
  - apply Qlt_alt in C. rewrite Qle_bool_true by lra. reflexivity.
  - apply Qgt_alt in C. rewrite Qle_bool_false by exact C. reflexivity.
Qed.

Lemma eqb_finite (s s' : bool) (m m' : Q) :
  eqb (Finite s m) (Finite s' m') = Qeq_bool (val s m) (val s' m').
Proof.
  unfold eqb, compare.
  destruct (Qcompare (val s m) (val s' m')) eqn:C.
  - apply Qeq_alt in C. symmetry. apply Qeq_bool_iff. exact C.
  - apply Qlt_alt in C. symmetry.
    destruct (Qeq_bool _ _) eqn:E; [| reflexivity].
    apply Qeq_bool_iff in E. lra.
  - apply Qgt_alt in C. symmetry.
    destruct (Qeq_bool _ _) eqn:E; [| reflexivity].
    apply Qeq_bool_iff in E. lra.
Qed.

(** [Math.max(0, x)] on a whole number. *)
Lemma max_zero_Z (k : Z) :
  0 <= k ->
  max (Finite false 0) (Finite false (inject_Z k))
  = Finite false (inject_Z k).
Proof.
  intros Hk. unfold max, compare. cbn [val].
  destruct (Qcompare 0 (inject_Z k)) eqn:C.
  - apply Qeq_alt in C. cbn [isNegative].
    assert (k = 0) by (unfold Qeq in C; cbn in C; lia).
    subst k. reflexivity.
  - reflexivity.
  - apply Qgt_alt in C. change 0%Q with (inject_Z 0) in C.
    rewrite <- Zlt_Qlt in C. lia.
Qed.

Lemma max_zero_nonpos (s : bool) (m : Q) :
  (val s m <= 0)%Q ->
  max (Finite false 0) (Finite s m) = Finite false 0.
Proof.
  intro H. unfold max, compare. cbn [val] in *.
  change (val false 0) with 0%Q.
  destruct (Qcompare 0 (val s m)) eqn:C.
  - reflexivity.
  - apply Qlt_alt in C. lra.
  - reflexivity.
Qed.

End DoubleFacts.

(* ================================================================== *)
(** * Rounded quotients of whole numbers *)
(* ================================================================== *)

Module QuotientFacts.

Import Double DoubleFacts AttendanceUtilsFacts.

Lemma ceiling_unique (s : Q) (k : Z) :
  (inject_Z k < s)%Q -> (s <= inject_Z (k + 1))%Q -> Qceiling s = k + 1.
Proof.
  intros L U. unfold Qceiling.
  rewrite (@floor_unique (- s) (- (k + 1))).
  - lia.
  - rewrite inject_Z_opp. lra.
  - replace (- (k + 1) + 1) with (- k) by lia. rewrite inject_Z_opp. lra.
Qed.

Lemma inject_Z_sub (a b : Z) :
  (inject_Z (a - b) == inject_Z a - inject_Z b)%Q.
Proof.
  unfold Z.sub, Qminus. rewrite inject_Z_plus, inject_Z_opp. reflexivity.
Qed.

(** A quotient of whole numbers that is not whole keeps a distance of
    [1/y] from the whole numbers around it: whatever is nearer than that
    to the quotient has the same floor and the same ceiling. *)
Lemma fractional_gap (N y : Z) (r : Q) :
  0 < y -> N mod y <> 0 ->
  (inject_Z N / inject_Z y - 1 / inject_Z y < r)%Q ->
  (r < inject_Z N / inject_Z y + 1 / inject_Z y)%Q ->
  Qfloor r = N / y /\ Qceiling r = N / y + 1.
Proof.
  intros Hy Hm L U.
  pose proof (Z.div_mod N y ltac:(lia)) as E.
  pose proof (Z.mod_pos_bound N y Hy) as B.
  set (k := N / y) in *. set (j := N mod y) in *.
  pose proof (inject_Z_pos Hy) as Y.
  set (w := (1 / inject_Z y)%Q) in *.
  assert (W : (inject_Z y * w == 1)%Q).
  { unfold w. field. intro Z. rewrite Z in Y. exact (Qlt_irrefl _ Y). }
  assert (W0 : (0 < w)%Q).
  { unfold w. apply Qlt_shift_div_l; [exact Y | lra]. }
  assert (Q1 : (inject_Z N / inject_Z y == inject_Z k + inject_Z j * w)%Q).
  { rewrite E, inject_Z_plus, inject_Z_mult. unfold w. field.
    intro Z. rewrite Z in Y. exact (Qlt_irrefl _ Y). }
  assert (J1 : (w <= inject_Z j * w)%Q).
  { rewrite <- (Qmult_1_l w) at 1. apply Qmult_le_compat_r; [| lra].
    change 1%Q with (inject_Z 1). rewrite <- Zle_Qle. lia. }
  assert (J2 : (inject_Z j * w <= 1 - w)%Q).
  { assert (J : (inject_Z j <= inject_Z y - 1)%Q).
    { change 1%Q with (inject_Z 1). rewrite <- inject_Z_sub, <- Zle_Qle.
      lia. }
    assert (M : (inject_Z j * w <= (inject_Z y - 1) * w)%Q)
      by (apply Qmult_le_compat_r; [exact J | lra]).
    assert (M2 : ((inject_Z y - 1) * w == inject_Z y * w - w)%Q) by ring.
    lra. }
  split.
  - apply floor_unique; [lra |].
    rewrite inject_Z_plus. change (inject_Z 1) with 1%Q. lra.
  - apply ceiling_unique; [lra |].
    rewrite inject_Z_plus. change (inject_Z 1) with 1%Q. lra.
Qed.

Lemma div_exact (N y : Z) :
  0 < y -> N mod y = 0 -> (inject_Z N / inject_Z y == inject_Z (N / y))%Q.
Proof.
  intros Hy Hm.
  pose proof (Z.div_mod N y ltac:(lia)) as E. rewrite Hm, Z.add_0_r in E.
  pose proof (inject_Z_pos Hy) as Y.
  rewrite E at 1. rewrite inject_Z_mult. field.
  intro Z. rewrite Z in Y. exact (Qlt_irrefl _ Y).
Qed.

Lemma eps_le (q : Q) (b : Z) (w : Q) :
  (0 <= q)%Q -> (q <= inject_Z b * w)%Q -> 0 <= b <= 2 ^ 52 -> (0 <= w)%Q ->
  (eps * q <= (1 # 2) * w)%Q.
Proof.
  intros Hq Hb B Hw.
  assert (M : (inject_Z b * w <= inject_Z (2 ^ 52) * w)%Q).
  { apply Qmult_le_compat_r; [| exact Hw]. rewrite <- Zle_Qle. lia. }
  change (inject_Z (2 ^ 52)) with 4503599627370496%Q in M.
  unfold eps. lra.
Qed.

(** Dividing one whole number by another and rounding the quotient to
    binary64 does not change its ceiling, up to [2^52]. *)
Lemma ceiling_of_rounded_quotient (N y : Z) :
  0 <= N <= 2 ^ 52 -> 0 < y <= 2 ^ 52 ->
  Qceiling (roundMagnitude (inject_Z N / inject_Z y))
  = Qceiling (inject_Z N / inject_Z y).
Proof.
  intros HN Hy.
  pose proof (inject_Z_pos (proj1 Hy)) as Y.
  destruct (Z.eq_dec (N mod y) 0) as [D | D].
  - pose proof (@div_exact N y (proj1 Hy) D) as E.
    rewrite (roundMagnitude_comp E), roundMagnitude_Z;
      [apply Qceiling_comp; symmetry; exact E |].
    split; [apply Z.div_pos; lia |].
    assert (N / y <= N) by (apply Z.div_le_upper_bound; nia).
    change (2 ^ 52) with 4503599627370496 in HN. lia.
  - set (q := (inject_Z N / inject_Z y)%Q).
    set (w := (1 / inject_Z y)%Q).
    assert (W0 : (0 < w)%Q).
    { unfold w. apply Qlt_shift_div_l; [exact Y | lra]. }
    assert (Q0 : (0 <= q)%Q).
    { unfold q. apply Qle_shift_div_l; [exact Y |].
      pose proof (inject_Z_nonneg (proj1 HN)). lra. }
    assert (QW : (q == inject_Z N * w)%Q).
    { unfold q, w. field. intro Z. rewrite Z in Y. exact (Qlt_irrefl _ Y). }
    assert (Wl : ((1 # 4503599627370496) <= w)%Q).
    { unfold w. apply Qle_shift_div_l; [exact Y |].
      assert (L : (inject_Z y <= inject_Z (2 ^ 52))%Q)
        by (rewrite <- Zle_Qle; lia).
      change (inject_Z (2 ^ 52)) with 4503599627370496%Q in L. lra. }
    destruct (roundMagnitude_err Q0) as [L U].
    pose proof (@eps_le q N w Q0 ltac:(rewrite QW; apply Qle_refl)
                  ltac:(lia) ltac:(lra)) as Ee.
    pose proof eta_small as Es.
    destruct (@fractional_gap N y (roundMagnitude q) (proj1 Hy) D) as [_ C].
    + fold q w. lra.
    + fold q w. lra.
    + destruct (@fractional_gap N y q (proj1 Hy) D) as [_ C'].
      * fold q w. lra.
      * fold q w. lra.
      * fold q in C'. rewrite C, C'. reflexivity.
Qed.

(** [(a / t) * 100] in binary64 is on the same side of a whole target
    as the exact percentage, unless that is the target itself. *)
Lemma percentage_below (a t p : Z) :
  0 <= a -> 0 < t <= 10 ^ 13 -> 0 <= p <= 100 -> 100 * a < p * t ->
  (roundMagnitude (roundMagnitude (inject_Z a / inject_Z t) * 100)
   < inject_Z p)%Q.
Proof.
  intros Ha Ht Hp H.
  pose proof (inject_Z_pos (proj1 Ht)) as T.
  set (u := (inject_Z a / inject_Z t)%Q).
  set (w := (1 / inject_Z t)%Q).
  assert (U0 : (0 <= u)%Q).
  { unfold u. apply Qle_shift_div_l; [exact T |].
    pose proof (inject_Z_nonneg Ha). lra. }
  assert (Wl : ((1 # 10000000000000) <= w)%Q).
  { unfold w. apply Qle_shift_div_l; [exact T |].
    assert (L : (inject_Z t <= inject_Z (10 ^ 13))%Q)
      by (rewrite <- Zle_Qle; lia).
    change (inject_Z (10 ^ 13)) with 10000000000000%Q in L. lra. }
  assert (UP : (100 * u <= inject_Z p - w)%Q).
  { assert (Z1 : (100 * inject_Z a <= inject_Z p * inject_Z t - 1)%Q).
    { change 100%Q with (inject_Z 100). change 1%Q with (inject_Z 1).
      rewrite <- !inject_Z_mult, <- inject_Z_sub, <- Zle_Qle. lia. }
    assert (E1 : (100 * u == (100 * inject_Z a) / inject_Z t)%Q).
    { unfold u. field. intro Z. rewrite Z in T. exact (Qlt_irrefl _ T). }
    assert (E2 : (inject_Z p - w
                  == (inject_Z p * inject_Z t - 1) / inject_Z t)%Q).
    { unfold w. field. intro Z. rewrite Z in T. exact (Qlt_irrefl _ T). }
    rewrite E1, E2. apply Qmult_le_compat_r; [exact Z1 |].
    apply Qlt_le_weak, Qinv_lt_0_compat, T. }
  assert (P100 : (inject_Z p <= 100)%Q).
  { change 100%Q with (inject_Z 100). rewrite <- Zle_Qle. lia. }
  destruct (roundMagnitude_err U0) as [_ R1].
  pose proof (roundMagnitude_nonneg u) as N1.
  set (r1 := roundMagnitude u) in *.
  assert (V0 : (0 <= r1 * 100)%Q) by lra.
  destruct (roundMagnitude_err V0) as [_ R2].
  pose proof eta_small as Es. pose proof eta_pos as Ep.
  unfold eps in *. lra.
Qed.

Lemma percentage_above (a t p : Z) :
  0 <= a -> 0 < t <= 10 ^ 13 -> 0 <= p <= 100 -> p * t < 100 * a ->
  (inject_Z p
   < roundMagnitude (roundMagnitude (inject_Z a / inject_Z t) * 100))%Q.
Proof.
  intros Ha Ht Hp H.
  pose proof (inject_Z_pos (proj1 Ht)) as T.
  set (u := (inject_Z a / inject_Z t)%Q).
  set (w := (1 / inject_Z t)%Q).
  assert (U0 : (0 <= u)%Q).
  { unfold u. apply Qle_shift_div_l; [exact T |].
    pose proof (inject_Z_nonneg Ha). lra. }
  assert (Wl : ((1 # 10000000000000) <= w)%Q).
  { unfold w. apply Qle_shift_div_l; [exact T |].
    assert (L : (inject_Z t <= inject_Z (10 ^ 13))%Q)
      by (rewrite <- Zle_Qle; lia).
    change (inject_Z (10 ^ 13)) with 10000000000000%Q in L. lra. }
  assert (UP : (inject_Z p + w <= 100 * u)%Q).
  { assert (Z1 : (inject_Z p * inject_Z t + 1 <= 100 * inject_Z a)%Q).
    { change 100%Q with (inject_Z 100). change 1%Q with (inject_Z 1).
      rewrite <- !inject_Z_mult, <- inject_Z_plus, <- Zle_Qle. lia. }
    assert (E1 : (100 * u == (100 * inject_Z a) / inject_Z t)%Q).
    { unfold u. field. intro Z. rewrite Z in T. exact (Qlt_irrefl _ T). }
    assert (E2 : (inject_Z p + w
                  == (inject_Z p * inject_Z t + 1) / inject_Z t)%Q).
    { unfold w. field. intro Z. rewrite Z in T. exact (Qlt_irrefl _ T). }
    rewrite E1, E2. apply Qmult_le_compat_r; [exact Z1 |].
    apply Qlt_le_weak, Qinv_lt_0_compat, T. }
  assert (P0 : (0 <= inject_Z p)%Q) by (apply inject_Z_nonneg; lia).
  assert (P100 : (inject_Z p <= 100)%Q).
  { change 100%Q with (inject_Z 100). rewrite <- Zle_Qle. lia. }
  destruct (roundMagnitude_err U0) as [R1 _].
  pose proof (roundMagnitude_nonneg u) as N1.
  set (r1 := roundMagnitude u) in *.
  assert (V0 : (0 <= r1 * 100)%Q) by lra.
  destruct (roundMagnitude_err V0) as [R2 _].
  pose proof eta_small as Es. pose proof eta_pos as Ep.
  unfold eps in *. lra.
Qed.

End QuotientFacts.

(* ================================================================== *)
(** * The attendance utilities in binary64 and over exact numbers *)
(* ================================================================== *)

Module UtilsDoubleFacts.

Import Double DoubleFacts AttendanceUtilsFacts QuotientFacts.

Lemma quotient_small (N y : Z) :
  0 <= N -> 0 < y ->
  (0 <= inject_Z N / inject_Z y)%Q
  /\ (inject_Z N / inject_Z y <= inject_Z N)%Q.
Proof.
  intros HN Hy. pose proof (inject_Z_pos Hy) as Y.
  pose proof (inject_Z_nonneg HN) as N0.
  assert (Y1 : (1 <= inject_Z y)%Q).
  { change 1%Q with (inject_Z 1). rewrite <- Zle_Qle. lia. }
  split.
  - apply Qle_shift_div_l; [exact Y | lra].
  - apply Qle_shift_div_r; [exact Y |].
    pose proof (Qmult_le_compat_r _ _ _ Y1 N0) as M. lra.
Qed.

Lemma small_is_bounded (N : Z) (q : Q) :
  N <= 2 ^ 53 -> (q <= inject_Z N)%Q -> (q <= inject_Z (2 ^ 64))%Q.
Proof.
  intros H L.
  assert (B : (inject_Z N <= inject_Z (2 ^ 64))%Q).
  { rewrite <- Zle_Qle. change (2 ^ 64) with 18446744073709551616.
    change (2 ^ 53) with 9007199254740992 in H. lia. }
  lra.
Qed.

(** [Math.max(0, Math.ceil(N / y))] on whole numbers, in binary64 and
    exactly. *)
Lemma max_ceil_quotient (N y : Z) :
  Z.abs N <= 2 ^ 52 -> 0 < y <= 2 ^ 52 ->
  max (Finite false 0)
    (ceil (div (Finite (N <? 0) (inject_Z (Z.abs N)))
               (Finite false (inject_Z y))))
  = Finite false
      (inject_Z (Z.max 0 (Qceiling (inject_Z N / inject_Z y)))).
Proof.
  intros HN Hy. pose proof (inject_Z_pos (proj1 Hy)) as Y.
  change (2 ^ 52) with 4503599627370496 in *.
  destruct (Z.ltb_spec N 0) as [Neg | Pos].
  - (* a negative quotient *)
    assert (A : 0 < Z.abs N) by lia.
    pose proof (inject_Z_pos A) as A'.
    unfold div.
    rewrite Qeq_bool_false
      by (intro Z; rewrite Z in Y; exact (Qlt_irrefl _ Y)).
    cbn [xorb val].
    set (q := (- inject_Z (Z.abs N) / inject_Z y)%Q).
    destruct (@quotient_small (Z.abs N) y ltac:(lia) (proj1 Hy)) as [Q0 Q1].
    assert (QE : (q == - (inject_Z (Z.abs N) / inject_Z y))%Q).
    { unfold q. field. intro Z. rewrite Z in Y. exact (Qlt_irrefl _ Y). }
    assert (QN : (q < 0)%Q).
    { rewrite QE.
      assert (0 < inject_Z (Z.abs N) / inject_Z y)%Q
        by (apply Qlt_shift_div_l; [exact Y | lra]).
      lra. }
    rewrite make_bounded.
    2:{ rewrite Qabs_neg by lra. rewrite QE.
        apply (@small_is_bounded (Z.abs N)); [lia | lra]. }
    rewrite Qeq_bool_false by lra.
    rewrite Qle_bool_false by exact QN. cbn [negb].
    unfold ceil.
    rewrite max_zero_nonpos.
    + f_equal. rewrite Z.max_l; [reflexivity |].
      apply NumFacts.ceiling_least. change (inject_Z 0) with 0%Q.
      assert (E : (inject_Z N == - inject_Z (Z.abs N))%Q).
      { rewrite <- inject_Z_opp. replace (- Z.abs N) with N by lia.
        reflexivity. }
      rewrite E. apply Qle_shift_div_r; [exact Y | lra].
    + cbn [val].
      pose proof (inject_Z_nonneg (Z.abs_nonneg
                    (Qceiling (- roundMagnitude (Qabs q))))).
      lra.
  - (* a quotient that is not negative *)
    rewrite Z.abs_eq by lia.
    destruct (@quotient_small N y Pos (proj1 Hy)) as [Q0 Q1].
    rewrite div_nonneg;
      [| apply inject_Z_nonneg; exact Pos | exact Y
       | apply (@small_is_bounded N); [lia | exact Q1]].
    unfold ceil. cbn [val].
    rewrite ceiling_of_rounded_quotient by lia.
    set (c := Qceiling (inject_Z N / inject_Z y)).
    assert (C0 : 0 <= c).
    { unfold c. rewrite <- (Qceiling_Z 0). apply Qceiling_resp_le.
      exact Q0. }
    rewrite Z.abs_eq, Z.max_r by lia. apply max_zero_Z. exact C0.
Qed.

(** What [calculateClassesNeeded] computes, over exact numbers. *)
Lemma exact_needed (a t p : Z) :
  0 <= a -> 0 <= t -> 0 < p < 100 ->
  Utils.calculateClassesNeeded a t (inject_Z p)
  = Z.max 0 (Qceiling (inject_Z (p * t - a * 100) / inject_Z (100 - p))).
Proof.
  intros Ha Ht Hp. unfold Utils.calculateClassesNeeded.
  assert (Y : (0 < inject_Z (100 - p))%Q) by (apply inject_Z_pos; lia).
  assert (Low : p * t - a * 100 <= 0 ->
                Z.max 0 (Qceiling (inject_Z (p * t - a * 100)
                                   / inject_Z (100 - p))) = 0).
  { intro L. rewrite Z.max_l; [reflexivity |].
    apply NumFacts.ceiling_least. change (inject_Z 0) with 0%Q.
    apply Qle_shift_div_r; [exact Y |].
    assert (inject_Z (p * t - a * 100) <= inject_Z 0)%Q
      by (rewrite <- Zle_Qle; exact L).
    change (inject_Z 0) with 0%Q in *. lra. }
  destruct (Z.eqb_spec t 0) as [-> | T].
  - symmetry. apply Low. lia.
  - assert (Tp : 0 < t) by lia.
    destruct (Num.geb _ (inject_Z p)) eqn:G.
    + apply NumFacts.geb_true, (UtilsFacts.percentage_meets_iff _ _ Tp) in G.
      symmetry. apply Low.
      change 100%Q with (inject_Z 100) in G.
      rewrite <- !inject_Z_mult, <- Zle_Qle in G. lia.
    + apply NumFacts.geb_false in G.
      assert (N : 0 < p * t - a * 100).
      { destruct (Z_lt_le_dec 0 (p * t - a * 100)) as [C | C]; [exact C |].
        exfalso. apply (Qlt_not_le _ _ G).
        apply (UtilsFacts.percentage_meets_iff _ _ Tp).
        change 100%Q with (inject_Z 100).
        rewrite <- !inject_Z_mult, <- Zle_Qle. lia. }
      f_equal. apply Qceiling_comp.
      rewrite inject_Z_sub, !inject_Z_mult, inject_Z_sub. reflexivity.
Qed.

(** On whole counts up to [10^13] and a whole target, the binary64
    computation of [calculateClassesNeeded] returns what the exact one
    returns. *)
Lemma needed_in_binary64 (a t p : Z) :
  0 <= a <= 10 ^ 13 -> 0 <= t <= 10 ^ 13 -> 0 < p < 100 ->
  UtilsDouble.calculateClassesNeeded (ofZ a) (ofZ t) (ofZ p)
  = ofZ (Utils.calculateClassesNeeded a t (inject_Z p)).
Proof.
  intros Ha Ht Hp. change (10 ^ 13) with 10000000000000 in *.
  rewrite (exact_needed (proj1 Ha) (proj1 Ht) Hp).
  set (N := p * t - a * 100). set (y := 100 - p).
  assert (Y : (0 < inject_Z y)%Q) by (apply inject_Z_pos; unfold y; lia).
  assert (NB : Z.abs N <= 2 ^ 52).
  { change (2 ^ 52) with 4503599627370496. unfold N. nia. }
  set (c := Z.max 0 (Qceiling (inject_Z N / inject_Z y))).
  assert (CB : 0 <= c <= 9007199254740992).
  { split; [apply Z.le_max_l |]. unfold c.
    apply Z.max_lub; [lia |].
    destruct (Z_lt_le_dec N 0) as [C | C].
    - transitivity 0; [| lia]. apply NumFacts.ceiling_least.
      change (inject_Z 0) with 0%Q. apply Qle_shift_div_r; [exact Y |].
      assert (inject_Z N <= inject_Z 0)%Q by (rewrite <- Zle_Qle; lia).
      change (inject_Z 0) with 0%Q in *. lra.
    - apply NumFacts.ceiling_least.
      destruct (@quotient_small N y C ltac:(unfold y; lia)) as [_ Q1].
      assert (inject_Z N <= inject_Z 9007199254740992)%Q.
      { rewrite <- Zle_Qle. change (2 ^ 52) with 4503599627370496 in NB.
        lia. }
      lra. }
  rewrite (ofZ_exact CB).
  unfold UtilsDouble.calculateClassesNeeded.
  rewrite (@ofZ_exact a), (@ofZ_exact t), (@ofZ_exact p), (@ofZ_exact 0),
    (@ofZ_exact 100) by lia.
  rewrite eqb_finite. cbn [val].
  destruct (Z.eq_dec t 0) as [T0 | T0].
  - subst t. change (Qeq_bool (inject_Z 0) (inject_Z 0)) with true.
    cbv iota. f_equal. f_equal. unfold c. rewrite Z.max_l; [reflexivity |].
    apply NumFacts.ceiling_least. change (inject_Z 0) with 0%Q.
    apply Qle_shift_div_r; [exact Y |].
    assert (inject_Z N <= inject_Z 0)%Q
      by (rewrite <- Zle_Qle; unfold N; lia).
    change (inject_Z 0) with 0%Q in *. lra.
  - assert (Tp : 0 < t) by lia. pose proof (inject_Z_pos Tp) as T.
    rewrite Qeq_bool_false.
    2:{ change (inject_Z 0) with 0%Q. intro Z. rewrite Z in T.
        exact (Qlt_irrefl _ T). }
    destruct (@quotient_small a t (proj1 Ha) Tp) as [U0 U1].
    rewrite div_nonneg;
      [| apply inject_Z_nonneg; lia | exact T
       | apply (@small_is_bounded a);
         [change (2 ^ 53) with 9007199254740992; lia | exact U1]].
    set (r1 := roundMagnitude (inject_Z a / inject_Z t)).
    assert (R1 : (0 <= r1)%Q) by apply roundMagnitude_nonneg.
    assert (R1u : (r1 * 100 <= inject_Z (2 ^ 64))%Q).
    { destruct (roundMagnitude_err U0) as [_ E]. fold r1 in E.
      pose proof eta_small.
      assert (inject_Z a <= 10000000000000)%Q.
      { change 10000000000000%Q with (inject_Z 10000000000000).
        rewrite <- Zle_Qle. lia. }
      change (inject_Z (2 ^ 64)) with 18446744073709551616%Q.
      unfold eps in E. lra. }
    rewrite mul_nonneg; [| exact R1 | apply inject_Z_nonneg; lia | exact R1u].
    set (r2 := roundMagnitude (r1 * inject_Z 100)).
    rewrite geb_finite. cbn [val].
    destruct (Qle_bool (inject_Z p) r2) eqn:G.
    + apply Qle_bool_iff in G.
      assert (L : N <= 0).
      { destruct (Z_lt_le_dec 0 N) as [C | C]; [exfalso | exact C].
        pose proof (@percentage_below a t p (proj1 Ha)
                      ltac:(change (10 ^ 13) with 10000000000000; lia)
                      ltac:(lia) ltac:(unfold N in C; lia)) as B.
        fold r1 in B. change 100%Q with (inject_Z 100) in B. fold r2 in B.
        lra. }
      f_equal. f_equal. unfold c. rewrite Z.max_l; [reflexivity |].
      apply NumFacts.ceiling_least. change (inject_Z 0) with 0%Q.
      apply Qle_shift_div_r; [exact Y |].
      assert (inject_Z N <= inject_Z 0)%Q by (rewrite <- Zle_Qle; lia).
      change (inject_Z 0) with 0%Q in *. lra.
    + rewrite (@mul_Z p t), (@mul_Z a 100) by nia.
      rewrite sub_Z by nia. fold N.
      rewrite (@sub_Z 100 p) by lia. fold y.
      replace (y <? 0) with false by (symmetry; apply Z.ltb_ge; unfold y; lia).
      rewrite (Z.abs_eq y) by (unfold y; lia).
      apply max_ceil_quotient; [exact NB |].
      change (2 ^ 52) with 4503599627370496. unfold y. lia.
Qed.

(** What [calculateClassesCanMiss] computes, over exact numbers. *)
Lemma exact_canMiss (a t p : Z) :
  0 <= a -> 0 < t -> 0 < p ->
  AttendanceUtils.calculateClassesCanMiss a t (inject_Z p)
  = Z.max 0 (a * 100 / p - t).
Proof.
  intros Ha Ht Hp. unfold AttendanceUtils.calculateClassesCanMiss.
  destruct (Z.eqb_spec t 0) as [T | _]; [lia |].
  pose proof (inject_Z_pos Hp) as P.
  destruct (Num.ltb _ (inject_Z p)) eqn:G.
  - apply NumFacts.ltb_true in G.
    assert (L : a * 100 < p * t).
    { destruct (Z_lt_le_dec (a * 100) (p * t)) as [C | C]; [exact C |].
      exfalso. apply (Qlt_not_le _ _ G).
      apply (UtilsFacts.percentage_meets_iff _ _ Ht).
      change 100%Q with (inject_Z 100).
      rewrite <- !inject_Z_mult, <- Zle_Qle. lia. }
    assert (a * 100 / p < t) by (apply Z.div_lt_upper_bound; lia).
    lia.
  - f_equal.
    assert (E : (inject_Z a * 100 / inject_Z p - inject_Z t
                 == inject_Z (a * 100 + - t * p) / inject_Z p)%Q).
    { rewrite inject_Z_plus, !inject_Z_mult, inject_Z_opp.
      change (inject_Z 100) with 100%Q. field.
      intro Z. rewrite Z in P. exact (Qlt_irrefl _ P). }
    rewrite (Qfloor_comp _ _ E), <- Zdiv_Qdiv.
    rewrite Z.div_add by lia. lia.
Qed.

(** On whole counts up to [10^11] and a whole target, the binary64
    computation of [calculateClassesCanMiss] returns what the exact one
    returns. *)
Lemma canMiss_in_binary64 (a t p : Z) :
  0 <= a <= 10 ^ 11 -> 0 <= t <= 10 ^ 11 -> 0 < p <= 100 ->
  UtilsDouble.calculateClassesCanMiss (ofZ a) (ofZ t) (ofZ p)
  = ofZ (AttendanceUtils.calculateClassesCanMiss a t (inject_Z p)).
Proof.
  intros Ha Ht Hp. change (10 ^ 11) with 100000000000 in *.
  unfold UtilsDouble.calculateClassesCanMiss.
  rewrite (@ofZ_exact a), (@ofZ_exact t), (@ofZ_exact p), (@ofZ_exact 0),
    (@ofZ_exact 100) by lia.
  rewrite eqb_finite. cbn [val].
  destruct (Z.eq_dec t 0) as [T0 | T0].
  { subst t. change (Qeq_bool (inject_Z 0) (inject_Z 0)) with true.
    cbv iota. unfold AttendanceUtils.calculateClassesCanMiss.
    cbn [Z.eqb]. symmetry. apply ofZ_exact. lia. }
  assert (Tp : 0 < t) by lia. pose proof (inject_Z_pos Tp) as T.
  pose proof (inject_Z_pos (proj1 Hp)) as P.
  rewrite (exact_canMiss (proj1 Ha) Tp (proj1 Hp)).
  set (k := a * 100 / p).
  assert (K0 : 0 <= k) by (apply Z.div_pos; lia).
  assert (K1 : k <= a * 100) by (apply Z.div_le_upper_bound; nia).
  rewrite (@ofZ_exact (Z.max 0 (k - t))) by lia.
  rewrite Qeq_bool_false.
  2:{ change (inject_Z 0) with 0%Q. intro Z. rewrite Z in T.
      exact (Qlt_irrefl _ T). }
  destruct (@quotient_small a t (proj1 Ha) Tp) as [U0 U1].
  rewrite div_nonneg;
    [| apply inject_Z_nonneg; lia | exact T
     | apply (@small_is_bounded a);
       [change (2 ^ 53) with 9007199254740992; lia | exact U1]].
  set (r1 := roundMagnitude (inject_Z a / inject_Z t)).
  assert (R1 : (0 <= r1)%Q) by apply roundMagnitude_nonneg.
  assert (R1u : (r1 * 100 <= inject_Z (2 ^ 64))%Q).
  { destruct (roundMagnitude_err U0) as [_ E]. fold r1 in E.
    pose proof eta_small.
    assert (inject_Z a <= 100000000000)%Q.
    { change 100000000000%Q with (inject_Z 100000000000).
      rewrite <- Zle_Qle. lia. }
    change (inject_Z (2 ^ 64)) with 18446744073709551616%Q.
    unfold eps in E. lra. }
  rewrite mul_nonneg; [| exact R1 | apply inject_Z_nonneg; lia | exact R1u].
  set (r2 := roundMagnitude (r1 * inject_Z 100)).
  rewrite ltb_finite. cbn [val].
  destruct (Qle_bool (inject_Z p) r2) eqn:G; cbn [negb].
  - (* the target is met *)
    apply Qle_bool_iff in G.
    assert (L : p * t <= a * 100).
    { destruct (Z_lt_le_dec (a * 100) (p * t)) as [C | C]; [exfalso | exact C].
      pose proof (@percentage_below a t p (proj1 Ha)
                    ltac:(change (10 ^ 13) with 10000000000000; lia)
                    ltac:(lia) ltac:(lia)) as B.
      fold r1 in B. change 100%Q with (inject_Z 100) in B. fold r2 in B.
      lra. }
    assert (KT : t <= k) by (apply Z.div_le_lower_bound; lia).
    rewrite Z.max_r by lia.
    rewrite (@mul_Z a 100) by lia.
    assert (XB : (inject_Z (a * 100) <= 10000000000000)%Q).
    { change 10000000000000%Q with (inject_Z 10000000000000).
      rewrite <- Zle_Qle. lia. }
    destruct (@quotient_small (a * 100) p ltac:(lia) (proj1 Hp)) as [Q0 Q1].
    rewrite div_nonneg;
      [| apply inject_Z_nonneg; lia | exact P
       | apply (@small_is_bounded (a * 100));
         [change (2 ^ 53) with 9007199254740992; lia | exact Q1]].
    set (q := (inject_Z (a * 100) / inject_Z p)%Q) in *.
    set (q1 := roundMagnitude q).
    unfold sub, neg, add. cbn [negb andb val].
    destruct (Z.eq_dec ((a * 100) mod p) 0) as [D | D].
    + (* the quotient is whole *)
      pose proof (@div_exact (a * 100) p (proj1 Hp) D) as E. fold q k in E.
      unfold q1. rewrite (roundMagnitude_comp E), roundMagnitude_Z by lia.
      rewrite (@make_Z false _ (k - t)).
      2:{ rewrite inject_Z_sub. reflexivity. }
      2:{ lia. }
      replace (if k - t =? 0 then false else k - t <? 0) with false.
      2:{ destruct (Z.eqb_spec (k - t) 0); [reflexivity |].
          symmetry. apply Z.ltb_ge. lia. }
      unfold floor. cbn [val]. rewrite (Z.abs_eq (k - t)) by lia.
      rewrite Qfloor_Z, Z.abs_eq by lia. apply max_zero_Z. lia.
    + (* the quotient is not whole *)
      set (w := (1 / inject_Z p)%Q).
      assert (W0 : (0 < w)%Q).
      { unfold w. apply Qlt_shift_div_l; [exact P | lra]. }
      assert (Wl : ((1 # 100) <= w)%Q).
      { unfold w. apply Qle_shift_div_l; [exact P |].
        assert (inject_Z p <= inject_Z 100)%Q by (rewrite <- Zle_Qle; lia).
        change (inject_Z 100) with 100%Q in *. lra. }
      assert (QW : (q == inject_Z (a * 100) * w)%Q).
      { unfold q, w. field. intro Z. rewrite Z in P.
        exact (Qlt_irrefl _ P). }
      assert (QB : (q <= 10000000000000 * w)%Q).
      { rewrite QW. apply Qmult_le_compat_r; [exact XB | lra]. }
      set (N := a * 100 + - t * p).
      assert (ND : N mod p <> 0).
      { unfold N. rewrite Z.mod_add by lia. exact D. }
      assert (NK : N / p = k - t).
      { unfold N. rewrite Z.div_add by lia. fold k. lia. }
      assert (ZQ : (inject_Z N / inject_Z p == q - inject_Z t)%Q).
      { unfold N, q. rewrite inject_Z_plus, !inject_Z_mult, inject_Z_opp.
        field. intro Z. rewrite Z in P. exact (Qlt_irrefl _ P). }
      assert (ZW : (w <= q - inject_Z t)%Q).
      { rewrite <- ZQ.
        assert (N1 : 1 <= N).
        { assert (0 <= N) by (unfold N; lia).
          destruct (Z.eq_dec N 0) as [Z | Z]; [| lia].
          rewrite Z in ND. cbn in ND. contradiction. }
        unfold w. apply Qmult_le_compat_r;
          [| apply Qlt_le_weak, Qinv_lt_0_compat, P].
        change 1%Q with (inject_Z 1). rewrite <- Zle_Qle. exact N1. }
      destruct (roundMagnitude_err Q0) as [E1 E2]. fold q1 in E1, E2.
      pose proof eta_small as Es. pose proof eta_pos as Ep.
      assert (TB : (inject_Z t <= 100000000000)%Q).
      { change 100000000000%Q with (inject_Z 100000000000).
        rewrite <- Zle_Qle. lia. }
      pose proof (inject_Z_nonneg (proj1 Ht)) as T0'.
      set (d := (q1 + - inject_Z t)%Q).
      assert (D0 : (0 < d)%Q) by (unfold d, eps in *; lra).
      assert (DB : (d <= inject_Z (2 ^ 64))%Q).
      { change (inject_Z (2 ^ 64)) with 18446744073709551616%Q.
        assert (w <= 1)%Q.
        { unfold w. apply Qle_shift_div_r; [exact P |].
          assert (inject_Z 1 <= inject_Z p)%Q by (rewrite <- Zle_Qle; lia).
          change (inject_Z 1) with 1%Q in *. lra. }
        unfold d, eps in *. lra. }
      rewrite make_nonneg; [| lra | exact DB].
      destruct (roundMagnitude_err (Qlt_le_weak _ _ D0)) as [E3 E4].
      destruct (@fractional_gap N p (roundMagnitude d) (proj1 Hp) ND)
        as [F _].
      * rewrite ZQ. fold w. unfold d, eps in *. lra.
      * rewrite ZQ. fold w. unfold d, eps in *. lra.
      * unfold floor. cbn [val]. rewrite F, NK, Z.abs_eq by lia.
        apply max_zero_Z. lia.
  - (* the target is not met *)
    assert (G' : (r2 < inject_Z p)%Q).
    { apply Qnot_le_lt. intro L. apply Qle_bool_iff in L. congruence. }
    assert (L : a * 100 <= p * t).
    { destruct (Z_lt_le_dec (p * t) (a * 100)) as [C | C]; [exfalso | exact C].
      pose proof (@percentage_above a t p (proj1 Ha)
                    ltac:(change (10 ^ 13) with 10000000000000; lia)
                    ltac:(lia) ltac:(lia)) as B.
      fold r1 in B. change 100%Q with (inject_Z 100) in B. fold r2 in B.
      lra. }
    assert (KT : k <= t) by (apply Z.div_le_upper_bound; lia).
    rewrite Z.max_l by lia. reflexivity.
Qed.

(** The percentage of [a] out of [t], as the code computes it. *)
Lemma percentage_of (a t : Z) :
  0 <= a <= 2 ^ 53 -> 0 < t <= 2 ^ 53 ->
  mul (div (Finite false (inject_Z a)) (Finite false (inject_Z t)))
      (Finite false (inject_Z 100))
  = Finite false
      (roundMagnitude (roundMagnitude (inject_Z a / inject_Z t) * 100)).
Proof.
  intros Ha Ht. change (2 ^ 53) with 9007199254740992 in *.
  pose proof (inject_Z_pos (proj1 Ht)) as T.
  destruct (@quotient_small a t (proj1 Ha) (proj1 Ht)) as [U0 U1].
  rewrite div_nonneg;
    [| apply inject_Z_nonneg; lia | exact T
     | apply (@small_is_bounded a);
       [change (2 ^ 53) with 9007199254740992; lia | exact U1]].
  apply mul_nonneg; [apply roundMagnitude_nonneg | discriminate |].
  destruct (roundMagnitude_err U0) as [_ E]. pose proof eta_small.
  assert (inject_Z a <= 9007199254740992)%Q.
  { change 9007199254740992%Q with (inject_Z 9007199254740992).
    rewrite <- Zle_Qle. lia. }
  change (inject_Z (2 ^ 64)) with 18446744073709551616%Q.
  unfold eps in E. lra.
Qed.

Lemma percentage_mono (u u' : Q) :
  (u <= u')%Q ->
  (roundMagnitude (roundMagnitude u * 100)
   <= roundMagnitude (roundMagnitude u' * 100))%Q.
Proof.
  intro L. apply roundMagnitude_mono.
  apply Qmult_le_compat_r; [apply roundMagnitude_mono; exact L | discriminate].
Qed.

Lemma percentage_at_75 :
  roundMagnitude (roundMagnitude (3 # 4) * 100) = 75%Q.
Proof. vm_compute. reflexivity. Qed.

Lemma percentage_at_100 :
  roundMagnitude (roundMagnitude 1 * 100) = 100%Q.
Proof. vm_compute. reflexivity. Qed.

(** ** The claims about the utilities, on the binary64 reading *)

Lemma meets_Z (p x y : Z) :
  (inject_Z p * inject_Z x <= 100 * inject_Z y)%Q <-> p * x <= 100 * y.
Proof.
  change 100%Q with (inject_Z 100).
  rewrite <- !inject_Z_mult, <- Zle_Qle. reflexivity.
Qed.

(** The exact answer is at most [targetPercentage * currentTotal]. *)
Lemma needed_bound (a t p : Z) :
  0 <= a -> 0 <= t -> 0 < p < 100 ->
  0 <= Utils.calculateClassesNeeded a t (inject_Z p) <= p * t.
Proof.
  intros Ha Ht Hp. rewrite (exact_needed Ha Ht Hp).
  split; [apply Z.le_max_l |].
  apply Z.max_lub; [nia |].
  apply NumFacts.ceiling_least.
  assert (Y : (0 < inject_Z (100 - p))%Q)
    by (apply AttendanceUtilsFacts.inject_Z_pos; lia).
  apply Qle_shift_div_r; [exact Y |].
  rewrite <- inject_Z_mult, <- Zle_Qle. nia.
Qed.

(** C9, as the code has it.  For whole counts with
    [0 <= currentAttended <= currentTotal <= 10^13] and a whole target
    strictly between 0 and 100, [calculateClassesNeeded], computed in
    binary64, returns the least non-negative integer [n] with
    [100 * (currentAttended + n) >= targetPercentage * (currentTotal + n)];
    it returns 0 when [currentTotal = 0] and when the current percentage
    already meets the target. *)
Theorem calculateClassesNeeded_least
    (currentAttended currentTotal targetPercentage : Z) :
  0 <= currentAttended <= currentTotal -> currentTotal <= 10 ^ 13 ->
  0 < targetPercentage < 100 ->
  exists n : Z,
    UtilsDouble.calculateClassesNeeded (ofZ currentAttended)
      (ofZ currentTotal) (ofZ targetPercentage) = ofZ n
    /\ 0 <= n
    /\ targetPercentage * (currentTotal + n) <= 100 * (currentAttended + n)
    /\ (forall m : Z,
          0 <= m ->
          targetPercentage * (currentTotal + m)
          <= 100 * (currentAttended + m) ->
          n <= m)
    /\ (currentTotal = 0 -> n = 0)
    /\ (targetPercentage * currentTotal <= 100 * currentAttended -> n = 0).
Proof.
  intros Hat Ht Hp.
  exists (Utils.calculateClassesNeeded currentAttended currentTotal
            (inject_Z targetPercentage)).
  split; [apply needed_in_binary64; lia |].
  assert (P0 : (0 < inject_Z targetPercentage)%Q)
    by (apply AttendanceUtilsFacts.inject_Z_pos; lia).
  assert (P1 : (inject_Z targetPercentage < 100)%Q).
  { change 100%Q with (inject_Z 100). rewrite <- Zlt_Qlt. lia. }
  destruct (@UtilsFacts.needed_least_exact currentAttended
              currentTotal (inject_Z targetPercentage) Hat P0 P1)
    as (N0 & E & L & T0 & M).
  split; [exact N0 |]. split; [apply meets_Z; exact E |].
  split; [| split; [exact T0 |]].
  - intros m Hm Hs. apply (L m Hm). apply meets_Z. exact Hs.
  - intro Hs. apply M. apply meets_Z. exact Hs.
Qed.

(** The theorem at 60 attended of 100 with the default target 75: 60
    more classes are needed. *)
Lemma calculateClassesNeeded_least_witness :
  exists n : Z,
    UtilsDouble.calculateClassesNeeded (ofZ 60) (ofZ 100) (ofZ 75) = ofZ n
    /\ n = 60.
Proof.
  destruct (@calculateClassesNeeded_least 60 100 75) as (n & E & N0 & S & L & _);
    [lia | lia | lia |].
  exists n. split; [exact E |].
  assert (n <= 60) by (apply L; lia). lia.
Defined.

(** C9 as stated fails: at 1000000000000001 attended of
    2000000000000000 with the target 75, where 1999999999999996 more
    classes are enough, the function returns 1999999999999997, because
    [currentAttended * 100] is not a binary64 value and is rounded
    down. *)
Lemma calculateClassesNeeded_not_least_at_large_counts :
  ~ (forall currentAttended currentTotal targetPercentage : Z,
       0 <= currentAttended <= currentTotal ->
       0 < targetPercentage < 100 ->
       forall m : Z,
         0 <= m ->
         targetPercentage * (currentTotal + m)
         <= 100 * (currentAttended + m) ->
         leb (UtilsDouble.calculateClassesNeeded (ofZ currentAttended)
                (ofZ currentTotal) (ofZ targetPercentage))
             (ofZ m) = true).
Proof.
  intro H.
  specialize (H 1000000000000001 2000000000000000 75 ltac:(lia) ltac:(lia)
                1999999999999996 ltac:(lia) ltac:(lia)).
  vm_compute in H. discriminate H.
Qed.

(** X1.  For whole counts up to [10^11] and a whole target from 1 to
    100, when the target is met [calculateClassesCanMiss], computed in
    binary64, returns the greatest number [m >= 0] of further classes
    that can all be missed with
    [targetPercentage * (currentTotal + m) <= 100 * currentAttended]
    still true; when it is not met, it returns 0. *)
Theorem calculateClassesCanMiss_greatest
    (currentAttended currentTotal targetPercentage : Z) :
  0 <= currentAttended <= 10 ^ 11 -> 0 < currentTotal <= 10 ^ 11 ->
  0 < targetPercentage <= 100 ->
  exists m : Z,
    UtilsDouble.calculateClassesCanMiss (ofZ currentAttended)
      (ofZ currentTotal) (ofZ targetPercentage) = ofZ m
    /\ (targetPercentage * currentTotal <= 100 * currentAttended ->
        0 <= m
        /\ targetPercentage * (currentTotal + m) <= 100 * currentAttended
        /\ (forall k : Z,
              0 <= k ->
              targetPercentage * (currentTotal + k) <= 100 * currentAttended ->
              k <= m))
    /\ (100 * currentAttended < targetPercentage * currentTotal -> m = 0).
Proof.
  intros Ha Ht Hp.
  exists (AttendanceUtils.calculateClassesCanMiss currentAttended currentTotal
            (inject_Z targetPercentage)).
  split; [apply canMiss_in_binary64; lia |].
  assert (P0 : (0 < inject_Z targetPercentage)%Q)
    by (apply AttendanceUtilsFacts.inject_Z_pos; lia).
  destruct (@AttendanceUtilsFacts.canMiss_greatest_exact
              currentAttended currentTotal (inject_Z targetPercentage)
              (proj1 Ht) P0) as [Met Short].
  split.
  - intro Hs. destruct Met as (M0 & E & G); [apply meets_Z; exact Hs |].
    split; [exact M0 |]. split; [apply meets_Z; exact E |].
    intros k Hk Hr. apply (G k Hk). apply meets_Z. exact Hr.
  - intro Hs. apply Short.
    change 100%Q with (inject_Z 100).
    rewrite <- !inject_Z_mult, <- Zlt_Qlt. exact Hs.
Qed.

(** The theorem at 80 attended of 100 with the target 75: 6 more classes
    can be missed (80 of 106 is above 75 percent, 80 of 107 is not). *)
Lemma calculateClassesCanMiss_greatest_witness :
  exists m : Z,
    UtilsDouble.calculateClassesCanMiss (ofZ 80) (ofZ 100) (ofZ 75) = ofZ m
    /\ m = 6.
Proof.
  destruct (@calculateClassesCanMiss_greatest 80 100 75)
    as (m & E & Met & _); [lia | lia | lia |].
  exists m. split; [exact E |].
  destruct Met as (M0 & S & G); [lia |].
  assert (6 <= m) by (apply G; lia). lia.
Defined.

(** X3.  For whole counts with
    [0 <= currentAttended <= currentTotal <= 10^11] and a whole target
    strictly between 0 and 100, attending the classes that
    [calculateClassesNeeded] asks for settles the matter: asked again
    with both counts raised by its answer, it answers 0. *)
Theorem needed_after_attending
    (currentAttended currentTotal targetPercentage : Z) :
  0 <= currentAttended <= currentTotal -> currentTotal <= 10 ^ 11 ->
  0 < targetPercentage < 100 ->
  let n :=
    UtilsDouble.calculateClassesNeeded (ofZ currentAttended)
      (ofZ currentTotal) (ofZ targetPercentage) in
  UtilsDouble.calculateClassesNeeded (add (ofZ currentAttended) n)
    (add (ofZ currentTotal) n) (ofZ targetPercentage) = ofZ 0.
Proof.
  intros Hat Ht Hp. cbv zeta. change (10 ^ 11) with 100000000000 in Ht.
  rewrite needed_in_binary64
    by (change (10 ^ 13) with 10000000000000; lia).
  set (n := Utils.calculateClassesNeeded currentAttended currentTotal
              (inject_Z targetPercentage)).
  pose proof (@needed_bound currentAttended currentTotal targetPercentage
                ltac:(lia) ltac:(lia) Hp) as NB. fold n in NB.
  assert (NT : n <= 99 * 100000000000) by nia.
  rewrite (@ofZ_exact currentAttended), (@ofZ_exact currentTotal),
    (@ofZ_exact n) by lia.
  rewrite !add_Z by lia.
  rewrite <- !ofZ_exact by lia.
  rewrite needed_in_binary64
    by (change (10 ^ 13) with 10000000000000; lia).
  f_equal.
  assert (P0 : (0 < inject_Z targetPercentage)%Q)
    by (apply AttendanceUtilsFacts.inject_Z_pos; lia).
  assert (P1 : (inject_Z targetPercentage < 100)%Q).
  { change 100%Q with (inject_Z 100). rewrite <- Zlt_Qlt. lia. }
  exact (@AttendanceUtilsFacts.needed_after_attending_exact currentAttended
           currentTotal (inject_Z targetPercentage) Hat P0 P1).
Qed.

(** The theorem at 60 attended of 100 with the target 75. *)
Lemma needed_after_attending_witness :
  UtilsDouble.calculateClassesNeeded
    (add (ofZ 60) (UtilsDouble.calculateClassesNeeded (ofZ 60) (ofZ 100)
                     (ofZ 75)))
    (add (ofZ 100) (UtilsDouble.calculateClassesNeeded (ofZ 60) (ofZ 100)
                      (ofZ 75)))
    (ofZ 75) = ofZ 0.
Proof.
  apply (@needed_after_attending 60 100 75); lia.
Defined.

(** X4.  With the default target 75, a subject with
    [0 <= attendedClasses <= totalClasses], [0 < totalClasses <= 10^13],
    that attends, without a miss, as many further classes as
    [calculateClassesNeeded] returns is projected "Safe" by
    [calculateProjectedAttendance]. *)
Theorem projection_after_needed_is_safe
    (attendedClasses totalClasses : Z) (percentage : number) :
  0 <= attendedClasses <= totalClasses -> 0 < totalClasses <= 10 ^ 13 ->
  let n :=
    UtilsDouble.calculateClassesNeeded (ofZ attendedClasses)
      (ofZ totalClasses) (ofZ 75) in
  UtilsDouble.projectedStatus
    (UtilsDouble.calculateProjectedAttendance (ofZ attendedClasses)
       (ofZ totalClasses) percentage n n) = "Safe".
Proof.
  intros Hat Ht. cbv zeta. change (10 ^ 13) with 10000000000000 in Ht.
  rewrite needed_in_binary64
    by (change (10 ^ 13) with 10000000000000; lia).
  set (n := Utils.calculateClassesNeeded attendedClasses totalClasses
              (inject_Z 75)).
  pose proof (@needed_bound attendedClasses totalClasses 75
                ltac:(lia) ltac:(lia) ltac:(lia)) as NB. fold n in NB.
  destruct (@UtilsFacts.needed_least_exact attendedClasses
              totalClasses (inject_Z 75) Hat ltac:(reflexivity)
              ltac:(reflexivity)) as (_ & E & _).
  fold n in E. apply meets_Z in E.
  unfold UtilsDouble.calculateProjectedAttendance.
  cbn [UtilsDouble.projectedStatus].
  rewrite (@ofZ_exact attendedClasses), (@ofZ_exact totalClasses),
    (@ofZ_exact n), (@ofZ_exact 0), (@ofZ_exact 100) by lia.
  rewrite !add_Z by lia.
  set (A := attendedClasses + n) in *. set (T := totalClasses + n) in *.
  rewrite gtb_finite. cbn [val].
  rewrite Qle_bool_false
    by (apply AttendanceUtilsFacts.inject_Z_pos; unfold T; lia).
  cbn [negb].
  rewrite percentage_of
    by (change (2 ^ 53) with 9007199254740992; unfold A, T; lia).
  unfold UtilsDouble.getAttendanceStatus.
  rewrite (@ofZ_exact 75) by lia. rewrite geb_finite. cbn [val].
  rewrite Qle_bool_true; [reflexivity |].
  change (inject_Z 75) with 75%Q.
  rewrite <- percentage_at_75. apply percentage_mono.
  assert (Tq : (0 < inject_Z T)%Q)
    by (apply AttendanceUtilsFacts.inject_Z_pos; unfold T; lia).
  apply Qle_shift_div_l; [exact Tq |].
  assert (Q4 : (3 * inject_Z T <= 4 * inject_Z A)%Q).
  { change 3%Q with (inject_Z 3). change 4%Q with (inject_Z 4).
    rewrite <- !inject_Z_mult, <- Zle_Qle. lia. }
  lra.
Qed.

(** The theorem at 60 attended of 100: after 60 more classes, 120 of
    160 is 75 percent. *)
Lemma projection_after_needed_is_safe_witness :
  UtilsDouble.projectedStatus
    (UtilsDouble.calculateProjectedAttendance (ofZ 60) (ofZ 100) (ofZ 60)
       (UtilsDouble.calculateClassesNeeded (ofZ 60) (ofZ 100) (ofZ 75))
       (UtilsDouble.calculateClassesNeeded (ofZ 60) (ofZ 100) (ofZ 75)))
  = "Safe".
Proof.
  apply (@projection_after_needed_is_safe 60 100 (ofZ 60)); lia.
Defined.

(** X5.  Attending every one of the future classes never lowers the
    projected percentage: for a subject with
    [0 <= attendedClasses <= totalClasses], [0 < totalClasses], the
    percentage projected for [k'] classes, all attended, is at least the
    one projected for [k <= k'] classes (for [k = 0], the current
    percentage as the code computes it), and at most 100, as long as the
    counts stay within [2^53]. *)
Theorem projection_attending_all
    (attendedClasses totalClasses : Z) (percentage : number) (k k' : Z) :
  0 <= attendedClasses <= totalClasses -> 0 < totalClasses ->
  0 <= k <= k' -> totalClasses + k' <= 2 ^ 53 ->
  let projected j :=
    UtilsDouble.projectedPercentage
      (UtilsDouble.calculateProjectedAttendance (ofZ attendedClasses)
         (ofZ totalClasses) percentage (ofZ j) (ofZ j)) in
  leb (projected k) (projected k') = true
  /\ leb (projected k') (ofZ 100) = true.
Proof.
  intros Hat Ht Hk B. cbv beta zeta.
  change (2 ^ 53) with 9007199254740992 in B.
  assert (P : forall j, 0 <= j <= k' ->
            UtilsDouble.projectedPercentage
              (UtilsDouble.calculateProjectedAttendance (ofZ attendedClasses)
                 (ofZ totalClasses) percentage (ofZ j) (ofZ j))
            = Finite false
                (roundMagnitude
                   (roundMagnitude (inject_Z (attendedClasses + j)
                                    / inject_Z (totalClasses + j)) * 100))).
  { intros j Hj. unfold UtilsDouble.calculateProjectedAttendance.
    cbn [UtilsDouble.projectedPercentage].
    rewrite (@ofZ_exact attendedClasses), (@ofZ_exact totalClasses),
      (@ofZ_exact j), (@ofZ_exact 0), (@ofZ_exact 100) by lia.
    rewrite !add_Z by lia.
    rewrite gtb_finite. cbn [val].
    rewrite Qle_bool_false by (apply AttendanceUtilsFacts.inject_Z_pos; lia).
    cbn [negb]. apply percentage_of;
      change (2 ^ 53) with 9007199254740992; lia. }
  rewrite (P k), (P k') by lia. rewrite (@ofZ_exact 100) by lia.
  rewrite !leb_finite. cbn [val].
  assert (Tk : (0 < inject_Z (totalClasses + k))%Q)
    by (apply AttendanceUtilsFacts.inject_Z_pos; lia).
  assert (Tk' : (0 < inject_Z (totalClasses + k'))%Q)
    by (apply AttendanceUtilsFacts.inject_Z_pos; lia).
  split; apply Qle_bool_true.
  - apply percentage_mono.
    apply Qle_shift_div_l; [exact Tk' |].
    assert (E : (inject_Z (attendedClasses + k) / inject_Z (totalClasses + k)
                 * inject_Z (totalClasses + k')
                 == inject_Z ((attendedClasses + k) * (totalClasses + k'))
                    / inject_Z (totalClasses + k))%Q).
    { rewrite inject_Z_mult. field. intro Z. rewrite Z in Tk.
      exact (Qlt_irrefl _ Tk). }
    rewrite E. apply Qle_shift_div_r; [exact Tk |].
    rewrite <- inject_Z_mult, <- Zle_Qle. nia.
  - apply Qle_trans with (roundMagnitude (roundMagnitude 1 * 100));
      [| rewrite percentage_at_100; apply Qle_refl].
    apply percentage_mono.
    apply Qle_shift_div_r; [exact Tk' |].
    rewrite Qmult_1_l, <- Zle_Qle. lia.
Qed.

(** The theorem at 1 attended of 3, attending 4 more. *)
Lemma projection_attending_all_witness :
  leb (UtilsDouble.projectedPercentage
         (UtilsDouble.calculateProjectedAttendance (ofZ 1) (ofZ 3) (ofQ 33.33)
            (ofZ 0) (ofZ 0)))
      (UtilsDouble.projectedPercentage
         (UtilsDouble.calculateProjectedAttendance (ofZ 1) (ofZ 3) (ofQ 33.33)
            (ofZ 4) (ofZ 4))) = true
  /\ leb (UtilsDouble.projectedPercentage
            (UtilsDouble.calculateProjectedAttendance (ofZ 1) (ofZ 3)
               (ofQ 33.33) (ofZ 4) (ofZ 4)))
         (ofZ 100) = true.
Proof.
  apply (@projection_attending_all 1 3 (ofQ 33.33) 0 4); lia.
Defined.

(** [subject.attended || 0] on a count that may be [null]. *)
Lemma orElse_numberOf (n : option Z) :
  0 <= Dynamic.numberOf n <= 9007199254740992 ->
  orElse (option_map ofZ n) (ofZ 0) = ofZ (Dynamic.numberOf n).
Proof.
  intro B. destruct n as [z |]; [| reflexivity].
  cbn [Dynamic.numberOf option_map orElse] in *.
  rewrite (ofZ_exact B). cbn [truthy].
  destruct (Qeq_bool (inject_Z z) 0) eqn:E; [| reflexivity].
  apply Qeq_bool_iff in E.
  assert (z = 0) by (unfold Qeq in E; cbn in E; lia). subst z. reflexivity.
Qed.

(** X6.  On a subject with counts from 0 to [10^13], the card's
    [calculateClassesToAttend] returns what [calculateClassesNeeded]
    returns for the counts at the target 75 whenever the stored
    percentage compares below 75; when the stored percentage compares
    at 75 or more it returns 0 without looking at the counts. *)
Theorem card_agrees_with_utils (subject : AttendanceRecord) :
  0 <= Dynamic.numberOf (attended subject) <= 10 ^ 13 ->
  0 <= Dynamic.numberOf (total subject) <= 10 ^ 13 ->
  (geb (ofQ (percentage subject)) (ofZ 75) = false ->
   Card.calculateClassesToAttend subject
   = UtilsDouble.calculateClassesNeeded
       (ofZ (Dynamic.numberOf (attended subject)))
       (ofZ (Dynamic.numberOf (total subject))) (ofZ 75))
  /\ (geb (ofQ (percentage subject)) (ofZ 75) = true ->
      Card.calculateClassesToAttend subject = ofZ 0).
Proof.
  intros Ha Ht. change (10 ^ 13) with 10000000000000 in *.
  unfold Card.calculateClassesToAttend.
  split; intro G; rewrite G; [| reflexivity].
  rewrite !orElse_numberOf by lia.
  remember (Dynamic.numberOf (attended subject)) as a eqn:Ea. clear Ea.
  remember (Dynamic.numberOf (total subject)) as t eqn:Et. clear Et.
  rewrite needed_in_binary64
    by (change (10 ^ 13) with 10000000000000; lia).
  rewrite (@exact_needed a t 75) by lia.
  rewrite (@ofZ_exact a), (@ofZ_exact t), (@ofZ_exact 75), (@ofZ_exact 0),
    (@ofZ_exact 100) by lia.
  rewrite eqb_finite. cbn [val].
  set (N := 75 * t - a * 100).
  assert (Y : (0 < inject_Z (100 - 75))%Q) by reflexivity.
  assert (NB : Z.abs N <= 2 ^ 52).
  { change (2 ^ 52) with 4503599627370496. unfold N. lia. }
  assert (CB : 0 <= Z.max 0 (Qceiling (inject_Z N / inject_Z (100 - 75)))
               <= 9007199254740992).
  { split; [apply Z.le_max_l |]. apply Z.max_lub; [lia |].
    apply NumFacts.ceiling_least.
    apply Qle_shift_div_r; [exact Y |].
    rewrite <- inject_Z_mult, <- Zle_Qle. unfold N. lia. }
  rewrite (ofZ_exact CB).
  destruct (Z.eq_dec t 0) as [T0 | T0].
  - subst t. change (Qeq_bool (inject_Z 0) (inject_Z 0)) with true.
    cbv iota. f_equal. f_equal. rewrite Z.max_l; [reflexivity |].
    apply NumFacts.ceiling_least. change (inject_Z 0) with 0%Q.
    apply Qle_shift_div_r; [exact Y |].
    assert (inject_Z N <= inject_Z 0)%Q
      by (rewrite <- Zle_Qle; unfold N; lia).
    change (inject_Z 0) with 0%Q in *. lra.
  - rewrite Qeq_bool_false.
    2:{ change (inject_Z 0) with 0%Q. intro Z.
        assert (t = 0) by (unfold Qeq in Z; cbn in Z; lia). contradiction. }
    rewrite (@mul_Z 75 t), (@mul_Z a 100) by lia.
    rewrite sub_Z by lia. fold N.
    rewrite (@sub_Z 100 75) by lia.
    change (100 - 75 <? 0) with false.
    change (Z.abs (100 - 75)) with (100 - 75).
    apply max_ceil_quotient; [exact NB |].
    change (2 ^ 52) with 4503599627370496. lia.
Qed.

(** The theorem on a subject at 6 of 10 with the matching stored
    percentage: 6 more classes. *)
Lemma card_agrees_with_utils_witness :
  let subject := {| subject := "Mathematics"; attended := Some 6;
                    total := Some 10; percentage := 60;
                    status := "Critical" |} in
  Card.calculateClassesToAttend subject
  = UtilsDouble.calculateClassesNeeded (ofZ 6) (ofZ 10) (ofZ 75)
  /\ Card.calculateClassesToAttend subject = ofZ 6.
Proof.
  intro subject. split; [| vm_compute; reflexivity].
  apply (proj1 (@card_agrees_with_utils subject ltac:(cbn; lia)
                  ltac:(cbn; lia))).
  vm_compute. reflexivity.
Defined.

(** ** The two functions side by side *)

Lemma make_not_NaN (s : bool) (q : Q) : make s q <> NaN.
Proof.
  unfold make. destruct (Qeq_bool q 0); [discriminate |].
  cbv zeta. destruct (Qle_bool _ _); discriminate.
Qed.

(** The percentage of finite counts, the total not zero, compares with
    every finite target. *)
Lemma percentage_comparable (s s' s'' : bool) (m m' m'' : Q) :
  eqb (Finite s' m') (ofZ 0) = false ->
  compare (mul (div (Finite s m) (Finite s' m')) (ofZ 100))
    (Finite s'' m'') <> None.
Proof.
  intro T. change (ofZ 0) with (Finite false 0) in T.
  rewrite eqb_finite in T. change (val false 0) with 0%Q in T.
  assert (M : Qeq_bool m' 0 = false).
  { destruct (Qeq_bool m' 0) eqn:E; [| reflexivity].
    apply Qeq_bool_iff in E.
    assert (Z : (val s' m' == 0)%Q)
      by (destruct s'; cbn [val]; rewrite E; reflexivity).
    apply Qeq_bool_iff in Z. change (inject_Z 0) with 0%Q in T. congruence. }
  unfold div. rewrite M.
  pose proof (@make_not_NaN (xorb s s') (val s m / val s' m')) as N.
  destruct (make (xorb s s') (val s m / val s' m')) as [| a | a x];
    [contradiction | |].
  - change (ofZ 100) with (Finite false 100). cbn. destruct a; discriminate.
  - change (ofZ 100) with (Finite false 100). unfold mul.
    pose proof (@make_not_NaN (xorb a false) (val a x * val false 100)) as N'.
    destruct (make (xorb a false) (val a x * val false 100)) as [| b | b y];
      [contradiction | |]; cbn; [destruct b |]; discriminate.
Qed.

(** X29.  In binary64 as over exact numbers, a subject never both needs
    classes and has classes to spare: for finite arguments one of
    [calculateClassesNeeded] and [calculateClassesCanMiss] is 0. *)
Theorem needed_or_spare_in_binary64
    (currentAttended currentTotal targetPercentage : number) :
  isFinite currentAttended = true -> isFinite currentTotal = true ->
  isFinite targetPercentage = true ->
  UtilsDouble.calculateClassesNeeded currentAttended currentTotal
    targetPercentage = ofZ 0
  \/ UtilsDouble.calculateClassesCanMiss currentAttended currentTotal
       targetPercentage = ofZ 0.
Proof.
  intros Fa Ft Fp.
  destruct currentAttended as [| | s m]; try discriminate Fa.
  destruct currentTotal as [| | s' m']; try discriminate Ft.
  destruct targetPercentage as [| | s'' m'']; try discriminate Fp.
  unfold UtilsDouble.calculateClassesNeeded,
    UtilsDouble.calculateClassesCanMiss.
  destruct (eqb (Finite s' m') (ofZ 0)) eqn:T; [left; reflexivity |].
  pose proof (@percentage_comparable s s' s'' m m' m'' T) as C.
  unfold geb, ltb.
  destruct (compare _ (Finite s'' m'')) as [[| |] |];
    [left | right | left | contradiction]; reflexivity.
Qed.

(** The theorem at 60 attended of 100 with the target 62.5: 7 classes
    are needed, none can be missed. *)
Lemma needed_or_spare_in_binary64_witness :
  UtilsDouble.calculateClassesNeeded (ofZ 60) (ofZ 100) (ofQ 62.5) = ofZ 7
  /\ UtilsDouble.calculateClassesCanMiss (ofZ 60) (ofZ 100) (ofQ 62.5)
     = ofZ 0.
Proof.
  split; [vm_compute; reflexivity |].
  destruct (@needed_or_spare_in_binary64 (ofZ 60) (ofZ 100) (ofQ 62.5)
              eq_refl eq_refl eq_refl) as [N | S]; [| exact S].
  vm_compute in N. discriminate N.
Defined.

End UtilsDoubleFacts.

(* ================================================================== *)
(** * Facts about the scraped attendance list *)
(* ================================================================== *)

Module ScrapeFacts.

Import NumFacts.









Lemma rowStatus_cases (p : Q) :
  UPES.rowStatus p = "Good" \/ UPES.rowStatus p = "Warning"
  \/ UPES.rowStatus p = "Critical".
Proof.
  unfold UPES.rowStatus.
  destruct (Num.geb p 75); [left; reflexivity |].
  destruct (Num.geb p 65); [right; left | right; right]; reflexivity.
Qed.

(** Every scraped record is built by [rowRecord]. *)
Lemma attendanceInfo_rowRecord (d : Dashboard) (a : AttendanceRecord) :
  List.In a (UPES.attendanceInfo d) ->
  exists s c p, a = UPES.rowRecord s c p.
Proof.
  destruct d as [rows | ss cs ps]; cbn [UPES.attendanceInfo].
  - intro H. apply List.in_flat_map in H as (row & _ & H).
    unfold UPES.wrapperRow in H.
    destruct (UPES.textOf (subjectElement row)) as [s |]; [| contradiction].
    destruct (UPES.textOf (countElement row)) as [c |]; [| contradiction].
    destruct (UPES.textOf (percentageElement row)) as [p |];
      [| contradiction].
    destruct (Str.truthy s && Str.truthy c && Str.truthy p);
      [| contradiction].
    destruct H as [<- | []]. eauto.
  - destruct (Nat.eqb _ _ && Nat.eqb _ _); [| contradiction].
    revert cs ps. induction ss as [| s ss IH]; intros cs ps H;
      [contradiction |].
    destruct cs as [| c cs]; [contradiction |].
    destruct ps as [| p ps]; [contradiction |].
    cbn [UPES.zipRows] in H. destruct H as [<- | H]; [eauto |].
    exact (IH cs ps H).
Qed.

Lemma scraped_record_wellformed_aux (d : Dashboard) (a : AttendanceRecord) :
  List.In a (UPES.attendanceInfo d) ->
  status a = "Good" \/ status a = "Warning" \/ status a = "Critical".
Proof.
  intro H. destruct (attendanceInfo_rowRecord d a H) as (s & c & p & ->).
  apply rowStatus_cases.
Qed.






Lemma filter_by_label (l : list AttendanceRecord) (label : string) :
  String.eqb label "all" = false ->
  AttendanceUtils.filterAttendanceData l label
  = List.filter
      (fun subject =>
         String.eqb (Str.toLowerCase (status subject))
           (Str.toLowerCase label)) l.
Proof.
  intro H. unfold AttendanceUtils.filterAttendanceData. rewrite H.
  reflexivity.
Qed.

Lemma filter_length_by_status (l : list AttendanceRecord) :
  (forall a, List.In a l ->
             status a = "Good" \/ status a = "Warning"
             \/ status a = "Critical") ->
  AttendanceUtils.filterAttendanceData l "safe" = []
  /\ (List.length (AttendanceUtils.filterAttendanceData l "good")
      + List.length (AttendanceUtils.filterAttendanceData l "warning")
      + List.length (AttendanceUtils.filterAttendanceData l "critical")
      = List.length l)%nat.
Proof.
  rewrite !filter_by_label by reflexivity.
  induction l as [| a l IH]; intro H; [split; reflexivity |].
  destruct (IH (fun x Hx => H x (or_intror Hx))) as [IH1 IH2].
  cbn [List.filter]. rewrite IH1.
  destruct (H a (or_introl eq_refl)) as [E | [E | E]]; rewrite E;
    (split; [reflexivity |]);
    repeat match goal with
      | |- context [String.eqb (Str.toLowerCase ?x) (Str.toLowerCase ?y)] =>
          let b := eval vm_compute in
                     (String.eqb (Str.toLowerCase x) (Str.toLowerCase y)) in
          change (String.eqb (Str.toLowerCase x) (Str.toLowerCase y)) with b
      end;
    cbn [List.length]; lia.
Qed.

(** X9.  On a list scraped by [UPESScrapingService] the filter 'safe' of
    [filterAttendanceData] selects nothing, because the scraper labels
    that bucket "Good"; the filters 'good', 'warning' and 'critical'
    split the list. *)
Theorem filter_on_scraped_list (d : Dashboard) :
  let l := UPES.attendanceInfo d in
  AttendanceUtils.filterAttendanceData l "safe" = []
  /\ (List.length (AttendanceUtils.filterAttendanceData l "good")
      + List.length (AttendanceUtils.filterAttendanceData l "warning")
      + List.length (AttendanceUtils.filterAttendanceData l "critical")
      = List.length l)%nat
  /\ AttendanceUtils.filterAttendanceData l "all" = l.
Proof.
  cbv zeta.
  destruct (@filter_length_by_status (UPES.attendanceInfo d)) as [S P].
  { intros a H. apply (scraped_record_wellformed_aux d a H). }
  split; [exact S | split; [exact P | reflexivity]].
Qed.

End ScrapeFacts.

(* ================================================================== *)
(** * More facts about summaries, filters and sorting *)
(* ================================================================== *)

Module SummaryMoreFacts.

Import NumFacts.

(** X10.  The summary of [fetchAttendanceReport] counts every record at
    least once and at most twice: the three buckets add up to no less
    than [totalSubjects] and to no more than twice that. *)
Theorem upes_summary_counts_once_or_twice
    (attendanceData : list AttendanceRecord) :
  let s := UPES.summarize attendanceData in
  totalSubjects s
  <= safeSubjects s + warningSubjects s + criticalSubjects s
  <= 2 * totalSubjects s.
Proof.
  cbv zeta. unfold UPES.summarize.
  cbn [safeSubjects warningSubjects criticalSubjects totalSubjects].
  induction attendanceData as [| a rest IH]; [cbn; lia |].
  rewrite !SummaryFacts.countIf_cons.
  cbn [List.length]. rewrite Nat2Z.inj_succ.
  destruct (SummaryFacts.buckets_exclusive (percentage a)) as [E | [E | E]];
    injection E as E1 E2 E3; rewrite E1, E2, E3;
    destruct (String.eqb_spec (status a) "Good") as [G | G];
    destruct (String.eqb_spec (status a) "Warning") as [W | W];
    destruct (String.eqb_spec (status a) "Critical") as [C | C];
    try (rewrite G in W; discriminate W);
    try (rewrite G in C; discriminate C);
    try (rewrite W in C; discriminate C);
    cbn [orb]; lia.
Qed.

Lemma insertSorted_perm (order : string) (x : AttendanceRecord)
    (l : list AttendanceRecord) :
  Permutation (AttendanceUtils.insertSorted order x l) (x :: l).
Proof.
  induction l as [| y rest IH]; [apply Permutation_refl |].
  cbn [AttendanceUtils.insertSorted].
  destruct (Qle_bool _ 0); [apply Permutation_refl |].
  eapply Permutation_trans; [apply perm_skip, IH | apply perm_swap].
Qed.

(** The order that the comparator stands for. *)
Lemma comparePercentage_le (order : string) (a b : AttendanceRecord) :
  Qle_bool (AttendanceUtils.comparePercentage order a b) 0 = true
  <-> if String.eqb order "desc"
      then (percentage b <= percentage a)%Q
      else (percentage a <= percentage b)%Q.
Proof.
  unfold AttendanceUtils.comparePercentage. rewrite Qle_bool_iff.
  destruct (String.eqb order "desc"); split; intro H; lra.
Qed.

Lemma insertSorted_sorted (order : string) (x : AttendanceRecord)
    (l : list AttendanceRecord) :
  let before a b :=
    Qle_bool (AttendanceUtils.comparePercentage order a b) 0 = true in
  StronglySorted before l ->
  StronglySorted before (AttendanceUtils.insertSorted order x l).
Proof.
  cbv zeta. intro S. induction S as [| y rest S IH All].
  - constructor; constructor.
  - cbn [AttendanceUtils.insertSorted].
    destruct (Qle_bool (AttendanceUtils.comparePercentage order x y) 0) eqn:E.
    + constructor; [constructor; assumption |].
      constructor; [exact E |].
      rewrite List.Forall_forall in *. intros z Hz.
      specialize (All z Hz).
      rewrite comparePercentage_le in *.
      destruct (String.eqb order "desc"); lra.
    + constructor; [exact IH |].
      rewrite List.Forall_forall in *. intros z Hz.
      apply (Permutation_in _ (insertSorted_perm order x rest)) in Hz.
      destruct Hz as [<- | Hz]; [| exact (All z Hz)].
      rewrite comparePercentage_le.
      assert (N : ~ Qle_bool (AttendanceUtils.comparePercentage order x y) 0
                    = true) by congruence.
      rewrite comparePercentage_le in N.
      destruct (String.eqb order "desc"); apply Qlt_le_weak, Qnot_le_lt, N.
Qed.

(** X11.  [sortAttendanceData] by 'percentage' returns a rearrangement
    of the list in which the percentages never decrease, or never
    increase for the order 'desc'. *)
Theorem sortAttendanceData_sorted
    (attendance : list AttendanceRecord) (order : string) :
  let sorted :=
    AttendanceUtils.sortAttendanceDataByPercentage attendance order in
  Permutation sorted attendance
  /\ StronglySorted
       (fun a b =>
          if String.eqb order "desc"
          then (percentage b <= percentage a)%Q
          else (percentage a <= percentage b)%Q)
       sorted.
Proof.
  cbv zeta. unfold AttendanceUtils.sortAttendanceDataByPercentage. split.
  - induction attendance as [| x rest IH]; [apply Permutation_refl |].
    cbn [List.fold_right].
    eapply Permutation_trans; [apply insertSorted_perm |].
    apply perm_skip, IH.
  - assert (S : StronglySorted
                  (fun a b =>
                     Qle_bool (AttendanceUtils.comparePercentage order a b) 0
                     = true)
                  (List.fold_right (AttendanceUtils.insertSorted order) []
                     attendance)).
    { induction attendance as [| x rest IH]; [constructor |].
      cbn [List.fold_right]. apply insertSorted_sorted, IH. }
    revert S. generalize (List.fold_right
                            (AttendanceUtils.insertSorted order) []
                            attendance).
    intros l S. induction S as [| y rest S IH All]; constructor.
    + exact IH.
    + rewrite List.Forall_forall in *. intros z Hz.
      apply comparePercentage_le, (All z Hz).
Qed.

End SummaryMoreFacts.

(* ================================================================== *)
(** * Facts about what the scraping workflow throws *)
(* ================================================================== *)

Module ErrorFacts.

Import Eff.

Lemma throwsOnly_weaken {A} (ok ok' : string -> Prop) (m : M Service A) :
  (forall message, ok message -> ok' message) ->
  throwsOnly ok m -> throwsOnly ok' m.
Proof. intros W H s message E. apply W, (H s message E). Qed.

Lemma throwsOnly_bind {A B} (ok : string -> Prop)
    (m : M Service A) (k : A -> M Service B) :
  throwsOnly ok m -> (forall a, throwsOnly ok (k a)) ->
  throwsOnly ok (bind m k).
Proof.
  intros Hm Hk s message. unfold bind. specialize (Hm s).
  destruct (m s) as [[a | msg] s1]; cbn [fst] in *.
  - apply Hk.
  - intro E. injection E as <-. apply Hm. reflexivity.
Qed.

(** A [catch] that rethrows a wrapped message lets nothing else out. *)
Lemma tryCatch_wraps {A} (body : M Service A) (wrap : string -> string) :
  throwsOnly (fun message => exists inner, message = wrap inner)
    (tryCatch body (fun inner => throw (wrap inner))).
Proof.
  intros s message. unfold tryCatch, throw.
  destruct (body s) as [[a | inner] s1]; cbn [fst]; [discriminate |].
  intro E. injection E as <-. eauto.
Qed.

(** A [catch] that returns a value lets nothing out. *)
Lemma tryCatch_recovers {A} (body : M Service A) (a : A) :
  throwsOnly (fun _ => False) (tryCatch body (fun _ => ret a)).
Proof.
  intros s message. unfold tryCatch, ret.
  destruct (body s) as [[x | inner] s1]; discriminate.
Qed.

Lemma tryCatch_rethrows {A} (ok : string -> Prop) (body : M Service A) :
  throwsOnly ok body -> throwsOnly ok (tryCatch body (fun e => throw e)).
Proof.
  intros H s message. unfold tryCatch, throw. specialize (H s).
  destruct (body s) as [[x | inner] s1]; cbn [fst] in *; [discriminate |].
  exact (H message).
Qed.

Lemma initBrowser_throws (P : Portal) :
  throwsOnly (fun message => message = "Browser initialization failed")
    (UPES.initBrowser P).
Proof.
  unfold UPES.initBrowser.
  eapply throwsOnly_weaken;
    [| apply (tryCatch_wraps _ (fun _ => "Browser initialization failed"))].
  intros message [inner E]. exact E.
Qed.

Lemma login_throws (P : Portal) (u pw : string) :
  throwsOnly (fun message => exists inner, message = "Login failed: " ++ inner)
    (UPES.login P u pw).
Proof.
  unfold UPES.login.
  apply (tryCatch_wraps _ (fun inner => "Login failed: " ++ inner)).
Qed.

Lemma scrapeAttendanceData_throws (P : Portal) :
  throwsOnly
    (fun message =>
       exists inner, message = "Failed to scrape attendance data: " ++ inner)
    (UPES.scrapeAttendanceData P).
Proof.
  unfold UPES.scrapeAttendanceData.
  apply (tryCatch_wraps _
           (fun inner => "Failed to scrape attendance data: " ++ inner)).
Qed.

Lemma getStudentProfile_throws (P : Portal) :
  throwsOnly (fun _ => False) (UPES.getStudentProfile P).
Proof. unfold UPES.getStudentProfile. apply tryCatch_recovers. Qed.

(** X12.  Whatever goes wrong in the browser or on the portal,
    [fetchAttendanceReport] throws one of three kinds of message:
    "Browser initialization failed", "Login failed: ..." or
    "Failed to scrape attendance data: ...".  Scraping the profile and
    cleaning up never make it throw. *)
Theorem fetchAttendanceReport_messages
    (P : Portal) (userId password : string) (s : Service) (message : string) :
  fst (UPES.fetchAttendanceReport P userId password s) = Throw message ->
  message = "Browser initialization failed"
  \/ (exists inner, message = "Login failed: " ++ inner)
  \/ (exists inner,
        message = "Failed to scrape attendance data: " ++ inner).
Proof.
  unfold UPES.fetchAttendanceReport.
  rewrite ServiceFacts.finally_keeps_outcome.
  revert s message.
  change (throwsOnly
            (fun message =>
               message = "Browser initialization failed"
               \/ (exists inner, message = "Login failed: " ++ inner)
               \/ (exists inner,
                     message = "Failed to scrape attendance data: " ++ inner))
            (tryCatch
               (bind (UPES.initBrowser P) (fun _ =>
                bind (UPES.login P userId password) (fun _ =>
                bind (UPES.scrapeAttendanceData P) (fun attendanceData =>
                bind (UPES.getStudentProfile P) (fun profile =>
                ret {| success := true; timestamp := now P;
                       student := profile; attendance := attendanceData;
                       summary := UPES.summarize attendanceData |})))))
               (fun error => throw error))).
  apply tryCatch_rethrows.
  apply throwsOnly_bind;
    [eapply throwsOnly_weaken; [| apply initBrowser_throws]; tauto |].
  intros _. apply throwsOnly_bind;
    [eapply throwsOnly_weaken; [| apply login_throws]; tauto |].
  intros _. apply throwsOnly_bind;
    [eapply throwsOnly_weaken; [| apply scrapeAttendanceData_throws]; tauto |].
  intro attendanceData. apply throwsOnly_bind;
    [eapply throwsOnly_weaken; [| apply getStudentProfile_throws];
     contradiction |].
  intros profile st message E. discriminate E.
Qed.

(** The theorem on a login whose navigation times out. *)
Lemma fetchAttendanceReport_messages_witness :
  "Login failed: Navigation timeout of 30000 ms exceeded"
  = "Browser initialization failed"
  \/ (exists inner,
        "Login failed: Navigation timeout of 30000 ms exceeded"
        = "Login failed: " ++ inner)
  \/ (exists inner,
        "Login failed: Navigation timeout of 30000 ms exceeded"
        = "Failed to scrape attendance data: " ++ inner).
Proof.
  apply (@fetchAttendanceReport_messages Examples.slowLogin
           "590012345" "secret" UPES.construct).
  reflexivity.
Defined.

End ErrorFacts.

(* ================================================================== *)
(** * Facts about the phases of a fetch and the answers to them *)
(* ================================================================== *)

Module PhaseFacts.

Import Eff.

Lemma fetch_when_init_fails
    (P : Portal) (u pw : string) (s : Service) (m : string) :
  fst (UPES.initBrowser P s) = Throw m ->
  fst (UPES.fetchAttendanceReport P u pw s)
  = Throw "Browser initialization failed".
Proof.
  intro E. pose proof (@ErrorFacts.initBrowser_throws P s m E) as M.
  cbv beta in M. subst m.
  unfold UPES.fetchAttendanceReport.
  rewrite ServiceFacts.finally_keeps_outcome.
  unfold tryCatch at 1. unfold bind at 1.
  destruct (UPES.initBrowser P s) as [[[] | m] s1]; cbn [fst] in E;
    [discriminate E |].
  injection E as ->. reflexivity.
Qed.

Lemma fetch_when_login_fails
    (P : Portal) (u pw : string) (s s1 : Service) (m : string) :
  UPES.initBrowser P s = (Ok tt, s1) ->
  fst (UPES.login P u pw s1) = Throw m ->
  fst (UPES.fetchAttendanceReport P u pw s) = Throw m.
Proof.
  intros I L.
  unfold UPES.fetchAttendanceReport.
  rewrite ServiceFacts.finally_keeps_outcome.
  unfold tryCatch at 1. unfold bind at 1. rewrite I.
  unfold bind at 1.
  destruct (UPES.login P u pw s1) as [[b | m'] s2]; cbn [fst] in L;
    [discriminate L |].
  injection L as ->. reflexivity.
Qed.

(** X13.  When the browser cannot be started, the version 1.0 route
    answers an admitted request with 503 and the code
    SERVICE_UNAVAILABLE, whatever the reason was. *)
Theorem v1_browser_failure_is_503
    (P : Portal) (R : Runtime) (req : FetchRequest) (reason : string) :
  Shape.admitted req = true ->
  fst (UPES.initBrowser P UPES.construct) = Throw reason ->
  let response := fst (RouteV1.fetch P R req) in
  statusCode response = 503
  /\ Json.get "code" (body response) = Some (JStr "SERVICE_UNAVAILABLE").
Proof.
  intros A E. cbv zeta.
  rewrite (RouteFacts.v1_fetch_admitted P R req A).
  rewrite (@fetch_when_init_fails P _ _ _ _ E).
  split; reflexivity.
Qed.

(** The theorem on a browser that starts and cannot open a page. *)
Lemma v1_browser_failure_is_503_witness :
  statusCode (fst (RouteV1.fetch noPagePortal Examples.runtime
                     Examples.request)) = 503
  /\ Json.get "code"
       (body (fst (RouteV1.fetch noPagePortal Examples.runtime
                     Examples.request)))
     = Some (JStr "SERVICE_UNAVAILABLE").
Proof.
  apply (@v1_browser_failure_is_503 noPagePortal Examples.runtime
           Examples.request "Browser initialization failed");
    reflexivity.
Defined.

(** X14.  When the browser starts and [login] throws, for whatever
    reason (a missing form field, a navigation timeout, a rate-limiting
    banner, a rejected password), the version 1.0 route answers 401 with
    the code INVALID_CREDENTIALS. *)
Theorem v1_login_failure_is_401
    (P : Portal) (R : Runtime) (req : FetchRequest)
    (started : Service) (reason : string) :
  Shape.admitted req = true ->
  UPES.initBrowser P UPES.construct = (Ok tt, started) ->
  fst (UPES.login P (userUserId req)
         (Validator.toString (bodyPassword req)) started) = Throw reason ->
  let response := fst (RouteV1.fetch P R req) in
  statusCode response = 401
  /\ Json.get "code" (body response) = Some (JStr "INVALID_CREDENTIALS").
Proof.
  intros A I L. cbv zeta.
  rewrite (RouteFacts.v1_fetch_admitted P R req A).
  rewrite (@fetch_when_login_fails P _ _ _ _ _ I L).
  destruct (@ErrorFacts.login_throws P _ _ _ _ L) as [inner ->].
  split; reflexivity.
Qed.

(** The theorem on a login that the portal answers with a rate-limiting
    banner. *)
Lemma v1_login_failure_is_401_witness :
  fst (UPES.login Examples.rateLimited (userUserId Examples.request)
         (Validator.toString (bodyPassword Examples.request))
         (snd (UPES.initBrowser Examples.rateLimited UPES.construct)))
  = Throw "Login failed: RATE_LIMITED: Too many login attempts"
  /\ statusCode (fst (RouteV1.fetch Examples.rateLimited Examples.runtime
                        Examples.request)) = 401.
Proof.
  split; [reflexivity |].
  apply (@v1_login_failure_is_401 Examples.rateLimited Examples.runtime
           Examples.request
           (snd (UPES.initBrowser Examples.rateLimited UPES.construct))
           "Login failed: RATE_LIMITED: Too many login attempts");
    reflexivity.
Defined.

(** X15.  The version 3.0 route answers 200 to every admitted request
    and 400 to every other one: it has no other status. *)
Theorem v3_status_is_200_or_400
    (P : Portal) (R : Runtime) (fallbackPhoto : string) (req : FetchRequest) :
  statusCode (fst (RouteV3.fetch P R fallbackPhoto req))
  = if Shape.admitted req then 200 else 400.
Proof.
  destruct (Shape.admitted req) eqn:A.
  - rewrite (RouteFacts.v3_fetch_admitted P R fallbackPhoto req A).
    destruct (fst (UPES.fetchAttendanceReport _ _ _ _)) as [r | m].
    + reflexivity.
    + apply RouteFacts.v3_onError_response.
  - apply (RouteFacts.fetch_not_admitted req A P R fallbackPhoto).
Qed.

(** X16.  The version 1.0 route answers 200 exactly when the request is
    admitted and [fetchAttendanceReport] returns a report. *)
Theorem v1_status_200_iff
    (P : Portal) (R : Runtime) (req : FetchRequest) :
  statusCode (fst (RouteV1.fetch P R req)) = 200
  <-> Shape.admitted req = true
      /\ exists r,
           fst (UPES.fetchAttendanceReport P (userUserId req)
                  (Validator.toString (bodyPassword req)) UPES.construct)
           = Ok r.
Proof.
  split.
  - intro S. destruct (Shape.admitted req) eqn:A.
    + split; [reflexivity |].
      rewrite (RouteFacts.v1_fetch_admitted P R req A) in S.
      destruct (fst (UPES.fetchAttendanceReport _ _ _ _)) as [r | m];
        [eauto |].
      exfalso. rewrite (proj1 (RouteFacts.v1_onError_status R m)) in S.
      exact (RouteFacts.v1_classify_not_200 m S).
    + exfalso.
      rewrite (proj1 (RouteFacts.fetch_not_admitted req A P R "")) in S.
      discriminate S.
  - intros [A [r E]]. rewrite (RouteFacts.v1_fetch_admitted P R req A), E.
    reflexivity.
Qed.

(** The theorem, from right to left, on a request during which every
    call succeeds. *)
Lemma v1_status_200_iff_witness :
  statusCode (fst (RouteV1.fetch (Examples.smooth Examples.twoSubjects)
                     Examples.runtime Examples.request)) = 200.
Proof.
  apply (proj2 (v1_status_200_iff (Examples.smooth Examples.twoSubjects)
                  Examples.runtime Examples.request)).
  split; [reflexivity |].
  eexists. vm_compute. reflexivity.
Defined.

End PhaseFacts.

(* ================================================================== *)
(** * Facts about the profile, the handlers' cleanup and the health check *)
(* ================================================================== *)

Module TeardownFacts.

Import Eff.

(** [getStudentProfile] always returns, leaves the service as it is, and
    returns the default profile when scraping the page throws. *)
Lemma getStudentProfile_returns (P : Portal) (s : Service) :
  exists p,
    UPES.getStudentProfile P s = (Ok p, s)
    /\ (forall e, profileOnPage P = Throw e -> p = UPES.defaultProfile).
Proof.
  unfold UPES.getStudentProfile, tryCatch, bind, get, await, throw, ret.
  destruct (page s) as [h |].
  - destruct (profileOnPage P) as [p | e] eqn:E; eexists;
      (split; [reflexivity |]); intros e' H;
      [discriminate H | reflexivity].
  - eexists. split; [reflexivity |]. reflexivity.
Qed.

(** The outcome of [fetchAttendanceReport], phase by phase. *)
Lemma fetch_outcome (P : Portal) (u pw : string) (s : Service) :
  fst (UPES.fetchAttendanceReport P u pw s)
  = match UPES.initBrowser P s with
    | (Throw m, _) => Throw m
    | (Ok _, s1) =>
        match UPES.login P u pw s1 with
        | (Throw m, _) => Throw m
        | (Ok _, s2) =>
            match UPES.scrapeAttendanceData P s2 with
            | (Throw m, _) => Throw m
            | (Ok attendanceData, s3) =>
                match fst (UPES.getStudentProfile P s3) with
                | Throw m => Throw m
                | Ok profile =>
                    Ok {| success := true; timestamp := now P;
                          student := profile;
                          attendance := attendanceData;
                          summary := UPES.summarize attendanceData |}
                end
            end
        end
    end.
Proof.
  unfold UPES.fetchAttendanceReport.
  rewrite ServiceFacts.finally_keeps_outcome.
  unfold tryCatch at 1. unfold bind at 1.
  destruct (UPES.initBrowser P s) as [[[] | m] s1]; [| reflexivity].
  unfold bind at 1.
  destruct (UPES.login P u pw s1) as [[b | m] s2]; [| reflexivity].
  unfold bind at 1.
  destruct (UPES.scrapeAttendanceData P s2) as [[data | m] s3];
    [| reflexivity].
  unfold bind at 1.
  destruct (UPES.getStudentProfile P s3) as [[p | m] s4]; reflexivity.
Qed.

(** X17.  Scraping the profile cannot fail a fetch or change its
    figures: with any other outcome of the profile scrape the call
    throws the same message or returns a report with the same
    attendance list, summary and timestamp; when the profile scrape
    throws, the report carries the default profile. *)
Theorem report_independent_of_profile
    (P : Portal) (r : result Profile) (userId password : string)
    (s : Service) :
  match fst (UPES.fetchAttendanceReport P userId password s),
        fst (UPES.fetchAttendanceReport (withProfile r P) userId password s)
  with
  | Ok a, Ok b =>
      attendance a = attendance b /\ summary a = summary b
      /\ timestamp a = timestamp b
      /\ (forall e, r = Throw e -> student b = UPES.defaultProfile)
  | Throw m, Throw m' => m = m'
  | _, _ => False
  end.
Proof.
  rewrite !fetch_outcome.
  change (UPES.initBrowser (withProfile r P)) with (UPES.initBrowser P).
  change (UPES.login (withProfile r P)) with (UPES.login P).
  change (UPES.scrapeAttendanceData (withProfile r P))
    with (UPES.scrapeAttendanceData P).
  change (now (withProfile r P)) with (now P).
  destruct (UPES.initBrowser P s) as [[[] | m] s1]; [| reflexivity].
  destruct (UPES.login P userId password s1) as [[b | m] s2]; [| reflexivity].
  destruct (UPES.scrapeAttendanceData P s2) as [[data | m] s3];
    [| reflexivity].
  destruct (getStudentProfile_returns P s3) as (p1 & E1 & _).
  destruct (getStudentProfile_returns (withProfile r P) s3) as (p2 & E2 & D).
  rewrite E1, E2. cbn [fst attendance summary timestamp student].
  repeat split. exact D.
Qed.

(** The theorem on a request during which every call succeeds except
    the profile scrape: the report carries the default profile. *)
Lemma report_independent_of_profile_witness :
  exists b,
    fst (UPES.fetchAttendanceReport
           (withProfile (Throw "Execution context was destroyed")
              (Examples.smooth Examples.twoSubjects))
           "590012345" "secret" UPES.construct) = Ok b
    /\ student b = UPES.defaultProfile.
Proof.
  pose proof (report_independent_of_profile
                (Examples.smooth Examples.twoSubjects)
                (Throw "Execution context was destroyed")
                "590012345" "secret" UPES.construct) as H.
  destruct (fst (UPES.fetchAttendanceReport
                   (withProfile _ _) _ _ _)) as [b | m].
  - exists b. split; [reflexivity |].
    destruct (fst (UPES.fetchAttendanceReport _ _ _ _)) as [a | m];
      [| contradiction H].
    exact (proj2 (proj2 (proj2 H)) _ eq_refl).
  - exfalso. revert H. vm_compute. exact (fun F => F).
Defined.

(** How often [fetchAttendanceReport] enters [cleanup], and what that
    leaves. *)
Lemma fetch_then_cleanup (P : Portal) (u pw : string) (s : Service) :
  cleanups (snd (UPES.fetchAttendanceReport P u pw s)) = S (cleanups s).
Proof.
  unfold UPES.fetchAttendanceReport, tryFinally.
  match goal with
  | |- context [tryCatch ?b ?h s] =>
      pose proof (@ServiceFacts.quiet_workflow P u pw
                    (fun attendanceData profile =>
                       {| success := true; timestamp := now P;
                          student := profile;
                          attendance := attendanceData;
                          summary := UPES.summarize attendanceData |}) s)
        as Q;
      destruct (tryCatch b h s) as [r s1]
  end.
  cbn [snd] in Q.
  destruct (ServiceFacts.cleanup_spec P s1) as (s2 & E & C & _).
  rewrite E. cbn [snd]. congruence.
Qed.

(** X18.  The version 1.0 route constructs a scraping service only for
    an admitted request.  It then enters [cleanup] twice, once in the
    service's own [finally] and once in the handler's, and when
    [page.close()] and [browser.close()] do not throw the service is
    left with no browser and no page. *)
Theorem v1_fetch_leaves_service
    (P : Portal) (R : Runtime) (req : FetchRequest) :
  (Shape.admitted req = false -> snd (RouteV1.fetch P R req) = None)
  /\ (Shape.admitted req = true ->
      exists s,
        snd (RouteV1.fetch P R req) = Some s
        /\ cleanups s = 2%nat
        /\ (pageClose P = Ok tt -> browserClose P = Ok tt ->
            browser s = None /\ page s = None)).
Proof.
  split; intro A.
  - unfold RouteV1.fetch.
    destruct (Validator.validateAttendanceInput (bodyPassword req));
      [| reflexivity].
    unfold Shape.admitted in A. apply andb_false_iff in A.
    assert (E : negb (Str.truthy (Validator.toString (bodyPassword req)))
                || negb (Str.truthy (userUserId req)) = true).
    { destruct A as [-> | ->]; [reflexivity | apply orb_true_r]. }
    rewrite E. reflexivity.
  - destruct (RouteFacts.validateAttendanceInput_admitted _ A)
      as (V & Hp & Hu).
    unfold RouteV1.fetch. rewrite V, Hp, Hu. cbn [negb orb].
    unfold RouteV1.attempt, tryFinally.
    pose proof (fetch_then_cleanup P (userUserId req)
                  (Validator.toString (bodyPassword req)) UPES.construct)
      as C1.
    unfold tryCatch at 1. unfold bind at 1.
    destruct (UPES.fetchAttendanceReport P (userUserId req)
                (Validator.toString (bodyPassword req)) UPES.construct)
      as [[r | m] s1]; cbn [snd] in C1;
      unfold ret; unfold tryCatch;
      destruct (ServiceFacts.cleanup_spec P s1) as (s2 & E & C2 & T);
      rewrite E; eexists; (split; [reflexivity |]);
      (split; [rewrite C2, C1; reflexivity | exact T]).
Qed.

(** The theorem on a request without a password and on a request during
    which every call succeeds. *)
Lemma v1_fetch_leaves_service_witness :
  snd (RouteV1.fetch (Examples.smooth Examples.twoSubjects) Examples.runtime
         {| bodyPassword := None; userUserId := "590012345";
            userEmail := None |}) = None
  /\ exists s,
       snd (RouteV1.fetch (Examples.smooth Examples.twoSubjects)
              Examples.runtime Examples.request) = Some s
       /\ cleanups s = 2%nat
       /\ browser s = None /\ page s = None.
Proof.
  split.
  - apply (proj1 (v1_fetch_leaves_service
                    (Examples.smooth Examples.twoSubjects) Examples.runtime
                    {| bodyPassword := None; userUserId := "590012345";
                       userEmail := None |})).
    reflexivity.
  - destruct (proj2 (v1_fetch_leaves_service
                       (Examples.smooth Examples.twoSubjects)
                       Examples.runtime Examples.request) eq_refl)
      as (s & E & C & T).
    exists s. split; [exact E |]. split; [exact C |].
    apply T; reflexivity.
Defined.

(** X19.  The health check [GET /api/attendance/status] answers 200
    when the browser starts, after one [cleanup].  When starting the
    browser throws it answers 503 with the message
    "Browser initialization failed" and never enters [cleanup]: the
    service is left as [initBrowser] left it, with the browser still
    set when the failure came after the launch. *)
Theorem status_route_outcome (P : Portal) (R : Runtime) :
  (forall started,
     UPES.initBrowser P UPES.construct = (Ok tt, started) ->
     exists s,
       StatusRoute.status P R = (Ok (StatusRoute.operational R), s)
       /\ cleanups s = 1%nat
       /\ (pageClose P = Ok tt -> browserClose P = Ok tt ->
           browser s = None /\ page s = None))
  /\ (forall reason left,
        UPES.initBrowser P UPES.construct = (Throw reason, left) ->
        StatusRoute.status P R
        = (Ok (StatusRoute.unavailable R "Browser initialization failed"),
           left)
        /\ cleanups left = 0%nat).
Proof.
  split.
  - intros started I.
    unfold StatusRoute.status, StatusRoute.attempt.
    unfold tryCatch at 1. unfold bind at 1. rewrite I. unfold bind at 1.
    pose proof (ServiceFacts.quiet_initBrowser P UPES.construct) as Q.
    rewrite I in Q. cbn [snd] in Q.
    destruct (ServiceFacts.cleanup_spec P started) as (s2 & E & C & T).
    rewrite E. eexists. split; [reflexivity |].
    split; [rewrite C, Q; reflexivity | exact T].
  - intros reason left I.
    pose proof (ServiceFacts.quiet_initBrowser P UPES.construct) as Q.
    pose proof (@ErrorFacts.initBrowser_throws P UPES.construct reason) as M.
    rewrite I in Q, M. cbn [fst snd] in Q, M. specialize (M eq_refl).
    subst reason.
    unfold StatusRoute.status, StatusRoute.attempt.
    unfold tryCatch at 1. unfold bind at 1. rewrite I.
    split; [reflexivity | exact Q].
Qed.

(** The theorem on a browser that starts and cannot open a page: the
    answer is 503 and the browser handle stays set. *)
Lemma status_route_outcome_witness :
  exists left,
    StatusRoute.status noPagePortal Examples.runtime
    = (Ok (StatusRoute.unavailable Examples.runtime
             "Browser initialization failed"), left)
    /\ cleanups left = 0%nat
    /\ browser left = Some (Handle 1).
Proof.
  destruct (proj2 (status_route_outcome noPagePortal Examples.runtime)
              "Browser initialization failed"
              (snd (UPES.initBrowser noPagePortal UPES.construct))
              eq_refl) as [E C].
  eexists. split; [exact E |]. split; [exact C | reflexivity].
Defined.

End TeardownFacts.

(* ================================================================== *)
(** * More facts about [POST /api/auth/login] *)
(* ================================================================== *)

Module AuthMoreFacts.

Lemma lowerChar_canonical (c : ascii) :
  Validator.userIdChar c = true -> Ids.canonicalChar (Str.lowerChar c) = true.
Proof.
  destruct c as [[] [] [] [] [] [] [] []]; vm_compute; intro; congruence.
Qed.

Lemma toLowerCase_canonical (s : string) :
  Str.allChars Validator.userIdChar s = true ->
  Str.allChars Ids.canonicalChar (Str.toLowerCase s) = true.
Proof.
  induction s as [| c rest IH]; [reflexivity |].
  cbn [Str.allChars Str.toLowerCase Str.mapChars]. intro H.
  apply andb_true_iff in H as [Hc Hr].
  rewrite (lowerChar_canonical _ Hc). exact (IH Hr).
Qed.

Lemma toLowerCase_length (s : string) :
  String.length (Str.toLowerCase s) = String.length s.
Proof.
  induction s as [| c rest IH]; [reflexivity |].
  cbn [Str.toLowerCase Str.mapChars String.length]. f_equal. exact IH.
Qed.

Section Login.

Variable generateToken : Auth.Payload -> result string.
Variable R : Runtime.

(** What a 200 answer of the handler tells about the request. *)
Lemma login_200_inv (bodyUserId bodyPassword : option string) :
  statusCode (Auth.login generateToken R bodyUserId bodyPassword) = 200 ->
  let userId := Str.trim (Validator.toString bodyUserId) in
  Shape.validUserId userId = true
  /\ Shape.hasVisibleChar (Validator.toString bodyPassword) = true
  /\ exists token,
       generateToken (Auth.payloadFor R (Str.toLowerCase userId)) = Ok token
       /\ Auth.login generateToken R bodyUserId bodyPassword
          = {| statusCode := 200;
               body := JObj [("success", JBool true);
                             ("message", JStr "Login credentials validated");
                             ("token", JStr token);
                             ("user",
                              JObj [("userId", JStr (Str.toLowerCase userId));
                                    ("loginTime", JStr (toISOString R))])] |}.
Proof.
  cbv zeta. unfold Auth.login, Validator.validateLoginInput, Validator.check.
  set (u0 := Validator.toString bodyUserId).
  set (u1 := Str.trim u0).
  set (p := Validator.toString bodyPassword).
  destruct (Validator.notEmpty u0); [| discriminate].
  destruct (Validator.isLength 1 (Some 50%nat) u1) eqn:Len; [| discriminate].
  destruct (Validator.matchesUserId u1) eqn:Mat; [| discriminate].
  destruct (Validator.notEmpty p); [| discriminate].
  destruct (Validator.isLength 1 None p); [| discriminate].
  cbn [app].
  unfold Validator.matchesUserId in Mat.
  apply andb_true_iff in Mat as [Ne Chars].
  rewrite (AuthFacts.trim_userId _ Chars).
  rewrite AuthFacts.toLowerCase_truthy, Ne, AuthFacts.trim_truthy.
  cbn [negb orb].
  destruct (Shape.hasVisibleChar p) eqn:Vis; cbn [negb]; [| discriminate].
  destruct (generateToken (Auth.payloadFor R (Str.toLowerCase u1)))
    as [token | e] eqn:G; [| discriminate].
  intros _. split; [| split; [reflexivity | eauto]].
  unfold Shape.validUserId, Validator.isLength in *.
  rewrite Len, Chars. reflexivity.
Qed.

(** X20.  The handler of [POST /api/auth/login], [validateLoginInput]
    with the function behind it, which a request reaches once the rate
    limiters in front of it have let it through, answers 200, 400 or
    500 and nothing else, and it answers 200 only when the trimmed
    [userId] is 1 to 50 characters from [[a-zA-Z0-9._@-]] and the
    password has a character that is not white space. *)
Theorem login_status (bodyUserId bodyPassword : option string) :
  let status :=
    statusCode (Auth.login generateToken R bodyUserId bodyPassword) in
  (status = 200 \/ status = 400 \/ status = 500)
  /\ (status = 200 ->
      Shape.validUserId (Str.trim (Validator.toString bodyUserId)) = true
      /\ Shape.hasVisibleChar (Validator.toString bodyPassword) = true).
Proof.
  cbv zeta. split.
  - unfold Auth.login.
    destruct (Validator.validateLoginInput bodyUserId bodyPassword)
      as [errors userId].
    destruct errors; [| right; left; reflexivity].
    destruct (negb _ || negb _); [right; left; reflexivity |].
    destruct (generateToken _); [left | right; right]; reflexivity.
  - intro S. destruct (login_200_inv _ _ S) as (V & Vis & _).
    split; assumption.
Qed.

(** X21.  The [userId] that a 200 answer returns, which is also the one
    signed into the token, is canonical: 1 to 50 characters from
    [[a-z0-9._@-]], with no upper-case letter and no white space. *)
Theorem login_userId_canonical (bodyUserId bodyPassword : option string) :
  statusCode (Auth.login generateToken R bodyUserId bodyPassword) = 200 ->
  exists userId token,
    Json.get "user"
      (body (Auth.login generateToken R bodyUserId bodyPassword))
    = Some (JObj [("userId", JStr userId);
                  ("loginTime", JStr (toISOString R))])
    /\ generateToken (Auth.payloadFor R userId) = Ok token
    /\ Auth.userId (Auth.payloadFor R userId) = userId
    /\ Ids.canonical userId = true.
Proof.
  intro S. destruct (login_200_inv _ _ S) as (V & _ & token & G & E).
  exists (Str.toLowerCase (Str.trim (Validator.toString bodyUserId))), token.
  rewrite E. split; [reflexivity |]. split; [exact G |].
  split; [reflexivity |].
  unfold Shape.validUserId in V. unfold Ids.canonical.
  apply andb_true_iff in V as [V Chars]. rewrite toLowerCase_length, V.
  exact (toLowerCase_canonical _ Chars).
Qed.

(** X22.  White space around the [userId] is ignored: two non-empty
    [userId]s that trim to the same string get the same answer. *)
Theorem login_ignores_outer_space
    (userId userId' : string) (bodyPassword : option string) :
  userId <> EmptyString -> userId' <> EmptyString ->
  Str.trim userId = Str.trim userId' ->
  Auth.login generateToken R (Some userId) bodyPassword
  = Auth.login generateToken R (Some userId') bodyPassword.
Proof.
  intros N N' E.
  unfold Auth.login, Validator.validateLoginInput, Validator.check,
    Validator.notEmpty.
  cbn [Validator.toString]. rewrite <- E.
  destruct userId; [contradiction |].
  destruct userId'; [contradiction |].
  reflexivity.
Qed.

End Login.

(** The theorem on a request that gets 200. *)
Lemma login_status_witness :
  Shape.validUserId (Str.trim "  Student.01@stu.upes.ac.in ") = true
  /\ Shape.hasVisibleChar "secret" = true.
Proof.
  apply (proj2 (@login_status (fun _ => Ok "token") Examples.runtime
                  (Some "  Student.01@stu.upes.ac.in ") (Some "secret"))).
  reflexivity.
Defined.

(** The theorem on the user id "  Student.01@stu.upes.ac.in ". *)
Lemma login_userId_canonical_witness :
  exists userId token,
    Json.get "user"
      (body (Auth.login (fun _ => Ok "token") Examples.runtime
               (Some "  Student.01@stu.upes.ac.in ") (Some "secret")))
    = Some (JObj [("userId", JStr userId);
                  ("loginTime", JStr (toISOString Examples.runtime))])
    /\ (fun _ : Auth.Payload => Ok "token")
         (Auth.payloadFor Examples.runtime userId) = Ok token
    /\ Auth.userId (Auth.payloadFor Examples.runtime userId) = userId
    /\ Ids.canonical userId = true.
Proof.
  apply (@login_userId_canonical (fun _ => Ok "token") Examples.runtime
           (Some "  Student.01@stu.upes.ac.in ") (Some "secret")).
  reflexivity.
Defined.

(** The theorem on "  asha " and "asha". *)
Lemma login_ignores_outer_space_witness :
  Auth.login (fun _ => Ok "token") Examples.runtime (Some "  asha ")
    (Some "secret")
  = Auth.login (fun _ => Ok "token") Examples.runtime (Some "asha")
      (Some "secret").
Proof.
  apply (@login_ignores_outer_space (fun _ => Ok "token") Examples.runtime
           "  asha " "asha" (Some "secret"));
    [discriminate | discriminate | reflexivity].
Defined.

End AuthMoreFacts.

(* ================================================================== *)
(** * Facts about reading a table row *)
(* ================================================================== *)

Module DynamicRowFacts.

Import NumFacts.


Lemma takeDigits_then (d : string) (c : ascii) (rest : string) :
  Str.allChars Str.isDigit d = true -> Str.isDigit c = false ->
  Scan.takeDigits (d ++ String c rest) = (d, String c rest).
Proof.
  intros Hd Hc. induction d as [| x d IH].
  - cbn [append Scan.takeDigits]. rewrite Hc. reflexivity.
  - cbn [Str.allChars] in Hd. apply andb_true_iff in Hd as [Hx Hd].
    cbn [append Scan.takeDigits]. rewrite Hx, (IH Hd). reflexivity.
Qed.















Lemma dropStart_head (p : ascii -> bool) (s : string) :
  DynamicRow.dropStart p s = EmptyString
  \/ exists c rest, DynamicRow.dropStart p s = String c rest /\ p c = false.
Proof.
  induction s as [| c rest IH]; [left; reflexivity |].
  cbn [DynamicRow.dropStart]. destruct (p c) eqn:E; [exact IH |].
  right. eauto.
Qed.

Lemma dropEnd_keeps_head (p : ascii -> bool) (c : ascii) (rest : string) :
  p c = false ->
  exists rest', DynamicRow.dropEnd p (String c rest) = String c rest'.
Proof.
  intro H. cbn [DynamicRow.dropEnd]. rewrite H.
  destruct (DynamicRow.dropEnd p rest); eauto.
Qed.

Lemma dropEnd_last (p : ascii -> bool) (s : string) :
  DynamicRow.dropEnd p s = EmptyString
  \/ exists c, Cells.lastChar (DynamicRow.dropEnd p s) = Some c /\ p c = false.
Proof.
  induction s as [| c rest IH]; [left; reflexivity |].
  cbn [DynamicRow.dropEnd].
  destruct (DynamicRow.dropEnd p rest) as [| d r] eqn:E.
  - destruct (p c) eqn:Pc; [left; reflexivity |].
    right. exists c. split; [reflexivity | exact Pc].
  - right. destruct IH as [IH | (x & L & Px)]; [discriminate IH |].
    exists x. split; [| exact Px]. cbn [Cells.lastChar]. exact L.
Qed.

Lemma word_not_break (c : ascii) :
  DynamicRow.isWordChar c = true ->
  (if ((Str.code c =? 10) || (Str.code c =? 13))%N then " "%char else c) = c.
Proof.
  destruct c as [[] [] [] [] [] [] [] []]; vm_compute; intro;
    congruence.
Qed.

Lemma lastChar_mapChars (f : ascii -> ascii) (s : string) :
  Cells.lastChar (Str.mapChars f s) = option_map f (Cells.lastChar s).
Proof.
  induction s as [| c rest IH]; [reflexivity |].
  cbn [Str.mapChars]. destruct rest as [| d rest']; [reflexivity |].
  cbn [Str.mapChars Cells.lastChar] in *. exact IH.
Qed.

(** X25.  [cleanText] returns [null] for [null] and for the empty
    string, and otherwise [null] or a string that is not empty and that
    begins and ends with a letter, a digit or an underscore. *)
Theorem cleanText_ends (text : option string) :
  (text = None \/ text = Some EmptyString -> DynamicRow.cleanText text = None)
  /\ (forall cleaned,
        DynamicRow.cleanText text = Some cleaned ->
        cleaned <> EmptyString
        /\ Cells.isWord (Cells.firstChar cleaned) = true
        /\ Cells.isWord (Cells.lastChar cleaned) = true).
Proof.
  split; [intros [-> | ->]; reflexivity |].
  intros cleaned. unfold DynamicRow.cleanText.
  destruct text as [t |]; [| discriminate].
  destruct (negb (Str.truthy t)); [discriminate |].
  unfold DynamicRow.stripNonWord.
  set (x := DynamicRow.collapseFrom false (Str.trim t)).
  set (nw := fun c => negb (DynamicRow.isWordChar c)).
  destruct (dropStart_head nw x) as [E | (c & rest & E & Pc)]; rewrite E.
  - cbn. discriminate.
  - destruct (@dropEnd_keeps_head nw c rest Pc) as [rest' K].
    destruct (dropEnd_last nw (String c rest)) as [L | (z & L & Pz)];
      [rewrite K in L; discriminate L |].
    unfold nw in Pc, Pz. apply negb_false_iff in Pc, Pz.
    remember (DynamicRow.dropEnd nw (String c rest)) as r eqn:R.
    clear R. unfold DynamicRow.breaksToSpaces.
    destruct (Str.truthy _) eqn:T; [| discriminate].
    intro H. injection H as <-.
    split; [| split].
    + rewrite K. discriminate.
    + rewrite K. cbn [Str.mapChars Cells.firstChar Cells.isWord].
      rewrite (word_not_break _ Pc). exact Pc.
    + rewrite lastChar_mapChars, L. cbn [option_map Cells.isWord].
      rewrite (word_not_break _ Pz). exact Pz.
Qed.

(** The theorem on the text "  -- Data   Structures (CS201) ". *)
Lemma cleanText_ends_witness :
  DynamicRow.cleanText (Some "  -- Data   Structures (CS201) ")
  = Some "Data Structures (CS201"
  /\ Cells.isWord (Cells.firstChar "Data Structures (CS201") = true
  /\ Cells.isWord (Cells.lastChar "Data Structures (CS201") = true.
Proof.
  split; [reflexivity |].
  destruct (proj2 (cleanText_ends
                     (Some "  -- Data   Structures (CS201) "))
              "Data Structures (CS201" eq_refl) as (_ & F & L).
  split; assumption.
Defined.

End DynamicRowFacts.

(* ================================================================== *)
(** * The overall figures of [calculateOverallAttendance] *)
(* ================================================================== *)

Module OverallFacts.

Lemma sumZ_from {A} (f : A -> Z) (xs : list A) (a : Z) :
  List.fold_left (fun sum x => sum + f x) xs a = a + sumZ f xs.
Proof.
  unfold sumZ. revert a.
  induction xs as [| x xs IH]; intro a; cbn [List.fold_left]; [lia |].
  rewrite (IH (a + f x)), (IH (0 + f x)). lia.
Qed.

Lemma sumZ_cons {A} (f : A -> Z) (x : A) (xs : list A) :
  sumZ f (x :: xs) = f x + sumZ f xs.
Proof.
  unfold sumZ at 1. cbn [List.fold_left]. rewrite sumZ_from. lia.
Qed.


Lemma sumZ_zero {A} (f : A -> Z) (xs : list A) :
  Forall (fun x => f x = 0) xs -> sumZ f xs = 0.
Proof.
  induction 1 as [| x xs Hx _ IH]; [reflexivity |].
  rewrite sumZ_cons. lia.
Qed.

Lemma overall_totalClasses (attendanceData : list AttendanceRecord) :
  Dynamic.totalClasses (Dynamic.calculateOverallAttendance attendanceData)
  = sumZ (fun s => Dynamic.numberOf (total s)) attendanceData.
Proof.
  destruct attendanceData as [| s rest]; [reflexivity |].
  unfold Dynamic.calculateOverallAttendance. cbv zeta.
  destruct (Dynamic.overallStatus _). reflexivity.
Qed.


Lemma overall_percentage (attendanceData : list AttendanceRecord) :
  let o := Dynamic.calculateOverallAttendance attendanceData in
  Dynamic.overallPercentage o
  = if 0 <? Dynamic.totalClasses o
    then Num.toFixed2 (inject_Z (Dynamic.attendedClasses o)
                       / inject_Z (Dynamic.totalClasses o) * 100)%Q
    else 0%Q.
Proof.
  destruct attendanceData as [| s rest]; [reflexivity |].
  unfold Dynamic.calculateOverallAttendance. cbv zeta.
  destruct (Dynamic.overallStatus _). reflexivity.
Qed.

Lemma overall_status (s : AttendanceRecord) (rest : list AttendanceRecord) :
  let o := Dynamic.calculateOverallAttendance (s :: rest) in
  Dynamic.status o = fst (Dynamic.overallStatus (Dynamic.overallPercentage o))
  /\ List.hd_error (Dynamic.recommendations o)
     = Some (snd (Dynamic.overallStatus (Dynamic.overallPercentage o))).
Proof.
  unfold Dynamic.calculateOverallAttendance. cbv zeta.
  destruct (Dynamic.overallStatus _) as [st f] eqn:E.
  cbn [Dynamic.status Dynamic.overallPercentage Dynamic.recommendations].
  rewrite E. split; reflexivity.
Qed.




(** X27.  A list that is not empty but whose records hold no classes (each
    [total] is [null] or 0) gets the overall percentage 0, the status
    'Critical' and the critical recommendation first, whatever the
    percentages of the records are. *)
Theorem overall_without_classes
    (s : AttendanceRecord) (rest : list AttendanceRecord) :
  Forall (fun r => Dynamic.numberOf (total r) = 0) (s :: rest) ->
  let o := Dynamic.calculateOverallAttendance (s :: rest) in
  Dynamic.overallPercentage o == 0
  /\ Dynamic.status o = "Critical"
  /\ List.hd_error (Dynamic.recommendations o)
     = Some "Critical: Attendance is too low. Immediate improvement needed.".
Proof.
  intros H o.
  pose proof (sumZ_zero (fun r => Dynamic.numberOf (total r)) H) as Z0.
  rewrite <- overall_totalClasses in Z0. fold o in Z0.
  pose proof (overall_percentage (s :: rest)) as P.
  cbv zeta in P. fold o in P. rewrite Z0 in P. cbn [Z.ltb Z.compare] in P.
  destruct (overall_status s rest) as [S R]. fold o in S, R.
  rewrite S, R, P. repeat split; reflexivity.
Qed.

(** The theorem on one record that is 'Good' by its percentage but has
    no counts. *)
Lemma overall_without_classes_witness :
  let r := {| subject := "Physics"; attended := None; total := None;
              percentage := 80; status := "Good" |} in
  let o := Dynamic.calculateOverallAttendance [r] in
  Dynamic.safeSubjects o = 1
  /\ Dynamic.overallPercentage o == 0
  /\ Dynamic.status o = "Critical".
Proof.
  intros r o. split; [reflexivity |].
  assert (H : Forall (fun x => Dynamic.numberOf (total x) = 0) [r])
    by (repeat constructor).
  destruct (overall_without_classes H) as (P & S & _).
  split; assumption.
Defined.

End OverallFacts.
